(** * Content-generation backend: a shallow embedding and its properties

    The development follows the Python sources of the service:

    - [PyStr]: the string primitives of the Python runtime the code relies
      on ([str.split], [str.strip], [in], [str.lower], ...), over 8-bit
      characters: they are Python's on ASCII text, and a text with other
      code points is outside of what is modelled;
    - [Markdown]: [DetailedContentGenerator._parse_markdown_sections],
      [_extract_main_content] and [expand_lesson_content]
      (src/ai/lessons_generator/agents/lessons_generator.py);
    - [LessonQuality]: [LessonQualityChecker]
      (src/ai/lessons_generator/agents/lesson_quality_checker.py);
    - [DescriptionQuality]: [DescriptionQualityChecker]
      (src/ai/course_description_generator/course_description.py);
    - [ModuleQuality]: the five checks of [ModuleQualityChecker]
      (src/ai/module_generator/agents/module_generator.py) on texts and
      lists of texts;
    - [Dicts], [Json], [PyJson]: dictionaries in insertion order, the values
      [json.loads] returns, and what the interpreter does when the code
      subscripts, measures or iterates such a value, whatever its type;
    - [Effects], [Pipeline]: the LLM provider and MongoDB as explicit state,
      the generators of the three stages and [Courses.generate_course]
      (src/components/courses.py). Where a method is a [try] block with a
      handler, its statements under [try] are the definition named
      [..._body];
    - [Users], [AuthComponent], [AuthUtils]: the user table,
      [AuthComponent] (src/components/auth.py) and [register_user] of
      src/utils/auth.py;
    - [LessonReports], [Tokens], [AuthEndpoints], [Mongo], [Courses]: the
      module report of the lesson checker, the functions and endpoints
      behind a token, and the read and update methods of the course
      component.

    The definitions come first, then sample data ([Samples]), then the
    properties, module by module.

    Scores that the Python code computes with binary floating point are
    modelled with exact rationals ([Q]); all the constants involved are
    multiples of 1/20, and the thresholds are compared exactly. [Binary64]
    repeats the comparisons that decide the examples below in IEEE 754
    double precision, the arithmetic of Python's [float]. *)

From Stdlib Require Import String Ascii List Bool Arith ZArith QArith Qround Lia.
From Stdlib Require Import Floats.PrimFloat.
Import ListNotations.

Set Warnings "-inexact-float".
Close Scope Q_scope.
Local Open Scope string_scope.
Local Open Scope list_scope.
Local Open Scope nat_scope.

(** String concatenation (Python's [+] on [str]). *)
Infix "+++" := String.append (right associativity, at level 60).

(* ===================================================================== *)
(** * Python string primitives *)
(* ===================================================================== *)

Module PyStr.

(** [str.isspace] on code points below 128: TAB, LF, VT, FF, CR,
    FS, GS, RS, US and SPACE. *)
Definition is_space (c : ascii) : bool :=
  let n := nat_of_ascii c in
  ((9 <=? n) && (n <=? 13)) || ((28 <=? n) && (n <=? 32)).

Definition is_digit (c : ascii) : bool :=
  let n := nat_of_ascii c in (48 <=? n) && (n <=? 57).

Definition is_upper (c : ascii) : bool :=
  let n := nat_of_ascii c in (65 <=? n) && (n <=? 90).

Definition is_lower (c : ascii) : bool :=
  let n := nat_of_ascii c in (97 <=? n) && (n <=? 122).

(** The regular-expression class [\w] on code points below 128. *)
Definition is_word (c : ascii) : bool :=
  is_digit c || is_upper c || is_lower c || Ascii.eqb c "_"%char.

Definition lower_char (c : ascii) : ascii :=
  if is_upper c then ascii_of_nat (nat_of_ascii c + 32) else c.

(** [s.lower()] *)
Fixpoint lower (s : string) : string :=
  match s with
  | EmptyString => EmptyString
  | String c s' => String (lower_char c) (lower s')
  end.

(** [s.startswith(p)] *)
Definition startswith (p s : string) : bool := String.prefix p s.

(** [sub in s] *)
Fixpoint contains (sub s : string) : bool :=
  String.prefix sub s ||
  match s with
  | EmptyString => false
  | String _ s' => contains sub s'
  end.

(** [s[n:]] *)
Fixpoint drop (n : nat) (s : string) : string :=
  match n, s with
  | O, _ => s
  | S _, EmptyString => EmptyString
  | S k, String _ s' => drop k s'
  end.

(** [s.split(sep)] for a one-character separator: never empty. *)
Fixpoint split_on (sep : ascii) (s : string) : list string :=
  match s with
  | EmptyString => [EmptyString]
  | String c s' =>
      if Ascii.eqb c sep then EmptyString :: split_on sep s'
      else match split_on sep s' with
           | [] => [String c EmptyString]
           | w :: ws => String c w :: ws
           end
  end.

(** [s.split()]: the maximal runs of non-blank characters. [cur] is the
    run being read, in order. *)
Fixpoint split_ws_aux (cur : string) (s : string) : list string :=
  match s with
  | EmptyString => if String.eqb cur "" then [] else [cur]
  | String c s' =>
      if is_space c
      then (if String.eqb cur "" then split_ws_aux "" s'
            else cur :: split_ws_aux "" s')
      else split_ws_aux (cur +++ String c "") s'
  end.

Definition split_ws (s : string) : list string := split_ws_aux "" s.

(** [s.lstrip()], [s.rstrip()], [s.strip()] *)
Fixpoint lstrip (s : string) : string :=
  match s with
  | EmptyString => EmptyString
  | String c s' => if is_space c then lstrip s' else s
  end.

Fixpoint rstrip (s : string) : string :=
  match s with
  | EmptyString => EmptyString
  | String c s' =>
      let r := rstrip s' in
      if is_space c && String.eqb r "" then EmptyString else String c r
  end.

Definition strip (s : string) : string := rstrip (lstrip s).

(** [s.strip(ch)] for a one-character argument. *)
Fixpoint lstrip_char (ch : ascii) (s : string) : string :=
  match s with
  | EmptyString => EmptyString
  | String c s' => if Ascii.eqb c ch then lstrip_char ch s' else s
  end.

Fixpoint rstrip_char (ch : ascii) (s : string) : string :=
  match s with
  | EmptyString => EmptyString
  | String c s' =>
      let r := rstrip_char ch s' in
      if Ascii.eqb c ch && String.eqb r "" then EmptyString else String c r
  end.

Definition strip_char (ch : ascii) (s : string) : string :=
  rstrip_char ch (lstrip_char ch s).

(** [sep.join(parts)] *)
Definition join (sep : string) (parts : list string) : string :=
  String.concat sep parts.

(** [s.count(sub)]: occurrences of [sub], not overlapping, read from the
    left. [skip] characters are still covered by the last occurrence. *)
Fixpoint count_from (sub s : string) (skip : nat) : nat :=
  match s with
  | EmptyString => 0
  | String _ s' =>
      match skip with
      | S k => count_from sub s' k
      | O => if String.prefix sub s
             then S (count_from sub s' (String.length sub - 1))
             else count_from sub s' 0
      end
  end.

Definition count (sub s : string) : nat := count_from sub s 0.

(** [s.replace(ch, '')] for a one-character [ch]. *)
Fixpoint remove_char (ch : ascii) (s : string) : string :=
  match s with
  | EmptyString => EmptyString
  | String c s' =>
      if Ascii.eqb c ch then remove_char ch s' else String c (remove_char ch s')
  end.

(** [any(t in s for t in terms)] *)
Definition any_in (terms : list string) (s : string) : bool :=
  existsb (fun t => contains t s) terms.

(** [x in xs] for a list of strings. *)
Definition mem (x : string) (xs : list string) : bool :=
  existsb (String.eqb x) xs.

Definition LF : ascii := ascii_of_nat 10.
Definition CR : ascii := ascii_of_nat 13.
Definition NL : string := String LF "".
Definition DQUOTE : ascii := ascii_of_nat 34.

End PyStr.

(* ===================================================================== *)
(** * Lessons *)
(* ===================================================================== *)

(** [LessonItem.type]: [Literal["read", "read_and_execute"]]. *)
Inductive LessonType := read | read_and_execute.

Definition LessonType_eqb (a b : LessonType) : bool :=
  match a, b with
  | read, read | read_and_execute, read_and_execute => true
  | _, _ => false
  end.

(** [LessonItem] (src/ai/lessons_generator/states/states.py). *)
Record LessonItem := mkLesson {
  lesson_id : string;
  title : string;
  type : LessonType;
  content : string;
  instruction : option string;
  expected_output : option string;
  answer : option string;
  outline : option string
}.

Definition set_content (l : LessonItem) (c : string) : LessonItem :=
  mkLesson (lesson_id l) (title l) (type l) c
           (instruction l) (expected_output l) (answer l) (outline l).

Definition set_title (l : LessonItem) (t : string) : LessonItem :=
  mkLesson (lesson_id l) t (type l) (content l)
           (instruction l) (expected_output l) (answer l) (outline l).

Definition set_lesson_id (l : LessonItem) (i : string) : LessonItem :=
  mkLesson i (title l) (type l) (content l)
           (instruction l) (expected_output l) (answer l) (outline l).

Definition set_exercise (l : LessonItem) (i e a : option string) : LessonItem :=
  mkLesson (lesson_id l) (title l) (type l) (content l) i e a (outline l).

(** Python truthiness of an optional string: [None] and [''] are false. *)
Definition truthy (o : option string) : bool :=
  match o with
  | Some s => negb (String.eqb s "")
  | None => false
  end.

(* ===================================================================== *)
(** * Markdown sections *)
(* ===================================================================== *)

Module Markdown.
Import PyStr.

(** A Python [dict] from section name to section text. Iteration follows
    insertion order, and assigning to a key that is present keeps its
    place. *)
Definition Sections := list (string * string).

Fixpoint dict_set (k v : string) (d : Sections) : Sections :=
  match d with
  | [] => [(k, v)]
  | (k', v') :: d' =>
      if String.eqb k k' then (k, v) :: d' else (k', v') :: dict_set k v d'
  end.

(** [d.get(k, default)] *)
Fixpoint dict_get (k : string) (d : Sections) (default : string) : string :=
  match d with
  | [] => default
  | (k', v') :: d' => if String.eqb k k' then v' else dict_get k d' default
  end.

(** The three locals of the loop of [_parse_markdown_sections]. *)
Record ParseState := mkParse {
  sections : Sections;
  current_section : option string;
  current_content : list string
}.

Definition parse_init : ParseState := mkParse [] None [].

(** [if current_section: sections[current_section] = ...] *)
Definition save_section (st : ParseState) : Sections :=
  match current_section st with
  | Some name =>
      if truthy (Some name)
      then dict_set name (strip (join NL (current_content st))) (sections st)
      else sections st
  | None => sections st
  end.

(** One iteration of [for line in markdown_text.split('\n')]. *)
Definition parse_line (st : ParseState) (line : string) : ParseState :=
  if startswith "## " line
  then mkParse (save_section st) (Some (strip (drop 3 line))) []
  else if truthy (current_section st)
       then mkParse (sections st) (current_section st)
                    (current_content st ++ [line])
       else st.

Definition parse_lines (st : ParseState) (lines : list string) : ParseState :=
  fold_left parse_line lines st.

Definition _parse_markdown_sections (markdown_text : string) : Sections :=
  save_section (parse_lines parse_init (split_on LF markdown_text)).

Definition excluded_sections : list string :=
  ["instruction"; "expected_output"; "answer"].

(** [_extract_main_content] *)
Definition _extract_main_content (secs : Sections) : string :=
  let content_parts :=
    map (fun '(section, text) => "## " +++ section +++ NL +++ text)
        (filter (fun '(section, _) => negb (mem (lower section) excluded_sections))
                secs) in
  join (NL +++ NL) content_parts.

(** No line of [t] starts with the header marker. *)
Definition no_header_line (t : string) : bool :=
  forallb (fun line => negb (startswith "## " line)) (split_on LF t).

Section Expand.
(** The chain of six [re.sub] rewrites of [_ensure_markdown_consistency],
    kept abstract: only the guard in front of it is needed here. *)
Variable markdown_rewrites : string -> string.

Definition _ensure_markdown_consistency (c : string) : string :=
  if String.eqb c "" then c else markdown_rewrites c.

(** [expand_lesson_content], after the prompt is built. [response] is
    the outcome of [self.model.invoke(system_prompt)]: [None] when the
    call raises, [Some text] for [response.content]. The method updates
    and returns the lesson it was given. *)
Definition expand_lesson_content (lesson : LessonItem)
           (response : option string) : LessonItem :=
  match response with
  | None => lesson
  | Some expanded_content =>
      let content_sections := _parse_markdown_sections expanded_content in
      let lesson1 :=
        set_content lesson
          (_ensure_markdown_consistency (_extract_main_content content_sections)) in
      match type lesson1 with
      | read_and_execute =>
          set_exercise lesson1
            (Some (_ensure_markdown_consistency
                     (dict_get "instruction" content_sections "")))
            (Some (_ensure_markdown_consistency
                     (dict_get "expected_output" content_sections "")))
            (Some (_ensure_markdown_consistency
                     (dict_get "answer" content_sections "")))
      | read => lesson1
      end
  end.
End Expand.

End Markdown.

(* ===================================================================== *)
(** * Lesson quality checker *)
(* ===================================================================== *)

Module LessonQuality.
Import PyStr Markdown.

(** ** [check_content_structure] *)

Inductive StructureQuality := good | needs_improvement.

Record StructureCheck := mkStructure {
  has_sections : bool;
  content_length : nat;
  paragraph_count : nat;
  has_formatting : bool;
  structure_quality : StructureQuality
}.

(** After the two hashes: at least one blank, then a word character. *)
Fixpoint blanks_then_word (seen_blank : bool) (s : string) : bool :=
  match s with
  | EmptyString => false
  | String c s' =>
      if is_space c then blanks_then_word true s' else seen_blank && is_word c
  end.

(** [bool(re.findall(r'##\s+\w+', content))] *)
Fixpoint has_section_header (s : string) : bool :=
  (String.prefix "##" s && blanks_then_word false (drop 2 s)) ||
  match s with
  | EmptyString => false
  | String _ s' => has_section_header s'
  end.

Definition formatting_markers : list string := ["**"; "*"; "```"; "- "; "1. "].

Definition check_content_structure (c : string) : StructureCheck :=
  let sections_found := has_section_header c in
  let len := String.length c in
  let paragraphs := count (NL +++ NL) c in
  let formatting := existsb (fun marker => contains marker c) formatting_markers in
  mkStructure sections_found len paragraphs formatting
    (if sections_found && (500 <? len) && (3 <=? paragraphs) && formatting
     then good else needs_improvement).

(** ** [check_code_quality] *)

(** The result when [has_code] is true; [None] stands for
    [{"has_code": False}]. *)
Record CodeQuality := mkCode {
  has_comments : bool;
  has_proper_indentation : bool;
  has_error_handling : bool
}.

Definition comment_markers : list string :=
  ["//"; "/*"; "#"; "<!--";
   String DQUOTE (String DQUOTE (String DQUOTE ""));
   "'''"].

Definition error_handling_patterns : list string :=
  ["try"; "catch"; "except"; "finally"; "rescue"; "raise"; "throw"; "error";
   "handle"; "on error"; "if err"; "error handling"].

(** [len(set(xs))] *)
Definition distinct (xs : list nat) : nat := length (nodup Nat.eq_dec xs).

Definition check_code_quality (code : string) : option CodeQuality :=
  if String.eqb code "" then None
  else
    let comments := existsb (fun m => contains m code) comment_markers in
    let lines := split_on LF code in
    let indentation :=
      if 1 <? length lines then
        let indentation_levels :=
          map (fun line => String.length line - String.length (lstrip line))
              (filter (fun line => negb (String.eqb (strip line) "")) (tl lines)) in
        distinct indentation_levels <=? 3
      else true in
    let error_handling :=
      existsb (fun p => contains p (lower code)) error_handling_patterns in
    Some (mkCode comments indentation error_handling).

(** ** [check_exercise_quality] *)

(** [None] stands for [{"is_exercise": False}]. *)
Record ExerciseQuality := mkExercise {
  has_clear_steps : bool;
  has_clear_output : bool;
  solution_quality : option CodeQuality
}.

(** The rest of [\d+[\.\)]\s] once a first digit has been read. *)
Fixpoint after_digits (s : string) : bool :=
  match s with
  | EmptyString => false
  | String c s' =>
      if is_digit c then after_digits s'
      else (Ascii.eqb c "."%char || Ascii.eqb c ")"%char) &&
           match s' with
           | String e _ => is_space e
           | EmptyString => false
           end
  end.

Definition step_here (s : string) : bool :=
  match s with
  | String c s' => is_digit c && after_digits s'
  | EmptyString => false
  end.

(** [re.search(r'\b\d+[\.\)]\s', s)]; [prev_word] tells whether the
    character before the current position is a word character. *)
Fixpoint search_step (prev_word : bool) (s : string) : bool :=
  match s with
  | EmptyString => false
  | String c s' => (negb prev_word && step_here s) || search_step (is_word c) s'
  end.

Definition or_empty (o : option string) : string :=
  match o with Some s => s | None => "" end.

Definition check_exercise_quality (lesson : LessonItem) : option ExerciseQuality :=
  match type lesson with
  | read => None
  | read_and_execute =>
      let steps :=
        truthy (instruction lesson) &&
        (search_step false (or_empty (instruction lesson)) ||
         contains "Step" (or_empty (instruction lesson))) in
      let output :=
        truthy (expected_output lesson) &&
        (20 <? String.length (or_empty (expected_output lesson))) in
      Some (mkExercise steps output (check_code_quality (or_empty (answer lesson))))
  end.

(** ** [_check_module_relevance] *)

(** The module context handed to the checker: the values of
    [module_context.get('title', '')] and
    [module_context.get('description', '')]. *)
Record ModuleContext := mkContext {
  context_title : string;
  context_description : string
}.

Record ModuleRelevance := mkRelevance {
  is_relevant : bool;
  keyword_relevance : option Q;
  irrelevant_sections : list string
}.

(** [{"is_relevant": True}] *)
Definition relevant_by_default : ModuleRelevance := mkRelevance true None [].

Definition stop_words : list string :=
  ["a"; "an"; "the"; "and"; "or"; "but"; "if"; "then"; "else"; "when";
   "at"; "from"; "by"; "for"; "with"; "about"; "against"; "between";
   "into"; "through"; "during"; "before"; "after"; "above"; "below";
   "to"; "of"; "in"; "on"; "is"; "are"; "was"; "were"; "be"; "been";
   "being"; "have"; "has"; "had"; "having"; "do"; "does"; "did";
   "doing"; "this"; "that"; "these"; "those"; "will"; "would"; "shall";
   "should"; "can"; "could"; "may"; "might"].

(** [re.sub(r'[^\w\s]', ' ', s)] *)
Fixpoint blank_punctuation (s : string) : string :=
  match s with
  | EmptyString => EmptyString
  | String c s' =>
      String (if is_word c || is_space c then c else " "%char)
             (blank_punctuation s')
  end.

(** [list(set(words))]: the order of a Python set is not specified; only
    membership and size are used by the callers. *)
Definition unique (words : list string) : list string :=
  nodup string_dec words.

Definition _extract_keywords (text : string) : list string :=
  let clean_text := blank_punctuation (lower text) in
  unique (filter (fun word => negb (mem word stop_words) &&
                              (2 <? String.length word))
                 (split_ws clean_text)).

(** [sum(1 for keyword in all_keywords if keyword.lower() in text.lower())
     / max(1, len(all_keywords))] *)
Definition relevance_ratio (all_keywords : list string) (text : string) : Q :=
  let matches :=
    length (filter (fun keyword => contains (lower keyword) (lower text))
                   all_keywords) in
  Qmake (Z.of_nat matches) (Pos.of_nat (Nat.max 1 (length all_keywords))).

Definition _check_module_relevance (lesson : LessonItem) (ctx : ModuleContext)
  : ModuleRelevance :=
  let title_keywords := _extract_keywords (context_title ctx) in
  let desc_keywords := _extract_keywords (context_description ctx) in
  let all_keywords := unique (title_keywords ++ desc_keywords) in
  let content_text := title lesson +++ " " +++ content lesson in
  let relevance := relevance_ratio all_keywords content_text in
  let irrelevant :=
    map fst
        (filter (fun '(_, section_content) =>
                   negb (Qle_bool (2 # 10)
                                  (relevance_ratio all_keywords section_content)))
                (_parse_markdown_sections (content lesson))) in
  mkRelevance (Qle_bool (3 # 10) relevance && (length irrelevant <=? 1))
              (Some relevance) irrelevant.

(** ** [evaluate_lesson] *)

Record Evaluation := mkEvaluation {
  evaluated_lesson_id : string;
  quality_score : Z;
  passes_threshold : bool;
  structure_check : StructureCheck;
  code_quality : option CodeQuality;
  exercise_quality : option ExerciseQuality;
  module_relevance : ModuleRelevance;
  improvement_suggestions : list string
}.

(** The text between one fence and the next one, if there is a next one. *)
Fixpoint until_fence (s : string) : option string :=
  if String.prefix "```" s then Some EmptyString
  else match s with
       | EmptyString => None
       | String c s' =>
           match until_fence s' with
           | Some body => Some (String c body)
           | None => None
           end
       end.

(** [re.findall(r'```([\s\S]*?)```', s)]; [skip] characters belong to the
    block found last. *)
Fixpoint code_blocks_from (s : string) (skip : nat) : list string :=
  match s with
  | EmptyString => []
  | String _ s' =>
      match skip with
      | S k => code_blocks_from s' k
      | O =>
          if String.prefix "```" s then
            match until_fence (drop 3 s) with
            | Some body => body :: code_blocks_from s' (String.length body + 5)
            | None => code_blocks_from s' 0
            end
          else code_blocks_from s' 0
      end
  end.

Definition find_code_blocks (s : string) : list string := code_blocks_from s 0.

(** [x -= d] when [cond] holds. *)
Definition deduct (cond : bool) (d : Z) (score : Z) : Z :=
  if cond then (score - d)%Z else score.

(** [suggestions.append(text)] when [cond] holds. *)
Definition suggest (cond : bool) (text : string) (acc : list string) : list string :=
  if cond then acc ++ [text] else acc.

Definition is_needs_improvement (q : StructureQuality) : bool :=
  match q with needs_improvement => true | good => false end.

(** The deductions of [evaluate_lesson], before the score is clamped. *)
Definition raw_score (sc : StructureCheck) (cq : option CodeQuality)
           (eq : option ExerciseQuality) (mr : ModuleRelevance) : Z :=
  let s0 := 100%Z in
  let s1 := deduct (is_needs_improvement (structure_quality sc)) 20 s0 in
  let s2 := deduct (content_length sc <? 300) 15 s1 in
  let s3 := deduct (negb (has_sections sc)) 15 s2 in
  let s4 := deduct (negb (has_formatting sc)) 10 s3 in
  let s5 :=
    match cq with
    | Some q =>
        deduct (negb (has_error_handling q)) 5
          (deduct (negb (has_proper_indentation q)) 10
             (deduct (negb (has_comments q)) 10 s4))
    | None => s4
    end in
  let s6 :=
    match eq with
    | Some q =>
        deduct (negb (has_clear_output q)) 10
          (deduct (negb (has_clear_steps q)) 15 s5)
    | None => s5
    end in
  deduct (negb (is_relevant mr)) 25 s6.

Definition suggestions_for (sc : StructureCheck) (cq : option CodeQuality)
           (eq : option ExerciseQuality) (mr : ModuleRelevance) : list string :=
  let l0 : list string := [] in
  let l1 :=
    if is_needs_improvement (structure_quality sc) then
      suggest (negb (has_formatting sc))
              "Add formatting elements like bold, italic, lists, or code blocks"
        (suggest (paragraph_count sc <? 3)
                 "Break content into more paragraphs for readability"
           (suggest (content_length sc <? 300)
                    "Expand the content with more detailed explanations"
              (suggest (negb (has_sections sc))
                       "Add section headers to organize content" l0)))
    else l0 in
  let l2 :=
    match cq with
    | Some q =>
        suggest (negb (has_error_handling q)) "Add error handling to code examples"
          (suggest (negb (has_proper_indentation q)) "Fix code indentation"
             (suggest (negb (has_comments q)) "Add comments to code examples" l1))
    | None => l1
    end in
  let l3 :=
    match eq with
    | Some q =>
        suggest (negb (has_clear_output q))
                "Provide clearer description of expected output"
          (suggest (negb (has_clear_steps q))
                   "Add numbered steps to exercise instructions" l2)
    | None => l2
    end in
  if negb (is_relevant mr) then
    suggest (negb (match irrelevant_sections mr with [] => true | _ => false end))
            ("Revise these sections to be more module-specific: " +++
             join ", " (irrelevant_sections mr))
      (l3 ++ ["Rewrite content to focus specifically on the module topic"])
  else l3.

(** [evaluate_lesson(lesson, module_context)]; [None] is a missing or
    empty context. *)
Definition evaluate_lesson (lesson : LessonItem) (module_context : option ModuleContext)
  : Evaluation :=
  let sc := check_content_structure (content lesson) in
  let code_blocks := find_code_blocks (content lesson) in
  let cq :=
    match code_blocks with
    | [] => None
    | _ => check_code_quality (join NL code_blocks)
    end in
  let eq := check_exercise_quality lesson in
  let mr :=
    match module_context with
    | Some ctx => _check_module_relevance lesson ctx
    | None => relevant_by_default
    end in
  let score := Z.max 0 (Z.min 100 (raw_score sc cq eq mr)) in
  mkEvaluation (lesson_id lesson) score (70 <=? score)%Z sc cq eq mr
               (suggestions_for sc cq eq mr).

End LessonQuality.

(* ===================================================================== *)
(** * Scores *)
(* ===================================================================== *)

Module Score.

(** Round to the nearest integer, ties to the even one. *)
Definition round_half_even (q : Q) : Z :=
  let f := Qfloor q in
  match Qcompare (q - inject_Z f) (1 # 2) with
  | Lt => f
  | Gt => (f + 1)%Z
  | Eq => if Z.even f then f else (f + 1)%Z
  end.

(** [round(q, 2)] *)
Definition round2 (q : Q) : Q := Qmake (round_half_even (q * 100)) 100.

(** [x >= y] and [x < y] on scores. *)
Definition geb (x y : Q) : bool := Qle_bool y x.
Definition ltb (x y : Q) : bool := negb (Qle_bool y x).

(** [min(x, y)] *)
Definition min (x y : Q) : Q := if Qle_bool x y then x else y.

(** [sum(xs)] *)
Definition sum (xs : list Q) : Q := fold_left Qplus xs 0%Q.

End Score.

(* ===================================================================== *)
(** * Course description quality checker *)
(* ===================================================================== *)

Module DescriptionQuality.
Import PyStr.

Definition marketing_terms : list string :=
  ["master"; "learn"; "discover"; "develop"; "build"; "create"; "transform";
   "unlock"].

Definition tech_terms : list string :=
  ["javascript"; "python"; "react"; "node"; "web"; "app"; "data"; "code";
   "programming"; "development"].

(** The three criteria of [check_description_quality]. *)
Definition length_ok (description : string) : bool :=
  let words := split_ws description in
  let sentences :=
    filter (fun s => negb (String.eqb (strip s) ""))
           (split_on "."%char description) in
  (15 <=? length words) && (length words <=? 50) &&
  (1 <=? length sentences) && (length sentences <=? 2).

Definition has_marketing_appeal (description : string) : bool :=
  any_in marketing_terms (lower description).

Definition has_specificity (description : string) : bool :=
  any_in tech_terms (lower description).

(** [1.0 if criterion else 0.5] *)
Definition component (criterion : bool) : Q := if criterion then 1%Q else (1 # 2)%Q.

Definition length_score (d : string) : Q := component (length_ok d).
Definition marketing_score (d : string) : Q := component (has_marketing_appeal d).
Definition specificity_score (d : string) : Q := component (has_specificity d).

Definition overall_score (d : string) : Q :=
  ((length_score d + marketing_score d + specificity_score d) / 3 * 100)%Q.

Record Feedback := mkFeedback {
  length_feedback : string;
  marketing_appeal_feedback : string;
  specificity_feedback : string
}.

Record QualityReport := mkReport {
  quality_score : Q;
  passes_threshold : bool;
  feedback : Feedback
}.

Definition remark (score : Q) (otherwise : string) : string :=
  if Score.geb score (8 # 10) then "Good" else otherwise.

Definition check_description_quality (description : string) : QualityReport :=
  mkReport
    (Score.round2 (overall_score description))
    (Score.geb (overall_score description) 80)
    (mkFeedback
       (remark (length_score description)
               "Description should be 1-2 concise sentences (15-50 words)")
       (remark (marketing_score description)
               "Add action-oriented terms that motivate learners")
       (remark (specificity_score description)
               "Include specific technologies or skills covered")).

(** [all(value == "Good" for value in feedback.values())] *)
Definition all_good (f : Feedback) : bool :=
  String.eqb (length_feedback f) "Good" &&
  String.eqb (marketing_appeal_feedback f) "Good" &&
  String.eqb (specificity_feedback f) "Good".

(** How many of the three criteria a description meets. *)
Definition criteria_met (d : string) : nat :=
  (if length_ok d then 1 else 0) +
  (if has_marketing_appeal d then 1 else 0) +
  (if has_specificity d then 1 else 0).

(** The score reported for zero, one, two and three criteria met. *)
Definition reported_score (met : nat) : Q :=
  match met with
  | 0 => 50%Q
  | 1 => (6667 # 100)%Q
  | 2 => (8333 # 100)%Q
  | _ => 100%Q
  end.

End DescriptionQuality.

(* ===================================================================== *)
(** * Adding fields to a dictionary *)
(* ===================================================================== *)

(** [add_fields_to_dict] (src/utils/add_new_field_dict.py), on dictionaries
    with string keys kept in insertion order. *)
Module Dicts.
Import PyStr.

Section Values.
Context {V : Type}.

Definition Dict := list (string * V).

(** [d.keys()] *)
Definition keys (d : Dict) : list string := map fst d.

(** [d[k] = v]: a key that is present keeps its place. *)
Fixpoint set (k : string) (v : V) (d : Dict) : Dict :=
  match d with
  | [] => [(k, v)]
  | (k', v') :: d' =>
      if String.eqb k k' then (k, v) :: d' else (k', v') :: set k v d'
  end.

(** [d.get(k)] *)
Fixpoint get (k : string) (d : Dict) : option V :=
  match d with
  | [] => None
  | (k', v') :: d' => if String.eqb k k' then Some v' else get k d'
  end.

(** The dictionary display [{**a, **b}]: the items of [a], then the
    items of [b] assigned one after the other. *)
Definition unpack (a b : Dict) : Dict :=
  fold_left (fun acc '(k, v) => set k v acc) b a.

Definition add_fields_to_dict (base_dict new_fields : Dict)
           (insert_at_top : bool) : Dict :=
  if insert_at_top then unpack new_fields base_dict
  else unpack base_dict new_fields.

End Values.

Arguments Dict V : clear implicits.

End Dicts.

(* ===================================================================== *)
(** * JSON values *)
(* ===================================================================== *)

(** What [json.loads] makes of a text. The module generator decodes the
    replies of the chat model without validating them, so a module that
    goes through the pipeline is any of these values. A dictionary is the
    list of its items in the order of its keys; a Python dictionary has no
    key twice, and where a property depends on it the keys are required
    to be distinct. *)
Set Warnings "-register-all".
Inductive Json :=
| JNull
| JBool (b : bool)
| JInt (n : Z)
| JFloat (x : float)
| JString (s : string)
| JArray (elements : list Json)
| JObject (items : list (string * Json)).
Set Warnings "register-all".

(* ===================================================================== *)
(** * Module quality checker *)
(* ===================================================================== *)

(** A course module as the generator passes it around: a Python [dict]
    decoded from the model's JSON. A field is [None] when its key is
    absent; the keys the code never reads are kept as they are. *)
Record ModuleDict := mkModule {
  module_title : option string;
  module_description : option string;
  learning_objectives : option (list string);
  key_topics : option (list string);
  practical_applications : option (list string);
  module_id : option string;
  other_fields : list (string * string)
}.

Definition set_module_id (m : ModuleDict) (i : string) : ModuleDict :=
  mkModule (module_title m) (module_description m) (learning_objectives m)
           (key_topics m) (practical_applications m) (Some i) (other_fields m).

Module ModuleQuality.
Import PyStr.

Definition get_string (o : option string) : string :=
  match o with Some s => s | None => "" end.

Definition get_list (o : option (list string)) : list string :=
  match o with Some l => l | None => [] end.

Definition between (lo n hi : nat) : bool := (lo <=? n) && (n <=? hi).

Definition action_verbs : list string :=
  ["build"; "create"; "develop"; "implement"; "master"; "learn";
   "understand"; "explore"].

Definition _check_title_quality (t : string) : Q :=
  if String.eqb t "" then 0%Q
  else
    let length_score :=
      if between 4 (length (split_ws t)) 8 then (5 # 10)%Q else (3 # 10)%Q in
    let action_score :=
      if any_in action_verbs (lower t) then (5 # 10)%Q else (2 # 10)%Q in
    (length_score + action_score)%Q.

Definition _check_description_quality (d : string) : Q :=
  if String.eqb d "" then 0%Q
  else
    let length_score :=
      if 30 <=? length (split_ws d) then (4 # 10)%Q else (2 # 10)%Q in
    let specificity_score :=
      if any_in ["javascript"; "python"; "code"; "function"; "api"] (lower d)
      then (3 # 10)%Q else (1 # 10)%Q in
    let value_score :=
      if any_in ["learn"; "skill"; "practice"; "understand"; "master"] (lower d)
      then (3 # 10)%Q else (1 # 10)%Q in
    (length_score + specificity_score + value_score)%Q.

Definition bloom_verbs : list string :=
  ["analyze"; "apply"; "assess"; "build"; "calculate"; "categorize";
   "compare"; "compile"; "compose"; "construct"; "create"; "critique";
   "define"; "demonstrate"; "design"; "develop"; "differentiate";
   "evaluate"; "explain"; "identify"; "implement"; "integrate"].

Definition _check_learning_objectives (objectives : list string) : Q :=
  match objectives with
  | [] => 0%Q
  | _ =>
      let count_score :=
        if between 4 (length objectives) 8 then (3 # 10)%Q else (1 # 10)%Q in
      let verb_scores :=
        map (fun _ => (1 # 10)%Q)
            (filter (fun obj => any_in bloom_verbs (lower obj)) objectives) in
      let verb_score := Score.min (Score.sum verb_scores) (7 # 10) in
      (count_score + verb_score)%Q
  end.

Definition _check_key_topics (topics : list string) : Q :=
  match topics with
  | [] => 0%Q
  | _ =>
      let count_score :=
        if between 6 (length topics) 15 then (4 # 10)%Q else (2 # 10)%Q in
      let specificity_score :=
        Score.min (6 # 10)
          (Score.sum (map (fun _ => (5 # 100)%Q)
                          (filter (fun topic => 3 <=? length (split_ws topic))
                                  topics))) in
      (count_score + specificity_score)%Q
  end.

Definition industry_terms : list string :=
  ["industry"; "professional"; "workplace"; "company"; "business";
   "production"; "real-world"].

Definition _check_practical_relevance (applications : list string) : Q :=
  match applications with
  | [] => 0%Q
  | _ =>
      let count_score :=
        if 3 <=? length applications then (4 # 10)%Q else (2 # 10)%Q in
      let relevance_score :=
        Score.min (6 # 10)
          (Score.sum (map (fun _ => (15 # 100)%Q)
                          (filter (fun app => any_in industry_terms (lower app))
                                  applications))) in
      (count_score + relevance_score)%Q
  end.

Record Criteria := mkCriteria {
  title_quality : Q;
  description_quality : Q;
  learning_objectives_quality : Q;
  key_topics_quality : Q;
  practical_relevance : Q
}.

(** [criteria.values()] *)
Definition values (c : Criteria) : list Q :=
  [title_quality c; description_quality c; learning_objectives_quality c;
   key_topics_quality c; practical_relevance c].

Definition suggest (cond : bool) (text : string) (acc : list string) : list string :=
  if cond then acc ++ [text] else acc.

Definition _generate_improvement_suggestions (c : Criteria) : list string :=
  suggest (Score.ltb (practical_relevance c) (7 # 10))
          "Add more industry-relevant practical applications with specific examples."
    (suggest (Score.ltb (key_topics_quality c) (7 # 10))
             "Expand key topics to be more comprehensive and specific."
       (suggest (Score.ltb (learning_objectives_quality c) (7 # 10))
                "Improve learning objectives using specific, measurable action verbs from Bloom's taxonomy."
          (suggest (Score.ltb (description_quality c) (7 # 10))
                   "Enhance the description with more specific details about technologies and skills covered."
             (suggest (Score.ltb (title_quality c) (7 # 10))
                      "Make the title more action-oriented and specific about what learners will achieve."
                      [])))).

Record QualityReport := mkReport {
  quality_score : Q;
  passes_threshold : bool;
  criteria : Criteria;
  improvement_suggestions : list string
}.

Definition module_criteria (m : ModuleDict) : Criteria :=
  mkCriteria
    (_check_title_quality (get_string (module_title m)))
    (_check_description_quality (get_string (module_description m)))
    (_check_learning_objectives (get_list (learning_objectives m)))
    (_check_key_topics (get_list (key_topics m)))
    (_check_practical_relevance (get_list (practical_applications m))).

Definition check_module_quality (m : ModuleDict) : QualityReport :=
  let c := module_criteria m in
  let score := (Score.sum (values c) / inject_Z (Z.of_nat (length (values c))) * 100)%Q in
  mkReport (Score.round2 score) (Score.geb score 80) c
           (_generate_improvement_suggestions c).

End ModuleQuality.

(* ===================================================================== *)
(** * The same arithmetic in double precision *)
(* ===================================================================== *)

Module Binary64.
Local Open Scope float_scope.

(** [sum(xs)], adding from the left, starting from 0. *)
Definition sum (xs : list float) : float := fold_left PrimFloat.add xs 0.

Definition min (x y : float) : float := if x <=? y then x else y.

(** The five criteria of the module [Samples.fair_module], with the
    operations of [ModuleQualityChecker] in their order: a title of six
    words without action verb; a short description with a technology and
    a value word; five objectives with a Bloom verb; eight topics of three
    words; three applications with an industry term. *)
Definition fair_criteria : list float :=
  [ 0.5 + 0.2;
    0.2 + 0.3 + 0.3;
    0.3 + min (sum [0.1; 0.1; 0.1; 0.1; 0.1]) 0.7;
    0.4 + min 0.6 (sum [0.05; 0.05; 0.05; 0.05; 0.05; 0.05; 0.05; 0.05]);
    0.4 + min 0.6 (sum [0.15; 0.15; 0.15]) ].

(** [(length_score + marketing_score + specificity_score) / 3 * 100] for
    zero to three criteria met. *)
Definition description_scores : list float :=
  map (fun s => (s / 3) * 100)
      [0.5 + 0.5 + 0.5; 1 + 0.5 + 0.5; 1 + 1 + 0.5; 1 + 1 + 1].

End Binary64.

(* ===================================================================== *)
(** * The outside world: exceptions, the LLM provider, MongoDB *)
(* ===================================================================== *)

Module Effects.

(** ** Exceptions *)

(** Modelled from the spec: [CustomException], whose module src/exception
    is not among the sources. The spec calls it the single generic
    exception type in which a caught error is wrapped;
    [CustomException(e, sys)] keeps the error [e] it was built from. The
    other constructors are [fastapi.HTTPException], the exception
    [Exception(f"Mongo insert failed: {e}")] that [insert_one_document]
    raises [from e], the errors raised by the clients of the LLM provider
    and of the databases, and errors raised by the interpreter. *)
Inductive Exn : Type :=
| HTTPException (status_code : nat) (detail : string)
| CustomException (cause : Exn)
| MongoInsertFailed (cause : Exn)
| ProviderError
| DriverError
| KeyError (key : string)
| ValueError (what : string)
| TypeError (what : string)
| AttributeError (what : string).

Inductive Result (A : Type) : Type :=
| Return (a : A)
| Raise (e : Exn).
Arguments Return {A} a.
Arguments Raise {A} e.

(** The errors the interpreter raises when a value is not of the type
    an operation needs, or a key is missing. *)
Definition interpreter_error (e : Exn) : Prop :=
  match e with
  | KeyError _ | TypeError _ | AttributeError _ => True
  | _ => False
  end.

(** Evaluation that stops at the first error. *)
Definition and_then {A B} (r : Result A) (k : A -> Result B) : Result B :=
  match r with
  | Return a => k a
  | Raise e => Raise e
  end.

Declare Scope result_scope.
Delimit Scope result_scope with result.
Notation "x <- r ;; k" := (and_then r (fun x => k))
  (at level 61, r at next level, right associativity) : result_scope.
Notation "r ;;; k" := (and_then r (fun _ => k))
  (at level 61, right associativity) : result_scope.

(** ** Documents *)

(** The request body [AddNewCourse] (src/schemas/courses.py). *)
Record AddNewCourse := mkRequest {
  course_name : string;
  level : string;
  image_uri : string;
  description : string;
  created_at : string
}.

(** The dictionary built by [generate_description]. *)
Record CourseDoc := mkCourse {
  doc_course_id : string;
  doc_course_name : string;
  doc_level : string;
  doc_image_uri : string;
  doc_created_at : string;
  doc_is_popular : bool;
  doc_is_trending : bool;
  doc_description : string
}.

(** [ModuleItem] and [ModuleOutput]
    (src/ai/module_generator/states/states.py): the structured reply of
    the curriculum request. *)
Record ModuleItem := mkItem {
  item_title : string;
  item_description : string
}.

Record ModuleOutput := mkOutput {
  output_course : string;
  output_duration : string;
  output_num_modules : nat;
  output_tools : list string;
  output_modules : list ModuleItem
}.

(** The dictionary [module_generater] returns: the dumped [ModuleOutput]
    with its modules replaced by the enhanced ones, which are whatever
    the replies decoded to; [generate_module] puts [course_id] and
    [level] in front. *)
Record Curriculum := mkCurriculum {
  course : string;
  duration : string;
  num_modules : nat;
  tools : list string;
  curriculum_modules : list Json
}.

Record ModulesDoc := mkModulesDoc {
  modules_course_id : string;
  modules_level : string;
  curriculum : Curriculum
}.

(** [ModuleLessonContent] and [ModulesLessonOutput]
    (src/ai/lessons_generator/states/states.py). *)
Record ModuleLessonContent := mkModuleLessons {
  lessons_module_id : string;
  lessons : list LessonItem
}.

Record ModulesLessonOutput := mkLessonsDoc {
  lessons_course_id : string;
  lesson_modules : list ModuleLessonContent
}.

Inductive Document :=
| CourseDocument (d : CourseDoc)
| ModulesDocument (d : ModulesDoc)
| LessonsDocument (d : ModulesLessonOutput).

(** ** Observable events *)

(** The places where the code sends a request to the LLM provider. *)
Inductive Site :=
| GenerateDescription | ImproveDescription
| CurriculumStructure | EnhanceModule | ImproveModule
| LessonOutlines | ExpandLesson | ImproveLesson.

(** The collections, after the constants of src/constants/mongodb. *)
Inductive Collection := DOMAINS | COURSES | MODULES | LESSONS.

Inductive Event :=
| LlmCall (site : Site)
| DbFind (c : Collection)
| DbInsert (c : Collection).

(** ** State *)

Record World := mkWorld {
  domain_collection : list Document;
  courses_collection : list Document;
  modules_collection : list Document;
  lessons_collection : list Document;
  llm_calls : nat;       (** requests sent to the LLM provider so far *)
  db_requests : nat;     (** requests sent to MongoDB so far *)
  ids_drawn : nat;       (** calls of [uuid.uuid4] so far *)
  trace : list Event     (** what happened, oldest first *)
}.

Definition collection (c : Collection) (w : World) : list Document :=
  match c with
  | DOMAINS => domain_collection w
  | COURSES => courses_collection w
  | MODULES => modules_collection w
  | LESSONS => lessons_collection w
  end.

(** The contents of the database. *)
Definition collections (w : World)
  : list Document * list Document * list Document * list Document :=
  (domain_collection w, courses_collection w, modules_collection w,
   lessons_collection w).

(** ** What the environment decides *)

(** The fields the improvement prompt asks for, as the regular
    expressions of [improve_lesson] find them in the reply. *)
Record ImprovedFields := mkImproved {
  improved_title : option string;
  improved_content : option string;
  improved_instruction : option string;
  improved_expected_output : option string;
  improved_answer : option string
}.

(** The replies of the services are not determined by the program: they
    are given per request, in the order the requests are made. [None] is
    a request that raises. *)
Class External := {
  chat_model : nat -> option string;
  curriculum_model : nat -> option ModuleOutput;
  outline_model : nat -> option ModuleLessonContent;
  mongo_available : nat -> bool;
  uuid4_hex8 : nat -> string;
  (** [json.loads]; [None] is a text that is no JSON, for which it
      raises [JSONDecodeError]. *)
  json_loads : string -> option Json;
  (** The [re.sub] chain of [_ensure_markdown_consistency]. *)
  markdown_rewrites : string -> string;
  (** The [re.search] extractions of [improve_lesson]. *)
  improved_fields : string -> ImprovedFields
}.

(** ** Computations *)

(** A computation over a state [S]: it ends in a value or in an exception,
    and what it did to the state stays done in both cases. *)
Definition ST (S A : Type) : Type := S -> Result A * S.

Definition ret {S A} (a : A) : ST S A := fun w => (Return a, w).

Definition raise {S A} (e : Exn) : ST S A := fun w => (Raise e, w).

Definition bind {S A B} (m : ST S A) (k : A -> ST S B) : ST S B :=
  fun w =>
    match m w with
    | (Return a, w') => k a w'
    | (Raise e, w') => (Raise e, w')
    end.

(** [try: m  except Exception as e: handler(e)] *)
Definition try_except {S A} (m : ST S A) (handler : Exn -> ST S A) : ST S A :=
  fun w =>
    match m w with
    | (Return a, w') => (Return a, w')
    | (Raise e, w') => handler e w'
    end.

(** A value, or an error that is raised. *)
Definition lift {S A} (r : Result A) : ST S A := fun w => (r, w).

Declare Scope effect_scope.
Delimit Scope effect_scope with effect.
Notation "x <- m ;; k" := (bind m (fun x => k))
  (at level 61, m at next level, right associativity) : effect_scope.
Notation "m ;;; k" := (bind m (fun _ => k))
  (at level 61, right associativity) : effect_scope.

(** The computations of the generation pipeline. *)
Definition M : Type -> Type := ST World.

Definition log (e : Event) (w : World) : World :=
  mkWorld (domain_collection w) (courses_collection w) (modules_collection w)
          (lessons_collection w)
          (llm_calls w) (db_requests w) (ids_drawn w) (trace w ++ [e]).

Definition count_llm_call (w : World) : World :=
  mkWorld (domain_collection w) (courses_collection w) (modules_collection w)
          (lessons_collection w)
          (S (llm_calls w)) (db_requests w) (ids_drawn w) (trace w).

Definition count_db_request (w : World) : World :=
  mkWorld (domain_collection w) (courses_collection w) (modules_collection w)
          (lessons_collection w)
          (llm_calls w) (S (db_requests w)) (ids_drawn w) (trace w).

Definition count_id (w : World) : World :=
  mkWorld (domain_collection w) (courses_collection w) (modules_collection w)
          (lessons_collection w)
          (llm_calls w) (db_requests w) (S (ids_drawn w)) (trace w).

Definition store (c : Collection) (d : Document) (w : World) : World :=
  match c with
  | DOMAINS =>
      mkWorld (domain_collection w ++ [d]) (courses_collection w)
              (modules_collection w) (lessons_collection w) (llm_calls w)
              (db_requests w) (ids_drawn w) (trace w)
  | COURSES =>
      mkWorld (domain_collection w) (courses_collection w ++ [d])
              (modules_collection w) (lessons_collection w) (llm_calls w)
              (db_requests w) (ids_drawn w) (trace w)
  | MODULES =>
      mkWorld (domain_collection w) (courses_collection w)
              (modules_collection w ++ [d]) (lessons_collection w) (llm_calls w)
              (db_requests w) (ids_drawn w) (trace w)
  | LESSONS =>
      mkWorld (domain_collection w) (courses_collection w)
              (modules_collection w) (lessons_collection w ++ [d]) (llm_calls w)
              (db_requests w) (ids_drawn w) (trace w)
  end.

Section Primitives.
Context {ext : External}.

(** A request to the provider at [site], answered by [model]. *)
Definition invoke {A} (model : nat -> option A) (site : Site) : M A :=
  fun w =>
    let w' := log (LlmCall site) (count_llm_call w) in
    match model (llm_calls w) with
    | Some reply => (Return reply, w')
    | None => (Raise ProviderError, w')
    end.

(** [collection.find_one({"course_name": name})] *)
Definition names_course (name : string) (d : Document) : bool :=
  match d with
  | CourseDocument c => String.eqb (doc_course_name c) name
  | _ => false
  end.

Definition find_one (c : Collection) (name : string) : M (option Document) :=
  fun w =>
    let w' := count_db_request w in
    if mongo_available (db_requests w)
    then (Return (find (names_course name) (collection c w)),
          log (DbFind c) w')
    else (Raise DriverError, w').

(** [collection.insert_one(document)] *)
Definition insert_one (c : Collection) (d : Document) : M unit :=
  fun w =>
    let w' := count_db_request w in
    if mongo_available (db_requests w)
    then (Return tt, log (DbInsert c) (store c d w'))
    else (Raise DriverError, w').

(** [unique_id_generator(prefix)] (src/utils/unique_id_generator.py) *)
Definition unique_id_generator (prefix : string) : M string :=
  fun w => (Return (prefix +++ "_" +++ uuid4_hex8 (ids_drawn w)), count_id w).

End Primitives.

(** ** Reasoning about computations *)

(** The result is a raised [CustomException]. *)
Definition raises_custom_exception {A} (r : Result A) : Prop :=
  exists cause, r = Raise (CustomException cause).

(** [op] is [body] under a handler: what [body] returns is returned, a
    failure [e] of [body] ends [op] as [surfaced e], and the state is
    as [body] left it. *)
Definition guards {S A} (op body : ST S A) (surfaced : Exn -> Result A) : Prop :=
  forall w,
    op w = (match fst (body w) with
            | Return a => Return a
            | Raise e => surfaced e
            end, snd (body w)).

(** [m], run from [w], ends in a result and a world that satisfy [Q]. *)
Definition post {S A} (m : ST S A) (w : S) (Q : Result A -> S -> Prop) : Prop :=
  Q (fst (m w)) (snd (m w)).

(** [m] leaves the collections alone, adds only events that satisfy [P]
    to the trace, and never takes back a request it has counted. *)
Definition emits {A} (P : Event -> Prop) (m : M A) : Prop :=
  forall w,
    collections (snd (m w)) = collections w
    /\ llm_calls w <= llm_calls (snd (m w))
    /\ exists t, trace (snd (m w)) = trace w ++ t /\ Forall P t.

End Effects.

(* ===================================================================== *)
(** * Python operations on decoded values *)
(* ===================================================================== *)

(** What the interpreter does when the code of the generators subscripts,
    measures or iterates a decoded value: the result for a value of the
    type the operation needs, the error for any other. The texts of the
    errors are the interpreter's and differ between its versions; nothing
    below depends on them. *)
Module PyJson.
Import PyStr Effects.

(** [bool(v)] *)
Definition truthy (v : Json) : bool :=
  match v with
  | JNull => false
  | JBool b => b
  | JInt n => negb (n =? 0)%Z
  | JFloat x => negb (x =? 0)%float
  | JString s => negb (String.eqb s "")
  | JArray elements => match elements with [] => false | _ => true end
  | JObject items => match items with [] => false | _ => true end
  end.

(** [type(v).__name__] *)
Definition type_name (v : Json) : string :=
  match v with
  | JNull => "NoneType"
  | JBool _ => "bool"
  | JInt _ => "int"
  | JFloat _ => "float"
  | JString _ => "str"
  | JArray _ => "list"
  | JObject _ => "dict"
  end.

Definition no_attribute {A} (v : Json) (name : string) : Result A :=
  Raise (AttributeError ("'" +++ type_name v +++ "' object has no attribute '"
                             +++ name +++ "'")).

(** [{**v}]: only a dictionary can be unpacked. *)
Definition mapping (v : Json) : Result (Dicts.Dict Json) :=
  match v with
  | JObject items => Return items
  | _ => Raise (TypeError ("'" +++ type_name v +++ "' object is not a mapping"))
  end.

(** [v[key]] for a string [key] *)
Definition getitem (v : Json) (key : string) : Result Json :=
  match v with
  | JObject items =>
      match Dicts.get key items with
      | Some x => Return x
      | None => Raise (KeyError key)
      end
  | JArray _ => Raise (TypeError "list indices must be integers or slices, not str")
  | JString _ => Raise (TypeError "string indices must be integers")
  | _ => Raise (TypeError ("'" +++ type_name v +++ "' object is not subscriptable"))
  end.

(** [d.get(key, default)] on a dictionary *)
Definition get_or (key : string) (default : Json) (d : Dicts.Dict Json) : Json :=
  match Dicts.get key d with
  | Some x => x
  | None => default
  end.

(** [v.get(key, default)] *)
Definition get (v : Json) (key : string) (default : Json) : Result Json :=
  match v with
  | JObject items => Return (get_or key default items)
  | _ => no_attribute v "get"
  end.

(** [v[key] = x] for a string [key] *)
Definition setitem (v : Json) (key : string) (x : Json) : Result Json :=
  match v with
  | JObject items => Return (JObject (Dicts.set key x items))
  | JArray _ => Raise (TypeError "list indices must be integers or slices, not str")
  | _ => Raise (TypeError ("'" +++ type_name v
                               +++ "' object does not support item assignment"))
  end.

(** The receiver of a call [v.name()] of a method of [str]. *)
Definition receiver (name : string) (v : Json) : Result string :=
  match v with
  | JString s => Return s
  | _ => no_attribute v name
  end.

(** [v.lower()] *)
Definition lower_of (v : Json) : Result string :=
  (s <- receiver "lower" v ;; Return (lower s))%result.

(** [v[:2]]. A dictionary raises [TypeError] (unhashable type: 'slice')
    up to Python 3.11 and [KeyError] from 3.12 on. *)
Definition slice (v : Json) : Result unit :=
  match v with
  | JString _ | JArray _ => Return tt
  | JObject _ => Raise (TypeError "unhashable type: 'slice'")
  | _ => Raise (TypeError ("'" +++ type_name v +++ "' object is not subscriptable"))
  end.

(** ** The arguments of the checks of [ModuleQualityChecker] *)

(** The text a check works on that starts with [if not v: return 0.0]
    and then calls [v.name()]: a value that is not truthy counts as the
    empty text, and a truthy one has to be a string. *)
Definition text_argument (name : string) (v : Json) : Result string :=
  if truthy v then receiver name v else Return "".

(** [for x in s] over a string: its characters. *)
Definition characters (s : string) : list string :=
  map (fun c => String c "") (list_ascii_of_string s).

(** The elements of a list, each the receiver of [x.name()]: the first
    that is no string raises. *)
Fixpoint receivers (name : string) (elements : list Json) : Result (list string) :=
  match elements with
  | [] => Return []
  | x :: rest =>
      (s <- receiver name x ;;
       others <- receivers name rest ;;
       Return (s :: others))%result
  end.

(** The texts a check works on that starts with [if not v: return 0.0],
    takes [len(v)] and calls [x.name()] for every [x in v]: a value
    that is not truthy counts as the empty list; a string is iterated by
    character and a dictionary by key; a number and [True] have no
    length. *)
Definition texts_argument (name : string) (v : Json) : Result (list string) :=
  if truthy v then
    match v with
    | JString s => Return (characters s)
    | JArray elements => receivers name elements
    | JObject items => Return (Dicts.keys items)
    | _ => Raise (TypeError ("object of type '" +++ type_name v +++ "' has no len()"))
    end
  else Return [].

End PyJson.

(* ===================================================================== *)
(** * The generation pipeline *)
(* ===================================================================== *)

Module Pipeline.
Import PyStr Effects PyJson.
Local Open Scope effect_scope.

Definition or_else {A} (x y : option A) : option A :=
  match x with Some _ => x | None => y end.

(** What [generate_module] hands back: the dictionary, or the exception
    object that its handler returns instead of raising. *)
Inductive Generated :=
| GeneratedModules (d : ModulesDoc)
| ReturnedException (e : Exn).

(** The two dictionaries [generate_course] returns:
    [{"message": ...}] and the [{"udpated": True}] of
    [insert_one_document]. *)
Inductive Response :=
| Message (text : string)
| Updated.

(** The status dictionary of [InsertData.insert_data]. *)
Inductive InsertStatus :=
| StatusTrue
| StatusFalse (error : Exn).

Section Generators.
Context {ext : External}.

(** ** Course description (course_description.py) *)

(** [response.content.strip()] with the double quotes at both ends
    stripped as well. *)
Definition clean_reply (reply : string) : string :=
  strip_char DQUOTE (strip reply).

Definition improve_description (d : string) (f : DescriptionQuality.Feedback)
  : M string :=
  if DescriptionQuality.all_good f then ret d
  else try_except
         (reply <- invoke chat_model ImproveDescription ;;
          ret (clean_reply reply))
         (fun _ => ret d).

(** [" ".join(description.replace('\r', '').split('\n'))] *)
Definition single_line (d : string) : string :=
  join " " (split_on LF (remove_char CR d)).

(** The statements of [generate_description] under [try]. *)
Definition generate_description_body (data : AddNewCourse) (unique_id : string)
  : M CourseDoc :=
  final_description <-
    (if negb (String.eqb (description data) "")
     then ret (single_line (description data))
     else
       reply <- invoke chat_model GenerateDescription ;;
       let initial_description := clean_reply reply in
       let quality_report :=
         DescriptionQuality.check_description_quality initial_description in
       if negb (DescriptionQuality.passes_threshold quality_report)
       then improve_description initial_description
                                (DescriptionQuality.feedback quality_report)
       else ret initial_description) ;;
  ret (mkCourse unique_id (course_name data) (level data) (image_uri data)
                (created_at data) false false final_description).

Definition generate_description (data : AddNewCourse) (unique_id : string)
  : M CourseDoc :=
  try_except (generate_description_body data unique_id)
             (fun e => raise (CustomException e)).

(** ** Modules (module_generator.py, graph.py) *)

(** [{"title": module['title'], "description": module['description'],
    **enhanced_content}] *)
Definition merge (module : ModuleItem) (enhanced_content : Dicts.Dict Json)
  : Dicts.Dict Json :=
  Dicts.unpack [("title", JString (item_title module));
                ("description", JString (item_description module))]
               enhanced_content.

Definition fallback_module (module : ModuleItem) : Dicts.Dict Json :=
  [("title", JString (item_title module));
   ("description", JString (item_description module));
   ("learning_objectives",
    JArray [JString "Unable to generate learning objectives"]);
   ("prerequisites",
    JObject [("knowledge", JArray []); ("technical", JArray [])]);
   ("key_topics", JArray [JString "Unable to generate key topics"]);
   ("practical_applications",
    JArray [JString "Unable to generate practical applications"]);
   ("estimated_completion_time", JString "Unknown")].

(** [json.loads(response.content)] *)
Definition decode (reply : string) : M Json :=
  match json_loads reply with
  | Some v => ret v
  | None => raise (ValueError "json.loads")
  end.

Definition enhance_module (module : ModuleItem) : M (Dicts.Dict Json) :=
  try_except
    (reply <- invoke chat_model EnhanceModule ;;
     decoded <- decode reply ;;
     enhanced_content <- lift (mapping decoded) ;;
     ret (merge module enhanced_content))
    (fun _ => ret (fallback_module module)).

(** [ModuleQualityChecker.check_module_quality] on the dictionary it is
    given: the five checks are made in the order of the criteria, on
    what [module.get] finds, and an argument that is not of the type
    a check needs raises there. *)
Definition check_module_quality (module : Dicts.Dict Json)
  : Result ModuleQuality.QualityReport :=
  (title <- text_argument "split" (get_or "title" (JString "") module) ;;
   description <-
     text_argument "split" (get_or "description" (JString "") module) ;;
   objectives <-
     texts_argument "lower" (get_or "learning_objectives" (JArray []) module) ;;
   topics <- texts_argument "split" (get_or "key_topics" (JArray []) module) ;;
   applications <-
     texts_argument "lower"
                    (get_or "practical_applications" (JArray []) module) ;;
   Return (ModuleQuality.check_module_quality
             (mkModule (Some title) (Some description) (Some objectives)
                       (Some topics) (Some applications) None [])))%result.

(** [improve_module]: what the reply decodes to is returned as it
    is. *)
Definition improve_module (module : Dicts.Dict Json)
           (quality_report : ModuleQuality.QualityReport) : M Json :=
  if ModuleQuality.passes_threshold quality_report then ret (JObject module)
  else
    match ModuleQuality.improvement_suggestions quality_report with
    | [] => ret (JObject module)
    | _ =>
        try_except
          (reply <- invoke chat_model ImproveModule ;;
           decode reply)
          (fun _ => ret (JObject module))
    end.

(** The body of the loop of [module_generater]: a module of the
    curriculum is enhanced, checked, and improved when the check
    fails. *)
Definition enhance_and_check (module : ModuleItem) : M Json :=
  enhanced_module <- enhance_module module ;;
  quality_report <- lift (check_module_quality enhanced_module) ;;
  if negb (ModuleQuality.passes_threshold quality_report)
  then improve_module enhanced_module quality_report
  else ret (JObject enhanced_module).

(** The loop of [module_generater] over [curriculum['modules']]. *)
Fixpoint enhance_all (items : list ModuleItem) : M (list Json) :=
  match items with
  | [] => ret []
  | module :: rest =>
      enhanced_module <- enhance_and_check module ;;
      others <- enhance_all rest ;;
      ret (enhanced_module :: others)
  end.

(** [sample_module['title']] and
    [sample_module.get('learning_objectives', [])[:2]], read for the
    log. *)
Definition log_sample (enhanced_modules : list Json) : M unit :=
  match enhanced_modules with
  | sample_module :: _ =>
      lift (getitem sample_module "title") ;;;
      objectives <- lift (get sample_module "learning_objectives" (JArray [])) ;;
      lift (slice objectives)
  | [] => ret tt
  end.

(** The statements of [module_generater] under [try]. *)
Definition module_generater_body (name : string) : M Curriculum :=
  out <- invoke curriculum_model CurriculumStructure ;;
  enhanced_modules <- enhance_all (output_modules out) ;;
  log_sample enhanced_modules ;;;
  ret (mkCurriculum (output_course out) (output_duration out)
                    (output_num_modules out) (output_tools out)
                    enhanced_modules).

Definition module_generater (name : string) : M Curriculum :=
  try_except (module_generater_body name)
             (fun e => raise (CustomException e)).

(** [module['module_id'] = unique_id_generator(prefix="MODULE")] for
    each module: the identifier is drawn before the assignment is
    tried. *)
Fixpoint assign_module_ids (ms : list Json) : M (list Json) :=
  match ms with
  | [] => ret []
  | module :: rest =>
      i <- unique_id_generator "MODULE" ;;
      identified <- lift (setitem module "module_id" (JString i)) ;;
      others <- assign_module_ids rest ;;
      ret (identified :: others)
  end.

(** [ModuleGraphgenerator.generate_module]: the graph has the single
    node [module_generater]. A failure is caught and the exception
    object is returned. *)
Definition generate_module (data : CourseDoc) : M Generated :=
  try_except
    (response <- module_generater (doc_course_name data) ;;
     ms <- assign_module_ids (curriculum_modules response) ;;
     ret (GeneratedModules
            (mkModulesDoc (doc_course_id data) (doc_level data)
               (mkCurriculum (course response) (duration response)
                             (num_modules response) (tools response) ms))))
    (fun e => ret (ReturnedException (CustomException e))).

(** ** Lessons (lessons_generator.py) *)

Fixpoint assign_lesson_ids (ls : list LessonItem) : M (list LessonItem) :=
  match ls with
  | [] => ret []
  | l :: rest =>
      i <- unique_id_generator "LESSON" ;;
      others <- assign_lesson_ids rest ;;
      ret (set_lesson_id l i :: others)
  end.

(** [module.get('level', '').lower()], which only chooses between the
    two prompts, and the [module['title']], [module['description']]
    and [module['module_id']] that both prompts read. *)
Definition read_module_keys (module : Json) : Result unit :=
  (level <- get module "level" (JString "") ;;
   lower_of level ;;;
   getitem module "title" ;;;
   getitem module "description" ;;;
   getitem module "module_id" ;;;
   Return tt)%result.

Definition generate_lesson_outlines (module : Json) : M ModuleLessonContent :=
  lift (read_module_keys module) ;;;
  result <- invoke outline_model LessonOutlines ;;
  ls <- assign_lesson_ids (lessons result) ;;
  ret (mkModuleLessons (lessons_module_id result) ls).

(** [DetailedContentGenerator.expand_lesson_content] with its request. *)
Definition expand_lesson_content (lesson : LessonItem) : M LessonItem :=
  try_except
    (reply <- invoke chat_model ExpandLesson ;;
     ret (Markdown.expand_lesson_content markdown_rewrites lesson (Some reply)))
    (fun _ => ret (Markdown.expand_lesson_content markdown_rewrites lesson None)).

Fixpoint expand_all (ls : list LessonItem) : M (list LessonItem) :=
  match ls with
  | [] => ret []
  | lesson_outline :: rest =>
      expanded_lesson <- expand_lesson_content lesson_outline ;;
      others <- expand_all rest ;;
      ret (expanded_lesson :: others)
  end.

(** The assignments of [improve_lesson] once the reply is there. *)
Definition apply_improvement (lesson : LessonItem) (f : ImprovedFields)
  : LessonItem :=
  let l1 := match improved_title f with
            | Some t => set_title lesson t
            | None => lesson
            end in
  let l2 := match improved_content f with
            | Some c => set_content l1 c
            | None => l1
            end in
  match type l2 with
  | read_and_execute =>
      set_exercise l2 (or_else (improved_instruction f) (instruction l2))
                   (or_else (improved_expected_output f) (expected_output l2))
                   (or_else (improved_answer f) (answer l2))
  | read => l2
  end.

(** [LessonQualityChecker.improve_lesson]. The checker has no
    [mongodb_client] attribute, so its look-up of the module raises and
    is swallowed before the prompt is built. *)
Definition improve_lesson (lesson : LessonItem)
           (evaluation : LessonQuality.Evaluation) : M LessonItem :=
  if LessonQuality.passes_threshold evaluation then ret lesson
  else
    match LessonQuality.improvement_suggestions evaluation with
    | [] => ret lesson
    | _ =>
        try_except
          (reply <- invoke chat_model ImproveLesson ;;
           ret (apply_improvement lesson (improved_fields reply)))
          (fun _ => ret lesson)
    end.

(** The context [check_module_quality] evaluates with: the look-up that
    would fill in title and description raises (see above), so both stay
    empty. *)
Definition unfilled_context : LessonQuality.ModuleContext :=
  LessonQuality.mkContext "" "".

Definition lesson_evaluations (ls : list LessonItem)
  : list LessonQuality.Evaluation :=
  map (fun lesson => LessonQuality.evaluate_lesson lesson (Some unfilled_context))
      ls.

(** [next((l for l in module.lessons if l.lesson_id == lesson_id), None)],
    as the position of the object found. *)
Fixpoint find_lesson (wanted : string) (objects : list LessonItem) : option nat :=
  match objects with
  | [] => None
  | l :: rest =>
      if String.eqb (lesson_id l) wanted then Some 0
      else option_map S (find_lesson wanted rest)
  end.

Fixpoint replace_at (i : nat) (x : LessonItem) (objects : list LessonItem)
  : list LessonItem :=
  match objects, i with
  | [], _ => []
  | _ :: rest, O => x :: rest
  | l :: rest, S k => l :: replace_at k x rest
  end.

(** The loop of [_check_and_improve_module_quality]. The lessons are
    objects that [improve_lesson] updates in place: [objects] is the
    list [module.lessons] with its current contents, and
    [improved_lessons] holds positions in it. An evaluation always names
    a lesson of the list; the other branch appends [None] in Python. *)
Fixpoint improve_each (evaluations : list LessonQuality.Evaluation)
         (objects : list LessonItem) (improved_lessons : list (option nat))
  : M (list LessonItem * list (option nat)) :=
  match evaluations with
  | [] => ret (objects, improved_lessons)
  | evaluation :: rest =>
      match find_lesson (LessonQuality.evaluated_lesson_id evaluation) objects with
      | Some i =>
          match nth_error objects i with
          | Some lesson =>
              if negb (LessonQuality.passes_threshold evaluation) then
                improved_lesson <- improve_lesson lesson evaluation ;;
                improve_each rest (replace_at i improved_lesson objects)
                             (improved_lessons ++ [Some i])
              else improve_each rest objects (improved_lessons ++ [Some i])
          | None => improve_each rest objects (improved_lessons ++ [None])
          end
      | None => improve_each rest objects (improved_lessons ++ [None])
      end
  end.

(** [module.lessons = improved_lessons] *)
Definition dereference (objects : list LessonItem)
           (improved_lessons : list (option nat)) : list LessonItem :=
  flat_map (fun r => match r with
                     | Some i => match nth_error objects i with
                                 | Some l => [l]
                                 | None => []
                                 end
                     | None => []
                     end) improved_lessons.

Definition _check_and_improve_module_quality (module : ModuleLessonContent)
  : M ModuleLessonContent :=
  try_except
    (r <- improve_each (lesson_evaluations (lessons module)) (lessons module) [] ;;
     ret (mkModuleLessons (lessons_module_id module)
                          (dereference (fst r) (snd r))))
    (fun _ => ret module).

(** The loop of [generate_lessons_for_each_module]; it starts with a
    log line that reads [module['title']]. *)
Fixpoint lessons_for_modules (ms : list Json) : M (list ModuleLessonContent) :=
  match ms with
  | [] => ret []
  | module :: rest =>
      lift (getitem module "title") ;;;
      module_outline <- generate_lesson_outlines module ;;
      expanded_lessons <- expand_all (lessons module_outline) ;;
      checked <- _check_and_improve_module_quality
                   (mkModuleLessons (lessons_module_id module_outline)
                                    expanded_lessons) ;;
      others <- lessons_for_modules rest ;;
      ret (checked :: others)
  end.

(** [generate_lessons_for_each_module]; the course-level quality check
    at its end only computes figures for the log. *)
Definition generate_lessons_for_each_module (ms : list Json)
           (course_id : string) : M ModulesLessonOutput :=
  final_results <- lessons_for_modules ms ;;
  ret (mkLessonsDoc course_id final_results).

(** ** Writes (mongo_insert_one.py, mongodb_insertion.py) *)

Definition insert_one_document (c : Collection) (d : Document) : M Response :=
  try_except
    (insert_one c d ;;; ret Updated)
    (fun e => raise (MongoInsertFailed e)).

Definition insert_data (d : Document) : M InsertStatus :=
  try_except
    (insert_one DOMAINS d ;;; ret StatusTrue)
    (fun e => ret (StatusFalse e)).

(** ** [Courses.generate_course] (src/components/courses.py) *)

Definition already_exists (name : string) : string :=
  "Course '" +++ name +++ "' already exists.".

(** The statements of [generate_course] under [try]. *)
Definition generate_course_body (data : AddNewCourse) : M Response :=
  existing_course <- find_one COURSES (course_name data) ;;
  match existing_course with
  | Some _ => ret (Message (already_exists (course_name data)))
  | None =>
      unique_id <- unique_id_generator "COURSE" ;;
      description <- generate_description data unique_id ;;
      insert_one_document COURSES (CourseDocument description) ;;;
      generated_modules <- generate_module description ;;
      match generated_modules with
      | ReturnedException _ =>
          raise (TypeError "'CustomException' object is not subscriptable")
      | GeneratedModules d =>
          insert_one_document MODULES (ModulesDocument d) ;;;
          lessons <- generate_lessons_for_each_module
                       (curriculum_modules (curriculum d)) unique_id ;;
          insert_one_document LESSONS (LessonsDocument lessons)
      end
  end.

Definition generate_course (data : AddNewCourse) : M Response :=
  try_except (generate_course_body data)
             (fun e => raise (CustomException e)).

(** ** The requests of the module stage *)

(** What [enhance_module] returns when its request is the [n]-th the
    provider receives. *)
Definition enhanced_at (module : ModuleItem) (n : nat) : Dicts.Dict Json :=
  match chat_model n with
  | Some reply =>
      match json_loads reply with
      | Some (JObject items) => merge module items
      | _ => fallback_module module
      end
  | None => fallback_module module
  end.

(** What [improve_module] returns for [module] when its request is the
    [n]-th the provider receives. *)
Definition improved_at (module : Dicts.Dict Json) (n : nat) : Json :=
  match chat_model n with
  | Some reply =>
      match json_loads reply with
      | Some v => v
      | None => JObject module
      end
  | None => JObject module
  end.

(** A report that fails the threshold with a criterion below 0.7. *)
Definition needs_improvement (report : ModuleQuality.QualityReport) : bool :=
  negb (ModuleQuality.passes_threshold report)
  && negb (forallb (fun q => Score.geb q (7 # 10))
                   (ModuleQuality.values (ModuleQuality.criteria report))).

(** The requests expected of the loop over the modules, the first of
    them being the [n]-th the provider receives: for each module one
    to enhance it and, when its report needs it, one to improve it; a
    check that raises ends the loop. *)
Fixpoint module_requests (items : list ModuleItem) (n : nat) : list Event :=
  match items with
  | [] => []
  | module :: rest =>
      LlmCall EnhanceModule
      :: match check_module_quality (enhanced_at module n) with
         | Raise _ => []
         | Return report =>
             if needs_improvement report
             then LlmCall ImproveModule :: module_requests rest (S (S n))
             else module_requests rest (S n)
         end
  end.

End Generators.

(** ** Modules the stages can work with *)

(** The lesson stage can read the module: it is a dictionary with a
    title, a description and an identifier, whose level, if it has one,
    is a string. *)
Definition readable (module : Json) : Prop :=
  read_module_keys module = Return tt.

(** The module stage can go on with the module: it is a dictionary with
    a title and a description, whose level, if it has one, is a string,
    and whose objectives are a list or a text, or missing. *)
Definition usable (module : Json) : Prop :=
  exists items,
    module = JObject items
    /\ Dicts.get "title" items <> None
    /\ Dicts.get "description" items <> None
    /\ (exists level,
           lower_of (get_or "level" (JString "") items) = Return level)
    /\ slice (get_or "learning_objectives" (JArray []) items) = Return tt.

(** A reply that lets the run go on wherever it is used: a dictionary
    with distinct keys, a title and a description, whose fields the
    module checker accepts, whose level, if it has one, is a string,
    and whose objectives are a list or a text, or missing. *)
Definition workable (v : Json) : Prop :=
  exists items,
    v = JObject items
    /\ NoDup (Dicts.keys items)
    /\ Dicts.get "title" items <> None
    /\ Dicts.get "description" items <> None
    /\ (exists report, check_module_quality items = Return report)
    /\ (exists level,
           lower_of (get_or "level" (JString "") items) = Return level)
    /\ slice (get_or "learning_objectives" (JArray []) items) = Return tt.

(** An evaluation below the threshold comes with a suggestion. *)
Definition sound (ev : LessonQuality.Evaluation) : Prop :=
  LessonQuality.passes_threshold ev = false ->
  LessonQuality.improvement_suggestions ev <> [].

(** The number of evaluations below the threshold. *)
Definition failing (evaluations : list LessonQuality.Evaluation) : nat :=
  length (filter (fun ev => negb (LessonQuality.passes_threshold ev)) evaluations).

(** ** The stages of a run, read off its trace *)

(** Requests to the provider made while the description, the modules and
    the lessons are generated. *)
Definition describes (e : Event) : bool :=
  match e with
  | LlmCall GenerateDescription | LlmCall ImproveDescription => true
  | _ => false
  end.

Definition builds_modules (e : Event) : bool :=
  match e with
  | LlmCall CurriculumStructure | LlmCall EnhanceModule
  | LlmCall ImproveModule => true
  | _ => false
  end.

Definition builds_lessons (e : Event) : bool :=
  match e with
  | LlmCall LessonOutlines | LlmCall ExpandLesson | LlmCall ImproveLesson => true
  | _ => false
  end.

(** How far a run has come. *)
Inductive Stage :=
| Started               (** nothing has happened *)
| Describing            (** the name is free; the description is generated *)
| GeneratingModules     (** the description is in [COURSES] *)
| GeneratingLessons     (** the modules are in [MODULES] *)
| Finished.             (** the lessons are in [LESSONS] *)

(** The only moves: an event that does not fit the stage is refused. *)
Definition step (s : Stage) (e : Event) : option Stage :=
  match s, e with
  | Started, DbFind COURSES => Some Describing
  | Describing, DbInsert COURSES => Some GeneratingModules
  | GeneratingModules, DbInsert MODULES => Some GeneratingLessons
  | GeneratingLessons, DbInsert LESSONS => Some Finished
  | Describing, LlmCall _ => if describes e then Some Describing else None
  | GeneratingModules, LlmCall _ =>
      if builds_modules e then Some GeneratingModules else None
  | GeneratingLessons, LlmCall _ =>
      if builds_lessons e then Some GeneratingLessons else None
  | _, _ => None
  end.

Fixpoint run (s : Stage) (t : list Event) : option Stage :=
  match t with
  | [] => Some s
  | e :: t' =>
      match step s e with
      | Some s' => run s' t'
      | None => None
      end
  end.

(** The position of a stage in a run. *)
Definition rank (s : Stage) : nat :=
  match s with
  | Started => 0
  | Describing => 1
  | GeneratingModules => 2
  | GeneratingLessons => 3
  | Finished => 4
  end.

(** The shapes a run of [generate_course] from [w] can have: its result,
    its final world and the events it adds. The run stops where a step
    raises; what was written before stays written. *)
Inductive Shape (data : AddNewCourse) (w : World)
  : Result Response -> World -> list Event -> Prop :=
| lookup_failed e w' :
    collections w' = collections w ->
    Shape data w (Raise e) w' []
| name_taken w' :
    collections w' = collections w ->
    Shape data w (Return (Message (already_exists (course_name data)))) w'
          [DbFind COURSES]
| description_failed e w' tD :
    Forall (fun ev => describes ev = true) tD ->
    collections w' = collections w ->
    Shape data w (Raise e) w' (DbFind COURSES :: tD)
| modules_failed e w' tD tM d :
    Forall (fun ev => describes ev = true) tD ->
    Forall (fun ev => builds_modules ev = true) tM ->
    doc_course_name d = course_name data ->
    collections w' =
      (domain_collection w, courses_collection w ++ [CourseDocument d],
       modules_collection w, lessons_collection w) ->
    Shape data w (Raise e) w' (DbFind COURSES :: tD ++ DbInsert COURSES :: tM)
| lessons_failed e w' tD tM tL d m :
    Forall (fun ev => describes ev = true) tD ->
    Forall (fun ev => builds_modules ev = true) tM ->
    Forall (fun ev => builds_lessons ev = true) tL ->
    doc_course_name d = course_name data ->
    modules_course_id m = doc_course_id d ->
    collections w' =
      (domain_collection w, courses_collection w ++ [CourseDocument d],
       modules_collection w ++ [ModulesDocument m], lessons_collection w) ->
    Shape data w (Raise e) w'
          (DbFind COURSES :: tD ++ DbInsert COURSES :: tM
             ++ DbInsert MODULES :: tL)
| completed w' tD tM tL d m l :
    Forall (fun ev => describes ev = true) tD ->
    Forall (fun ev => builds_modules ev = true) tM ->
    Forall (fun ev => builds_lessons ev = true) tL ->
    doc_course_name d = course_name data ->
    modules_course_id m = doc_course_id d ->
    lessons_course_id l = doc_course_id d ->
    collections w' =
      (domain_collection w, courses_collection w ++ [CourseDocument d],
       modules_collection w ++ [ModulesDocument m],
       lessons_collection w ++ [LessonsDocument l]) ->
    Shape data w (Return Updated) w'
          (DbFind COURSES :: tD ++ DbInsert COURSES :: tM
             ++ DbInsert MODULES :: tL ++ [DbInsert LESSONS]).

End Pipeline.

(* ===================================================================== *)
(** * Authentication *)
(* ===================================================================== *)

(** The [users] table and what the code asks of Supabase, passlib and jose. *)
Module Users.
Import Effects.

(** A row of the [users] table. *)
Record UserRow := mkUser {
  id : string;
  email : string;
  password : string;
  role : string;
  user_created_at : string;
  full_name : option string;
  organization_name : option string
}.

(** [UserResponse] (src/schemas/users.py). *)
Record UserResponse := mkResponse {
  response_id : string;
  response_email : string;
  response_role : string;
  response_full_name : option string;
  response_organization_name : option string
}.

(** The dictionary [login] returns. *)
Record Token := mkToken {
  access_token : string;
  token_type : string;
  user : UserResponse
}.

(** The table and the number of requests it has received. *)
Record Table := mkTable {
  rows : list UserRow;
  requests : nat
}.

(** What the services decide. [None] is a call that raises. *)
Class Services := {
  supabase_available : nat -> bool;
  generated_id : nat -> string;
  pwd_hash : string -> option string;
  pwd_verify : string -> string -> option bool;
  jwt_encode : string -> option string;
  utcnow : string
}.

Definition HTTP_400_BAD_REQUEST : nat := 400.
Definition HTTP_401_UNAUTHORIZED : nat := 401.
Definition HTTP_500_INTERNAL_SERVER_ERROR : nat := 500.

(** The row as the table stores it, under the [id] the table gives it. *)
Definition with_id (i : string) (u : UserRow) : UserRow :=
  mkUser i (email u) (password u) (role u) (user_created_at u) (full_name u)
         (organization_name u).

Definition response_of (u : UserRow) : UserResponse :=
  mkResponse (id u) (email u) (role u) (full_name u) (organization_name u).

Section Requests.
Context {services : Services}.

(** [supabase.table("users").select("*").eq("email", e).execute().data] *)
Definition select_by_email (e : string) : ST Table (list UserRow) :=
  fun t =>
    let t' := mkTable (rows t) (S (requests t)) in
    if supabase_available (requests t)
    then (Return (filter (fun u => String.eqb (email u) e) (rows t)), t')
    else (Raise ProviderError, t').

(** [supabase.table("users").insert(user_data).execute().data]: the
    table gives the row its [id]. *)
Definition insert_user (user_data : UserRow) : ST Table (list UserRow) :=
  fun t =>
    if supabase_available (requests t)
    then
      let created := with_id (generated_id (length (rows t))) user_data in
      (Return [created], mkTable (rows t ++ [created]) (S (requests t)))
    else (Raise ProviderError, mkTable (rows t) (S (requests t))).

(** A call of a library function that may raise. *)
Definition call {A} (outcome : option A) : ST Table A :=
  match outcome with
  | Some a => ret a
  | None => raise ProviderError
  end.

(** The dictionary [user_data] of [register_user]: the role decides
    which of the two names is stored. *)
Definition new_user (e hashed r : string) (name organization : option string)
  : UserRow :=
  if String.eqb r "administrator" || String.eqb r "course_creator"
  then mkUser "" e hashed r utcnow name None
  else if String.eqb r "organization"
       then mkUser "" e hashed r utcnow None organization
       else mkUser "" e hashed r utcnow None None.

(** Whether a row of the table carries the e-mail address [e]. *)
Definition registered (e : string) (t : Table) : bool :=
  existsb (fun u => String.eqb (email u) e) (rows t).

End Requests.

End Users.

(** [AuthComponent] (src/components/auth.py). *)
Module AuthComponent.
Import Effects Users.
Local Open Scope effect_scope.

(** [except HTTPException as e: raise e] followed by
    [except Exception as e: raise CustomException(e, sys)]. *)
Definition reraise_http {A} (e : Exn) : ST Table A :=
  match e with
  | HTTPException _ _ => raise e
  | _ => raise (CustomException e)
  end.

Definition wrap {A} (e : Exn) : ST Table A := raise (CustomException e).

Section Methods.
Context {services : Services}.

Definition verify_password (plain hashed : string) : ST Table bool :=
  try_except (call (pwd_verify plain hashed)) wrap.

Definition get_password_hash (plain : string) : ST Table string :=
  try_except (call (pwd_hash plain)) wrap.

Definition create_access_token (subject : string) : ST Table string :=
  try_except (call (jwt_encode subject)) wrap.

Definition get_user_by_email (e : string) : ST Table (option UserRow) :=
  try_except
    (data <- select_by_email e ;;
     ret (hd_error data))
    wrap.

(** The statements of [register_user] under [try]. *)
Definition register_user_body (e plain r : string)
           (name organization : option string) : ST Table UserResponse :=
  existing_user <- get_user_by_email e ;;
  match existing_user with
  | Some _ =>
      raise (HTTPException HTTP_400_BAD_REQUEST
                           "User with this email already exists")
  | None =>
      hashed <- get_password_hash plain ;;
      data <- insert_user (new_user e hashed r name organization) ;;
      match data with
      | [] => raise (HTTPException HTTP_500_INTERNAL_SERVER_ERROR
                                   "Failed to create user")
      | created_user :: _ => ret (response_of created_user)
      end
  end.

Definition register_user (e plain r : string) (name organization : option string)
  : ST Table UserResponse :=
  try_except (register_user_body e plain r name organization) reraise_http.

Definition register_administrator (e plain name : string)
  : ST Table UserResponse :=
  try_except (register_user e plain "administrator" (Some name) None) wrap.

Definition register_course_creator (e plain name : string)
  : ST Table UserResponse :=
  try_except (register_user e plain "course_creator" (Some name) None) wrap.

Definition register_organization (e plain organization : string)
  : ST Table UserResponse :=
  try_except (register_user e plain "organization" None (Some organization)) wrap.

Definition unauthorized {A} : ST Table A :=
  raise (HTTPException HTTP_401_UNAUTHORIZED "Incorrect email or password").

(** The statements of [authenticate_user] under [try]. *)
Definition authenticate_user_body (e plain : string) : ST Table UserRow :=
  found <- get_user_by_email e ;;
  match found with
  | None => unauthorized
  | Some u =>
      verified <- verify_password plain (password u) ;;
      if verified then ret u else unauthorized
  end.

Definition authenticate_user (e plain : string) : ST Table UserRow :=
  try_except (authenticate_user_body e plain) reraise_http.

(** The statements of [login] under [try]. *)
Definition login_body (e plain : string) : ST Table Token :=
  u <- authenticate_user e plain ;;
  token <- create_access_token (id u) ;;
  ret (mkToken token "bearer" (response_of u)).

Definition login (e plain : string) : ST Table Token :=
  try_except (login_body e plain) wrap.

End Methods.

End AuthComponent.

(** The functions of src/utils/auth.py, which catch nothing. *)
Module AuthUtils.
Import Effects Users.
Local Open Scope effect_scope.

Section Functions.
Context {services : Services}.

Definition register_user (e plain r : string) (name organization : option string)
  : ST Table UserResponse :=
  existing_user <- select_by_email e ;;
  match existing_user with
  | _ :: _ =>
      raise (HTTPException HTTP_400_BAD_REQUEST
                           "User with this email already exists")
  | [] =>
      hashed <- call (pwd_hash plain) ;;
      data <- insert_user (new_user e hashed r name organization) ;;
      match data with
      | [] => raise (HTTPException HTTP_500_INTERNAL_SERVER_ERROR
                                   "Failed to create user")
      | created_user :: _ => ret (response_of created_user)
      end
  end.

End Functions.

End AuthUtils.

From Stdlib Require Import DecimalString.

(* ===================================================================== *)
(** * Module reports of the lesson quality checker *)
(* ===================================================================== *)

(** [LessonQualityChecker.check_module_quality]
    (lesson_quality_checker.py). The scores of the lessons are integers and
    their sum is exact; the average is the exact quotient, which Python
    rounds to double precision. *)
Module LessonReports.
Import PyStr Effects.

(** [str(n)] for a natural number. *)
Definition str_of_nat (n : nat) : string :=
  NilZero.string_of_uint (Nat.to_uint n).

(** An entry of [lesson_evaluations]. *)
Record LessonEntry := mkEntry {
  entry_lesson_id : string;
  entry_title : string;
  evaluation : LessonQuality.Evaluation
}.

Record ModuleReport := mkModuleReport {
  report_module_id : string;
  average_quality_score : Q;
  passes_threshold : bool;
  lessons_below_threshold : nat;
  has_good_type_mix : bool;
  improvement_suggestions : list string;
  lesson_evaluations : list LessonEntry
}.

(** The context after the look-up of the module. The look-up reads
    [self.mongodb_client], an attribute the checker never sets; the
    error is caught and logged, and title and description stay empty. *)
Definition module_context : LessonQuality.ModuleContext :=
  LessonQuality.mkContext "" "".

(** [sum(1 for lesson in module.lessons if lesson.type == t)] *)
Definition count_type (t : LessonType) (ls : list LessonItem) : nat :=
  length (filter (fun lesson => LessonType_eqb (type lesson) t) ls).

(** The three accumulators of the loop over the lessons. *)
Record Tally := mkTally {
  entries : list LessonEntry;
  total_score : Z;
  below : nat
}.

Definition tally_lesson (acc : Tally) (lesson : LessonItem) : Tally :=
  let evaluation := LessonQuality.evaluate_lesson lesson (Some module_context) in
  mkTally (entries acc ++ [mkEntry (lesson_id lesson) (title lesson) evaluation])
          (total_score acc + LessonQuality.quality_score evaluation)
          (if negb (LessonQuality.passes_threshold evaluation)
           then S (below acc) else below acc).

Definition check_module_quality (module : ModuleLessonContent) : ModuleReport :=
  let read_count := count_type read (lessons module) in
  let practice_count := count_type read_and_execute (lessons module) in
  let good_mix := (0 <? read_count) && (0 <? practice_count) in
  let t := fold_left tally_lesson (lessons module) (mkTally [] 0 0) in
  let avg_score :=
    Qmake (total_score t) (Pos.of_nat (Nat.max 1 (length (lessons module)))) in
  let suggestions1 :=
    if 0 <? below t
    then ["Improve " +++ str_of_nat (below t) +++ " lessons below quality threshold"]
    else [] in
  let suggestions2 :=
    if negb good_mix then
      if practice_count =? 0
      then suggestions1 ++ ["Add practical exercises to the module"]
      else if read_count =? 0
           then suggestions1 ++ ["Add theoretical lessons to the module"]
           else suggestions1
    else suggestions1 in
  mkModuleReport (lessons_module_id module) avg_score (Score.geb avg_score 70)
                 (below t) good_mix suggestions2 (entries t).

End LessonReports.

(* ===================================================================== *)
(** * The current user and the authentication endpoints *)
(* ===================================================================== *)

(** What [jose.jwt.decode] makes of a token. *)
Module Tokens.

(** [None] is a token that [jwt.decode] rejects with a [JWTError];
    otherwise the value of [payload.get("sub")]. *)
Class Decoder := {
  jwt_decode : string -> option (option string)
}.

End Tokens.

(** [AuthComponent.get_user_by_id] (src/components/auth.py). *)
Module Accounts.
Import Effects Users.
Local Open Scope effect_scope.

Definition HTTP_404_NOT_FOUND : nat := 404.

Section Methods.
Context {services : Services}.

(** [supabase.table("users").select("*").eq("id", i).execute().data] *)
Definition select_by_id (i : string) : ST Table (list UserRow) :=
  fun t =>
    let t' := mkTable (rows t) (S (requests t)) in
    if supabase_available (requests t)
    then (Return (filter (fun u => String.eqb (id u) i) (rows t)), t')
    else (Raise ProviderError, t').

Definition get_user_by_id (user_id : string) : ST Table UserRow :=
  try_except
    (data <- select_by_id user_id ;;
     match data with
     | [] => raise (HTTPException HTTP_404_NOT_FOUND "User not found")
     | found :: _ => ret found
     end)
    AuthComponent.wrap.

End Methods.

End Accounts.

(** [get_current_user] of src/utils/auth.py. *)
Module AuthFunctions.
Import Effects Users Tokens Accounts.
Local Open Scope effect_scope.

Definition credentials_exception : Exn :=
  HTTPException HTTP_401_UNAUTHORIZED "Could not validate credentials".

Section Functions.
Context {services : Services} {decoder : Decoder}.

(** The inner [try]: decode the token and read its subject; a
    [JWTError] and a missing subject both raise
    [credentials_exception]. *)
Definition subject (token : string) : ST Table string :=
  match jwt_decode token with
  | Some (Some user_id) => ret user_id
  | Some None => raise credentials_exception
  | None => raise credentials_exception
  end.

Definition get_current_user (token : string) : ST Table UserResponse :=
  user_id <- subject token ;;
  data <- select_by_id user_id ;;
  match data with
  | [] => raise credentials_exception
  | found :: _ => ret (response_of found)
  end.

Definition get_current_active_user (current_user : UserResponse)
  : ST Table UserResponse :=
  ret current_user.

End Functions.

End AuthFunctions.

(** The endpoints of src/api/v1/endpoints/auth.py. *)
Module AuthEndpoints.
Import Effects Users Tokens Accounts.
Local Open Scope effect_scope.

Section Endpoints.
Context {services : Services} {decoder : Decoder}.

Definition get_current_user (token : string) : ST Table UserResponse :=
  try_except
    (user_id <- AuthFunctions.subject token ;;
     found <- get_user_by_id user_id ;;
     ret (response_of found))
    AuthComponent.wrap.

Definition register_administrator (e plain name : string)
  : ST Table UserResponse :=
  try_except (AuthComponent.register_administrator e plain name)
             AuthComponent.wrap.

Definition register_course_creator (e plain name : string)
  : ST Table UserResponse :=
  try_except (AuthComponent.register_course_creator e plain name)
             AuthComponent.wrap.

Definition register_organization (e plain organization : string)
  : ST Table UserResponse :=
  try_except (AuthComponent.register_organization e plain organization)
             AuthComponent.wrap.

(** The [TokenResponse] built from the dictionary that [login]
    returns. *)
Definition login (e plain : string) : ST Table Token :=
  try_except
    (result <- AuthComponent.login e plain ;;
     ret (mkToken (access_token result) (token_type result) (user result)))
    AuthComponent.wrap.

(** [GET /me], behind [get_current_active_user]. *)
Definition get_user_profile (token : string) : ST Table UserResponse :=
  current_user <- get_current_user token ;;
  try_except (ret current_user) AuthComponent.wrap.

End Endpoints.

End AuthEndpoints.

(* ===================================================================== *)
(** * MongoDB documents and the other methods of [Courses] *)
(* ===================================================================== *)

(** Documents as the code of src/components/courses.py reads and writes
    them, and the operators it sends to the server. *)
Module Mongo.
Import PyStr Effects.

(** The values of the fields the methods touch. *)
Inductive Value :=
| Text (s : string)
| Flag (b : bool)
| Strings (l : list string).

Definition Doc := Dicts.Dict Value.

Record Database := mkDatabase {
  domain_docs : list Doc;
  course_docs : list Doc;
  module_docs : list Doc;
  lesson_docs : list Doc;
  requests : nat        (** requests sent to MongoDB so far *)
}.

Definition docs (c : Collection) (db : Database) : list Doc :=
  match c with
  | DOMAINS => domain_docs db
  | COURSES => course_docs db
  | MODULES => module_docs db
  | LESSONS => lesson_docs db
  end.

Definition with_docs (c : Collection) (ds : list Doc) (db : Database) : Database :=
  match c with
  | DOMAINS => mkDatabase ds (course_docs db) (module_docs db) (lesson_docs db)
                          (requests db)
  | COURSES => mkDatabase (domain_docs db) ds (module_docs db) (lesson_docs db)
                          (requests db)
  | MODULES => mkDatabase (domain_docs db) (course_docs db) ds (lesson_docs db)
                          (requests db)
  | LESSONS => mkDatabase (domain_docs db) (course_docs db) (module_docs db) ds
                          (requests db)
  end.

Definition counted (db : Database) : Database :=
  mkDatabase (domain_docs db) (course_docs db) (module_docs db) (lesson_docs db)
             (S (requests db)).

(** The contents of the database. *)
Definition contents (db : Database)
  : list Doc * list Doc * list Doc * list Doc :=
  (domain_docs db, course_docs db, module_docs db, lesson_docs db).

(** ** Conditions *)

(** The condition [{field: value}] for a string: the field holds the
    string, or an array with the string among its elements. *)
Definition matches (field value : string) (d : Doc) : bool :=
  match Dicts.get field d with
  | Some (Text s) => String.eqb s value
  | Some (Strings l) => mem value l
  | Some (Flag _) => false
  | None => false
  end.

(** The elements of the array in a field, none when the field is
    missing; [None] when the field holds something else. *)
Definition elements (field : string) (d : Doc) : option (list string) :=
  match Dicts.get field d with
  | None => Some []
  | Some (Strings l) => Some l
  | Some _ => None
  end.

(** A document of [domains] after [{"$pull": {"courses_ids": id}}] has
    reached it or passed it by: the other fields as before, and of the
    courses those of another identifier. *)
Definition pulled (id : string) (before after : Doc) : Prop :=
  (forall k, k <> "courses_ids" -> Dicts.get k after = Dicts.get k before)
  /\ forall l, elements "courses_ids" before = Some l ->
               elements "courses_ids" after
               = Some (filter (fun c => negb (String.eqb id c)) l).

(** ** Update operators; [None] is an update the server refuses *)

Definition Update := Doc -> option Doc.

(** [{"$set": fields}] *)
Definition set_fields (fields : Doc) : Update :=
  fun d => Some (Dicts.unpack d fields).

Definition add_to_set (xs : list string) (x : string) : list string :=
  if mem x xs then xs else xs ++ [x].

(** [{"$addToSet": {field: {"$each": values}}}]: every value that the
    array does not hold is appended; a missing field becomes an array; a
    field that is no array is refused. *)
Definition add_to_set_each (field : string) (values : list string) : Update :=
  fun d =>
    match Dicts.get field d with
    | None => Some (Dicts.set field (Strings (fold_left add_to_set values [])) d)
    | Some (Strings l) =>
        Some (Dicts.set field (Strings (fold_left add_to_set values l)) d)
    | Some _ => None
    end.

(** [{"$pull": {field: condition}}]: the elements that meet the condition
    are removed; a missing field is left missing; a field that is no
    array is refused. *)
Definition pull (field : string) (condition : string -> bool) : Update :=
  fun d =>
    match Dicts.get field d with
    | None => Some d
    | Some (Strings l) =>
        Some (Dicts.set field (Strings (filter (fun x => negb (condition x)) l)) d)
    | Some _ => None
    end.

(** The first document that matches is updated. *)
Fixpoint update_first (matching : Doc -> bool) (u : Update) (ds : list Doc)
  : option (list Doc) :=
  match ds with
  | [] => Some []
  | d :: rest =>
      if matching d then option_map (fun d' => d' :: rest) (u d)
      else option_map (cons d) (update_first matching u rest)
  end.

(** Every document that matches is updated, one after the other; the
    updates made before one is refused stay. *)
Fixpoint update_all (matching : Doc -> bool) (u : Update) (ds : list Doc)
  : list Doc * bool :=
  match ds with
  | [] => ([], true)
  | d :: rest =>
      if matching d then
        match u d with
        | Some d' => let (rest', ok) := update_all matching u rest in
                     (d' :: rest', ok)
        | None => (d :: rest, false)
        end
      else let (rest', ok) := update_all matching u rest in (d :: rest', ok)
  end.

Fixpoint delete_first (matching : Doc -> bool) (ds : list Doc) : list Doc :=
  match ds with
  | [] => []
  | d :: rest => if matching d then rest else d :: delete_first matching rest
  end.

Definition delete_all (matching : Doc -> bool) (ds : list Doc) : list Doc :=
  filter (fun d => negb (matching d)) ds.

(** [{"$project": {"_id": 0, k: 1, ...}}]: the listed fields, in the
    order of the document. *)
Definition project (fields : list string) (d : Doc) : Doc :=
  filter (fun '(k, _) => mem k fields) d.

(** ** Requests *)

Section Requests.
Context {ext : External}.

(** A request: counted, and served unless the server is out of
    reach. *)
Definition request {A} (serve : Database -> Result A * Database)
  : ST Database A :=
  fun db =>
    if mongo_available (requests db) then serve (counted db)
    else (Raise DriverError, counted db).

(** [collection.find_one({field: value})] *)
Definition find_one (c : Collection) (field value : string)
  : ST Database (option Doc) :=
  request (fun db => (Return (find (matches field value) (docs c db)), db)).

(** [collection.update_one({field: value}, update)] *)
Definition update_one (c : Collection) (field value : string) (u : Update)
  : ST Database unit :=
  request (fun db =>
             match update_first (matches field value) u (docs c db) with
             | Some ds => (Return tt, with_docs c ds db)
             | None => (Raise DriverError, db)
             end).

(** [collection.update_many({field: value}, update)] *)
Definition update_many (c : Collection) (field value : string) (u : Update)
  : ST Database unit :=
  request (fun db =>
             let (ds, ok) := update_all (matches field value) u (docs c db) in
             (if ok then Return tt else Raise DriverError, with_docs c ds db)).

(** [collection.delete_one({field: value})] *)
Definition delete_one (c : Collection) (field value : string)
  : ST Database unit :=
  request (fun db =>
             (Return tt,
              with_docs c (delete_first (matches field value) (docs c db)) db)).

(** [collection.delete_many({field: value})] *)
Definition delete_many (c : Collection) (field value : string)
  : ST Database unit :=
  request (fun db =>
             (Return tt,
              with_docs c (delete_all (matches field value) (docs c db)) db)).

(** [list(collection.aggregate([{"$match": {field: value}},
    {"$project": ...}]))] *)
Definition aggregate (c : Collection) (field value : string)
           (fields : list string) : ST Database (list Doc) :=
  request (fun db =>
             (Return (map (project fields)
                          (filter (matches field value) (docs c db))), db)).

End Requests.

End Mongo.

(** The methods of [Courses] (src/components/courses.py) next to
    [generate_course]. *)
Module Courses.
Import PyStr Effects Mongo.
Local Open Scope effect_scope.

(** What a method hands back where its handler returns the exception
    object instead of raising it. *)
Inductive Returned (A : Type) : Type :=
| Result_ (a : A)
| ExceptionObject (e : Exn).
Arguments Result_ {A} a.
Arguments ExceptionObject {A} e.

Definition projected_fields : list string :=
  ["course_id"; "segment_ids"; "course_name"; "level"; "description";
   "image_uri"; "created_at"; "num_courses"; "is_popular"; "is_trending"].

(** [s in v] on the value of a field; [None] is a [TypeError]. *)
Definition python_in (s : string) (v : Value) : option bool :=
  match v with
  | Strings l => Some (mem s l)
  | Text t => Some (contains s t)
  | Flag _ => None
  end.

(** [[s for s in segment_ids if s not in existing]] *)
Fixpoint not_in (segment_ids : list string) (existing : Value)
  : option (list string) :=
  match segment_ids with
  | [] => Some []
  | s :: rest =>
      match python_in s existing with
      | None => None
      | Some true => not_in rest existing
      | Some false => option_map (cons s) (not_in rest existing)
      end
  end.

Section Methods.
Context {ext : External}.

Definition get_courses_by_segment_id (segment_id : string)
  : ST Database (Returned (list Doc)) :=
  try_except
    (results <- aggregate COURSES "segment_ids" segment_id projected_fields ;;
     ret (Result_ results))
    (fun e => ret (ExceptionObject (CustomException e))).

Definition edit_trending_popular_course (course_id : string)
           (is_popular is_trending : bool) : ST Database Pipeline.Response :=
  try_except
    (update_one COURSES "course_id" course_id
       (set_fields [("is_popular", Flag is_popular);
                    ("is_trending", Flag is_trending)]) ;;;
     ret (Pipeline.Message "Course Updated Successfully"))
    (fun e => raise (CustomException e)).

Definition edit_course (course_id course_name level image_uri description : string)
  : ST Database Pipeline.Response :=
  try_except
    (existing_course <- find_one COURSES "course_id" course_id ;;
     match existing_course with
     | Some _ =>
         update_one COURSES "course_id" course_id
           (set_fields [("level", Text level); ("image_uri", Text image_uri);
                        ("description", Text description);
                        ("course_name", Text course_name)]) ;;;
         ret (Pipeline.Message "Course Updated Successfully")
     | None => ret (Pipeline.Message "No Course Found")
     end)
    (fun e => raise (CustomException e)).

Definition delete_course (course_id : string) : ST Database Pipeline.Response :=
  try_except
    (delete_one COURSES "course_id" course_id ;;;
     delete_many MODULES "course_id" course_id ;;;
     delete_many LESSONS "course_id" course_id ;;;
     update_many DOMAINS "courses_ids" course_id
       (pull "courses_ids" (String.eqb course_id)) ;;;
     ret (Pipeline.Message "Course and associated data deleted successfully"))
    (fun e => raise (CustomException e)).

Definition add_segment_to_course (course_id : string) (segment_ids : list string)
  : ST Database (Returned bool) :=
  try_except
    (course <- find_one COURSES "course_id" course_id ;;
     match course with
     | None => ret (Result_ false)
     | Some found =>
         let existing_segment_ids :=
           match Dicts.get "segment_ids" found with
           | Some v => v
           | None => Strings []
           end in
         new_segment_ids <-
           match not_in segment_ids existing_segment_ids with
           | Some l => ret l
           | None => raise (TypeError "argument is not iterable")
           end ;;
         match new_segment_ids with
         | [] => ret tt
         | _ => update_one COURSES "course_id" course_id
                  (add_to_set_each "segment_ids" new_segment_ids)
         end ;;;
         ret (Result_ true)
     end)
    (fun e => ret (ExceptionObject (CustomException e))).

Definition remove_segments_from_course (course_id : string)
           (segment_ids : list string) : ST Database (Returned bool) :=
  try_except
    (course <- find_one COURSES "course_id" course_id ;;
     match course with
     | None => ret (Result_ false)
     | Some _ =>
         update_one COURSES "course_id" course_id
           (pull "segment_ids" (fun x => mem x segment_ids)) ;;;
         ret (Result_ true)
     end)
    (fun e => ret (ExceptionObject (CustomException e))).

End Methods.

End Courses.

(** The routes of src/api/v1/endpoints/courses.py over these methods:
    each returns what the method returns, or the exception object its
    handler builds. *)
Module CourseEndpoints.
Import PyStr Effects Mongo Courses.
Local Open Scope effect_scope.

Section Routes.
Context {ext : External}.

(** [try: return method(...)  except Exception as e:
    return CustomException(e, sys)] *)
Definition route {A} (method : ST Database (Returned A))
  : ST Database (Returned A) :=
  try_except method (fun e => ret (ExceptionObject (CustomException e))).

Definition returned {A} (method : ST Database A) : ST Database (Returned A) :=
  results <- method ;; ret (Result_ results).

Definition get_courses_by_segment_id (segment_id : string)
  : ST Database (Returned (list Doc)) :=
  route (Courses.get_courses_by_segment_id segment_id).

Definition edit_trending_popular_course (course_id : string)
           (is_popular is_trending : bool)
  : ST Database (Returned Pipeline.Response) :=
  route (returned (Courses.edit_trending_popular_course course_id is_popular
                                                         is_trending)).

Definition update_course (course_id course_name level image_uri
                          description : string)
  : ST Database (Returned Pipeline.Response) :=
  route (returned (Courses.edit_course course_id course_name level image_uri
                                        description)).

Definition delete_course (course_id : string)
  : ST Database (Returned Pipeline.Response) :=
  route (returned (Courses.delete_course course_id)).

Definition add_segment_to_course (course_id : string)
           (segment_ids : list string) : ST Database (Returned bool) :=
  route (Courses.add_segment_to_course course_id segment_ids).

Definition remove_segment_from_course (course_id : string)
           (segment_ids : list string) : ST Database (Returned bool) :=
  route (Courses.remove_segments_from_course course_id segment_ids).

End Routes.

End CourseEndpoints.

(* ===================================================================== *)
(** * Sample data *)
(* ===================================================================== *)

(** Concrete inputs on which the definitions are run below. *)
Module Samples.
Import PyStr Effects Users.

(** A model response without any section header, and a lesson outline. *)
Definition plain_response : string :=
  "Here is the lesson." +++ NL +++ "# Title" +++ NL +++ "###Not a section".

Definition outline_lesson : LessonItem :=
  mkLesson "LESSON_0A1B2C3D" "Variables" read_and_execute "outline text"
           (Some "do it") None None None.

(** A practical lesson with a one-word body and nothing else. *)
Definition bare_exercise : LessonItem :=
  mkLesson "LESSON_00000001" "t" read_and_execute "short" None None None None.

(** A theory lesson of some 400 characters, with a section header, a
    list and four paragraphs. *)
Definition silent_lesson : LessonItem :=
  mkLesson "LESSON_00000002" "Variables" read
           ("## Variables" +++ NL +++ NL
            +++ "A variable is a name that stands for a value. The value can "
            +++ "change while the program runs, the name stays the same."
            +++ NL +++ NL
            +++ "- A name is written once and used many times." +++ NL
            +++ "- A value is what the name stands for at the moment."
            +++ NL +++ NL
            +++ "Choose names that say what the value means, so that the "
            +++ "program can be read by somebody who has not written it."
            +++ NL +++ NL
            +++ "The next lesson shows how the values of two names are "
            +++ "compared with each other.")
           None None None None.

(** A description with a marketing term and a technology term that is
    too short for the length criterion. *)
Definition two_word_description : string := "Learn Python".

(** A module that scores 0.7, 0.8, 0.8, 0.8 and 0.85 on the five criteria:
    a six-word title without action verb, a short description naming a
    technology and a skill, five objectives with a Bloom verb, eight
    three-word topics and three industry applications. *)
Definition fair_module : ModuleDict :=
  mkModule
    (Some "Variables and Types in Plain Words")
    (Some "Practice python basics")
    (Some ["Define a variable"; "Explain a type"; "Compare two values";
           "Apply an operator"; "Identify a literal"])
    (Some ["names and values"; "numbers in depth"; "text as strings";
           "true and false"; "lists of things"; "reading user input";
           "printing to screen"; "comments and style"])
    (Some ["Used in industry tools"; "A professional habit";
           "Seen in production systems"])
    None [].

(** [fair_module] as the dictionary that a reply decodes to. *)
Definition fair_fields : Dicts.Dict Json :=
  [("title", JString "Variables and Types in Plain Words");
   ("description", JString "Practice python basics");
   ("learning_objectives",
    JArray [JString "Define a variable"; JString "Explain a type";
            JString "Compare two values"; JString "Apply an operator";
            JString "Identify a literal"]);
   ("key_topics",
    JArray [JString "names and values"; JString "numbers in depth";
            JString "text as strings"; JString "true and false";
            JString "lists of things"; JString "reading user input";
            JString "printing to screen"; JString "comments and style"]);
   ("practical_applications",
    JArray [JString "Used in industry tools"; JString "A professional habit";
            JString "Seen in production systems"])].

(** An environment in which every service answers: the chat model always
    sends the same short text, which is no JSON; the curriculum has
    one module and its outline one lesson. *)
Definition one_lesson : LessonItem :=
  mkLesson "" "Variables" read "what a variable is" None None None None.

Definition answering : External :=
  {| chat_model := fun _ => Some "Learn Python";
     curriculum_model :=
       fun _ => Some (mkOutput "Python" "4 weeks" 1 ["python"]
                               [mkItem "Basics" "The first steps"]);
     outline_model := fun _ => Some (mkModuleLessons "MODULE_X" [one_lesson]);
     mongo_available := fun _ => true;
     uuid4_hex8 := fun _ => "0A1B2C3D";
     json_loads := fun _ => None;
     markdown_rewrites := fun s => s;
     improved_fields := fun _ => mkImproved None None None None None |}.

(** An environment in which every service answers and the chat model
    sends, after the description, a text that decodes to
    [fair_fields]. *)
Definition fair_reply : string := "the JSON text of the fair module".

Definition replying : External :=
  {| chat_model := fun n => Some (if n =? 0 then "Learn Python" else fair_reply);
     curriculum_model := @curriculum_model answering;
     outline_model := @outline_model answering;
     mongo_available := fun _ => true;
     uuid4_hex8 := @uuid4_hex8 answering;
     json_loads := fun s => if String.eqb s fair_reply
                            then Some (JObject fair_fields) else None;
     markdown_rewrites := @markdown_rewrites answering;
     improved_fields := @improved_fields answering |}.

(** The environment [answering] with a chat model that always sends
    the text 42, which decodes to the number. *)
Definition numbering : External :=
  {| chat_model := fun _ => Some "42";
     curriculum_model := @curriculum_model answering;
     outline_model := @outline_model answering;
     mongo_available := fun _ => true;
     uuid4_hex8 := @uuid4_hex8 answering;
     json_loads := fun s => if String.eqb s "42" then Some (JInt 42) else None;
     markdown_rewrites := @markdown_rewrites answering;
     improved_fields := @improved_fields answering |}.

(** Modules as the lesson stage may receive them: one with the three
    keys it reads, the same with a number as its level, and one
    without description. *)
Definition basics_module : Json :=
  JObject [("title", JString "Basics");
           ("description", JString "The first steps");
           ("module_id", JString "MODULE_0A1B2C3D")].

Definition levelled_module : Json :=
  JObject [("title", JString "Basics");
           ("description", JString "The first steps");
           ("level", JInt 3);
           ("module_id", JString "MODULE_0A1B2C3D")].

Definition untold_module : Json :=
  JObject [("title", JString "Basics");
           ("module_id", JString "MODULE_0A1B2C3D")].

(** The environment [answering] with MongoDB out of reach. *)
Definition database_down : External :=
  {| chat_model := @chat_model answering;
     curriculum_model := @curriculum_model answering;
     outline_model := @outline_model answering;
     mongo_available := fun _ => false;
     uuid4_hex8 := @uuid4_hex8 answering;
     json_loads := @json_loads answering;
     markdown_rewrites := @markdown_rewrites answering;
     improved_fields := @improved_fields answering |}.

(** The environment [answering] with MongoDB lost after its second
    request. *)
Definition database_lost : External :=
  {| chat_model := @chat_model answering;
     curriculum_model := @curriculum_model answering;
     outline_model := @outline_model answering;
     mongo_available := fun n => n <? 2;
     uuid4_hex8 := @uuid4_hex8 answering;
     json_loads := @json_loads answering;
     markdown_rewrites := @markdown_rewrites answering;
     improved_fields := @improved_fields answering |}.

(** The environment [answering] with the LLM provider out of reach. *)
Definition provider_down : External :=
  {| chat_model := fun _ => None;
     curriculum_model := fun _ => None;
     outline_model := fun _ => None;
     mongo_available := fun _ => true;
     uuid4_hex8 := @uuid4_hex8 answering;
     json_loads := @json_loads answering;
     markdown_rewrites := @markdown_rewrites answering;
     improved_fields := @improved_fields answering |}.

Definition empty_world : World := mkWorld [] [] [] [] 0 0 0 [].

Definition python_request : AddNewCourse :=
  mkRequest "Python" "basic" "img.png" "" "2025-01-01T00:00:00".

Definition python_course : CourseDoc :=
  mkCourse "COURSE_00000000" "Python" "basic" "img.png" "2024-12-31T00:00:00"
           false false "Learn Python".

(** A database that already holds a course called Python. *)
Definition world_with_python : World :=
  mkWorld [] [CourseDocument python_course] [] [] 0 0 0 [].

(** Services that answer; a password verifies against the hash that
    [pwd_hash] gives it. *)
Definition working : Services :=
  {| supabase_available := fun _ => true;
     generated_id := fun n => "user-" +++ String (ascii_of_nat (48 + n)) "";
     pwd_hash := fun p => Some ("hash:" +++ p);
     pwd_verify := fun p h => Some (String.eqb h ("hash:" +++ p));
     jwt_encode := fun subject => Some ("jwt:" +++ subject);
     utcnow := "2025-01-01T00:00:00" |}.

(** The same services with the table out of reach. *)
Definition unreachable : Services :=
  {| supabase_available := fun _ => false;
     generated_id := @generated_id working;
     pwd_hash := @pwd_hash working;
     pwd_verify := @pwd_verify working;
     jwt_encode := @jwt_encode working;
     utcnow := @utcnow working |}.

Definition ada : UserRow :=
  mkUser "user-0" "ada@example.com" "hash:lovelace" "administrator"
         "2024-12-31T00:00:00" (Some "Ada") None.

Definition no_users : Table := mkTable [] 0.
Definition one_user : Table := mkTable [ada] 0.

End Samples.

(* ===================================================================== *)
(** * More sample data *)
(* ===================================================================== *)

Module MoreSamples.
Import PyStr Effects Users Tokens Samples.

(** A decoder for the tokens of [Samples.working]: the subject follows
    the prefix; anything else is rejected. *)
Definition decoding : Decoder :=
  {| jwt_decode := fun token =>
                     if String.prefix "jwt:" token
                     then Some (Some (drop 4 token))
                     else None |}.

End MoreSamples.

Module SampleDocuments.
Import PyStr Effects Mongo.

Definition python_doc : Doc :=
  [("course_id", Text "c1"); ("course_name", Text "Python");
   ("level", Text "beginner"); ("segment_ids", Strings ["s1"; "s2"]);
   ("is_popular", Flag false)].

Definition rust_doc : Doc :=
  [("course_id", Text "c2"); ("course_name", Text "Rust")].

Definition programming_doc : Doc :=
  [("domain_id", Text "d1"); ("courses_ids", Strings ["c1"; "c2"])].

Definition python_module : Doc :=
  [("module_id", Text "m1"); ("course_id", Text "c1")].

Definition rust_module : Doc :=
  [("module_id", Text "m2"); ("course_id", Text "c2")].

Definition python_lesson : Doc :=
  [("lesson_id", Text "l1"); ("module_id", Text "m1"); ("course_id", Text "c1")].

Definition catalogue : Database :=
  mkDatabase [programming_doc] [python_doc; rust_doc]
             [python_module; rust_module] [python_lesson] 0.

End SampleDocuments.

(* ===================================================================== *)
(** * Properties *)
(* ===================================================================== *)

Module MarkdownFacts.
Import PyStr Markdown.

Lemma split_on_nonempty (sep : ascii) (s : string) : split_on sep s <> [].
Proof.
  destruct s as [|c s]; simpl; [discriminate|].
  destruct (Ascii.eqb c sep); [discriminate|].
  destruct (split_on sep s); discriminate.
Qed.

Lemma split_on_app (sep : ascii) (a b : string) :
  split_on sep (a +++ String sep b) = split_on sep a ++ split_on sep b.
Proof.
  induction a as [|c a IH]; simpl.
  - rewrite Ascii.eqb_refl. reflexivity.
  - destruct (Ascii.eqb c sep); [now rewrite IH|].
    rewrite IH.
    destruct (split_on sep a) eqn:E; [now apply split_on_nonempty in E|].
    reflexivity.
Qed.

(** Before the first header the loop state does not move. *)
Lemma parse_lines_headerless (lines : list string) :
  forallb (fun line => negb (startswith "## " line)) lines = true ->
  parse_lines parse_init lines = parse_init.
Proof.
  induction lines as [|l ls IH]; simpl; [reflexivity|].
  intros H. apply andb_true_iff in H as [Hl Hls].
  apply negb_true_iff in Hl.
  assert (Hstep : parse_line parse_init l = parse_init)
    by (unfold parse_line; rewrite Hl; reflexivity).
  unfold parse_lines in *. simpl. rewrite Hstep. exact (IH Hls).
Qed.

Lemma extract_empty : _extract_main_content [] = "".
Proof. reflexivity. Qed.

End MarkdownFacts.

Module MarkdownClaims.
Import PyStr Markdown MarkdownFacts Samples.

(** C10. [_parse_markdown_sections] drops every line that comes before
    the first line starting with the header marker: a text [pre] without
    such a line contributes nothing when put in front of any text, parses
    to the empty mapping on its own, and as a model response makes
    [expand_lesson_content] set the lesson's [content] to the empty
    string. *)
Theorem headerless_prefix_is_discarded
        (rewrites : string -> string) (pre rest : string) (lesson : LessonItem) :
  no_header_line pre = true ->
  _parse_markdown_sections (pre +++ NL +++ rest) = _parse_markdown_sections rest
  /\ _parse_markdown_sections pre = []
  /\ content (expand_lesson_content rewrites lesson (Some pre)) = "".
Proof.
  intros H. unfold no_header_line in H.
  assert (Hpre : _parse_markdown_sections pre = []).
  { unfold _parse_markdown_sections. now rewrite parse_lines_headerless. }
  split; [|split]; [|exact Hpre|].
  - unfold _parse_markdown_sections.
    change (pre +++ NL +++ rest) with (pre +++ String LF rest).
    rewrite split_on_app. unfold parse_lines.
    rewrite fold_left_app.
    change (fold_left parse_line (split_on LF pre) parse_init)
      with (parse_lines parse_init (split_on LF pre)).
    now rewrite parse_lines_headerless.
  - unfold expand_lesson_content. rewrite Hpre, extract_empty.
    destruct (type _); reflexivity.
Qed.

Lemma headerless_prefix_is_discarded_witness :
  no_header_line plain_response = true
  /\ _parse_markdown_sections (plain_response +++ NL +++ "## Intro" +++ NL +++ "text")
     = [("Intro", "text")]
  /\ content (expand_lesson_content (fun s => s) outline_lesson (Some plain_response)) = "".
Proof.
  split; [reflexivity|].
  destruct (headerless_prefix_is_discarded (fun s => s) plain_response
              ("## Intro" +++ NL +++ "text") outline_lesson eq_refl) as [H1 [_ H3]].
  split; [rewrite H1; reflexivity | exact H3].
Defined.

End MarkdownClaims.

Module LessonQualityFacts.
Import PyStr Markdown LessonQuality Samples.

Lemma deduct_le (cond : bool) (d score : Z) :
  (0 <= d -> score - d <= deduct cond d score <= score)%Z.
Proof. unfold deduct; destruct cond; lia. Qed.

(** The deductions add up to at most 135 points. *)
Lemma raw_score_range sc cq eq mr :
  (-35 <= raw_score sc cq eq mr <= 100)%Z.
Proof.
  unfold raw_score. destruct cq, eq;
    repeat match goal with
           | |- context [deduct ?c ?d ?s] =>
               lazymatch s with
               | context [deduct _ _ _] => fail
               | _ => pose proof (deduct_le c d s ltac:(lia));
                      generalize dependent (deduct c d s); intros
               end
           end; lia.
Qed.

Lemma suggest_nil cond text acc :
  suggest cond text acc = [] -> cond = false /\ acc = [].
Proof.
  unfold suggest. destruct cond; [|auto].
  intros H. now destruct acc.
Qed.

(** A structure is rated good only if it has sections, formatting and
    more than 500 characters. *)
Lemma good_structure c :
  structure_quality (check_content_structure c) = good ->
  has_sections (check_content_structure c) = true
  /\ has_formatting (check_content_structure c) = true
  /\ (content_length (check_content_structure c) <? 300) = false.
Proof.
  unfold check_content_structure.
  cbn [structure_quality has_sections has_formatting content_length].
  destruct (has_section_header c); [|discriminate].
  destruct (500 <? String.length c) eqn:E; [|discriminate].
  destruct (3 <=? _); [|discriminate].
  destruct (existsb _ _); [|discriminate].
  intros _. repeat split. apply Nat.ltb_ge. apply Nat.ltb_lt in E. lia.
Qed.

(** Without a suggestion the only deduction left is the 20 points of a
    structure that needs improvement. *)
Lemma no_suggestion_raw_score sc cq eq mr :
  (structure_quality sc = good ->
   has_sections sc = true /\ has_formatting sc = true
   /\ (content_length sc <? 300) = false) ->
  suggestions_for sc cq eq mr = [] ->
  (80 <= raw_score sc cq eq mr)%Z.
Proof.
  intros Hgood H. unfold suggestions_for in H. unfold raw_score.
  destruct (is_relevant mr); cbn [negb] in H.
  2:{ apply suggest_nil in H as [_ H]. apply app_eq_nil in H as [_ H].
      discriminate. }
  destruct eq as [q|], cq as [q'|];
    repeat match goal with
           | H : suggest _ _ _ = [] |- _ => apply suggest_nil in H as [? H]
           end;
    (destruct (structure_quality sc);
     [ destruct (Hgood eq_refl) as (Hs & Hf & Hl)
     | cbn [is_needs_improvement] in H;
       repeat match goal with
              | H : suggest _ _ _ = [] |- _ => apply suggest_nil in H as [? H]
              end ]);
    repeat match goal with
           | H : negb ?b = false |- _ => apply negb_false_iff in H
           end;
    repeat match goal with
           | H : ?b = _ |- _ => rewrite H
           end;
    cbn; lia.
Qed.

(** A lesson below the threshold always comes with a suggestion. *)
Lemma failing_lesson_has_suggestions lesson ctx :
  passes_threshold (evaluate_lesson lesson ctx) = false ->
  improvement_suggestions (evaluate_lesson lesson ctx) <> [].
Proof.
  intros Hfail Hnone.
  pose proof (no_suggestion_raw_score _ _ _ _
                (good_structure (content lesson)) Hnone) as Hraw.
  unfold evaluate_lesson in Hfail. cbn [passes_threshold] in Hfail.
  apply Z.leb_gt in Hfail. lia.
Qed.

(** C9. For every lesson and module context, the [quality_score] that
    [evaluate_lesson] returns lies between 0 and 100 inclusive, being the
    accumulated deductions clamped by [max(0, min(100, score))], and
    [passes_threshold] is true exactly when [quality_score >= 70]. *)
Theorem evaluate_lesson_score_clamped
        (lesson : LessonItem) (module_context : option ModuleContext) :
  let e := evaluate_lesson lesson module_context in
  (0 <= quality_score e <= 100)%Z
  /\ quality_score e =
     Z.max 0 (Z.min 100 (raw_score (structure_check e) (code_quality e)
                                   (exercise_quality e) (module_relevance e)))
  /\ (passes_threshold e = true <-> (70 <= quality_score e)%Z).
Proof.
  cbv zeta. unfold evaluate_lesson; cbn [quality_score passes_threshold
    structure_check code_quality exercise_quality module_relevance].
  split; [lia|]. split; [reflexivity|]. apply Z.leb_le.
Qed.

(** The clamp is not idle: the deductions of a bare exercise go below 0. *)
Example bare_exercise_raw_score :
  let l := bare_exercise in
  let e := evaluate_lesson l (Some (mkContext "" "")) in
  raw_score (structure_check e) (code_quality e) (exercise_quality e)
            (module_relevance e) = (-10)%Z
  /\ quality_score e = 0%Z /\ passes_threshold e = false.
Proof. vm_compute. repeat split. Qed.

End LessonQualityFacts.

Module DescriptionQualityFacts.
Import PyStr DescriptionQuality Samples.

(** Decides a closed comparison between rationals. *)
Ltac decide_Q :=
  match goal with
  | |- (_ <= _)%Q => vm_compute; discriminate
  | |- ~ (_ <= _)%Q => let H := fresh in intro H; vm_compute in H; now apply H
  | |- (_ == _)%Q => vm_compute; reflexivity
  | |- ~ (_ == _)%Q => let H := fresh in intro H; vm_compute in H; discriminate H
  end.

(** An equivalence between a closed boolean and a closed comparison. *)
Ltac decide_iff :=
  split; intro;
  first [ reflexivity | discriminate | decide_Q | lia
        | exfalso; match goal with
                   | H : (_ <= _)%Q |- _ => vm_compute in H; now apply H
                   | H : (_ <= _)%nat |- _ => vm_compute in H; lia
                   end ].

(** The reported score departs from the exact quotient as soon as the
    quotient has more than two decimals: one marketing term and one
    technology term in two words give 250/3, reported as 83.33. *)
Lemma quality_score_is_not_the_exact_quotient :
  ~ (quality_score (check_description_quality two_word_description)
     == (length_score two_word_description
         + marketing_score two_word_description
         + specificity_score two_word_description) / 3 * 100)%Q.
Proof. decide_Q. Qed.

(** C5 (amended). [check_description_quality] is a heuristic over word
    counts and keyword presence: each component is 1.0 when its criterion
    holds and 0.5 otherwise, the reported [quality_score] is
    [(length_score + marketing_score + specificity_score) / 3 * 100]
    rounded to two decimals (50.0, 66.67, 83.33 or 100.0 for zero to
    three criteria met), and [passes_threshold] is true exactly when the
    score, rounded or not, is at least 80, that is exactly when at least
    two of the three criteria are met. *)
Theorem check_description_quality_heuristic (description : string) :
  let r := check_description_quality description in
  let exact := ((length_score description + marketing_score description
                 + specificity_score description) / 3 * 100)%Q in
  length_score description = (if length_ok description then 1 else 1 # 2)%Q
  /\ marketing_score description
     = (if has_marketing_appeal description then 1 else 1 # 2)%Q
  /\ specificity_score description
     = (if has_specificity description then 1 else 1 # 2)%Q
  /\ quality_score r = Score.round2 exact
  /\ (quality_score r == reported_score (criteria_met description))%Q
  /\ (passes_threshold r = true <-> (80 <= exact)%Q)
  /\ (passes_threshold r = true <-> (80 <= quality_score r)%Q)
  /\ (passes_threshold r = true <-> 2 <= criteria_met description).
Proof.
  cbv zeta.
  unfold check_description_quality, overall_score, criteria_met, reported_score,
    length_score, marketing_score, specificity_score, component;
    cbn [quality_score passes_threshold].
  repeat (split; [reflexivity|]).
  destruct (length_ok description), (has_marketing_appeal description),
    (has_specificity description);
    (split; [decide_Q|]); (split; [|split]);
    unfold Score.geb; decide_iff.
Qed.

End DescriptionQualityFacts.

Module Binary64Facts.
Import Binary64.
Local Open Scope float_scope.

(** In double precision too, no criterion of [fair_module] is below 0.7
    and its score is below 80. *)
Example fair_module_in_binary64 :
  forallb (fun q => negb (q <? 0.7)) fair_criteria = true
  /\ ((sum fair_criteria / 5) * 100 <? 80) = true.
Proof. split; vm_compute; reflexivity. Qed.

(** In double precision too, a description passes with two criteria met
    and not with one, and the quotients for one and two criteria are not
    the reported 66.67 and 83.33. *)
Example description_scores_in_binary64 :
  map (fun s => 80 <=? s) description_scores = [false; false; true; true]
  /\ map (fun s => (s =? 66.67) || (s =? 83.33))%bool description_scores
     = [false; false; false; false].
Proof. split; vm_compute; reflexivity. Qed.

End Binary64Facts.

(* ===================================================================== *)
(** * Adding fields to a dictionary *)
(* ===================================================================== *)

Module DictFacts.
Import PyStr Dicts.

Section Values.
Context {V : Type}.
Implicit Types (a b d : Dict V) (k : string).

Lemma get_set k v d : get k (set k v d) = Some v.
Proof.
  induction d as [|[k' v'] d IH]; cbn.
  - now rewrite String.eqb_refl.
  - destruct (String.eqb k k') eqn:E; cbn; [now rewrite String.eqb_refl|].
    now rewrite E.
Qed.

Lemma get_set_other k k' v d : k' <> k -> get k' (set k v d) = get k' d.
Proof.
  intros Hk. apply String.eqb_neq in Hk.
  induction d as [|[k0 v0] d IH]; cbn.
  - now rewrite Hk.
  - destruct (String.eqb k k0) eqn:E; cbn.
    + apply String.eqb_eq in E. subst. now rewrite Hk.
    + now rewrite IH.
Qed.

Lemma get_absent k d : ~ In k (keys d) -> get k d = None.
Proof.
  induction d as [|[k' v'] d IH]; cbn; [reflexivity|]. intros H.
  destruct (String.eqb k k') eqn:E.
  - apply String.eqb_eq in E. subst. exfalso. apply H. now left.
  - apply IH. intros Hin. apply H. now right.
Qed.

Lemma keys_set k v d :
  keys (set k v d) = if mem k (keys d) then keys d else keys d ++ [k].
Proof.
  unfold mem, keys. induction d as [|[k' v'] d IH]; cbn; [reflexivity|].
  destruct (String.eqb k k') eqn:E; cbn.
  - apply String.eqb_eq in E. now subst.
  - rewrite IH. now destruct (existsb _ _).
Qed.

(** In [{**a, **b}] the value of [b] wins. *)
Lemma get_unpack k b : forall a,
  NoDup (keys b) ->
  get k (unpack a b) = match get k b with Some v => Some v | None => get k a end.
Proof.
  unfold unpack. induction b as [|[k0 v0] b IH]; intros a Hnd; [reflexivity|].
  cbn [fold_left get]. inversion Hnd as [|? ? Hk0 Hb]; subst.
  rewrite (IH _ Hb). destruct (String.eqb k k0) eqn:E.
  - apply String.eqb_eq in E. subst k0.
    now rewrite (get_absent _ _ Hk0), get_set.
  - apply String.eqb_neq in E. now rewrite (get_set_other _ _ _ _ E).
Qed.

(** In [{**a, **b}] the keys of [a] come first. *)
Lemma keys_unpack b : forall a,
  NoDup (keys b) ->
  keys (unpack a b)
  = keys a ++ filter (fun k => negb (mem k (keys a))) (keys b).
Proof.
  unfold unpack. induction b as [|[k0 v0] b IH]; intros a Hnd.
  - cbn. now rewrite app_nil_r.
  - change (keys ((k0, v0) :: b)) with (k0 :: keys b) in *.
    inversion Hnd as [|? ? Hk0 Hb]; subst.
    cbn [fold_left filter]. rewrite (IH _ Hb), keys_set.
    destruct (mem k0 (keys a)) eqn:M; cbn [negb]; [reflexivity|].
    rewrite <- app_assoc. cbn [app]. f_equal. f_equal.
    apply filter_ext_in. intros k Hk. f_equal.
    unfold mem. rewrite existsb_app. cbn.
    destruct (String.eqb k k0) eqn:E; [|now rewrite !orb_false_r].
    apply String.eqb_eq in E. subst. contradiction.
Qed.

(** X15. [add_fields_to_dict] on two dictionaries. With
    [insert_at_top] the new fields come first, followed by the keys of
    the base dictionary that are not among them, and for a key that
    both dictionaries have the value of the base dictionary is kept;
    without it the keys of the base dictionary come first and the
    value of the new fields is taken. So the flag decides which of the
    two values survives, not only where the new keys are placed. *)
Theorem add_fields_to_dict_precedence (base_dict new_fields : Dict V) :
  NoDup (keys base_dict) -> NoDup (keys new_fields) ->
  let top := add_fields_to_dict base_dict new_fields true in
  let bottom := add_fields_to_dict base_dict new_fields false in
  (forall k, get k top = match get k base_dict with
                         | Some v => Some v
                         | None => get k new_fields
                         end)
  /\ (forall k, get k bottom = match get k new_fields with
                               | Some v => Some v
                               | None => get k base_dict
                               end)
  /\ keys top
     = keys new_fields
         ++ filter (fun k => negb (mem k (keys new_fields))) (keys base_dict)
  /\ keys bottom
     = keys base_dict
         ++ filter (fun k => negb (mem k (keys base_dict))) (keys new_fields).
Proof.
  intros Hb Hn. cbv zeta. unfold add_fields_to_dict.
  repeat split; intros;
    first [now apply get_unpack | now apply keys_unpack].
Qed.

End Values.

Lemma add_fields_to_dict_precedence_witness :
  add_fields_to_dict [("level", "advanced"); ("description", "d")]
                     [("course_id", "COURSE_1"); ("level", "basic")] true
  = [("course_id", "COURSE_1"); ("level", "advanced"); ("description", "d")]
  /\ get "level"
         (add_fields_to_dict [("level", "advanced"); ("description", "d")]
                             [("course_id", "COURSE_1"); ("level", "basic")] true)
     = Some "advanced".
Proof.
  split; [reflexivity|].
  destruct (add_fields_to_dict_precedence
              [("level", "advanced"); ("description", "d")]
              [("course_id", "COURSE_1"); ("level", "basic")]) as (H & _).
  - repeat constructor; cbn; intuition discriminate.
  - repeat constructor; cbn; intuition discriminate.
  - exact (H "level").
Defined.

End DictFacts.

Module EffectsFacts.
Import Effects.
Local Open Scope effect_scope.

Lemma emits_ret {A} P (a : A) : emits P (ret a).
Proof.
  intros w. split; [reflexivity|]. split; [apply le_n|].
  exists []. simpl. now rewrite app_nil_r.
Qed.

Lemma emits_raise {A} P e : emits P (raise e : M A).
Proof.
  intros w. split; [reflexivity|]. split; [apply le_n|].
  exists []. simpl. now rewrite app_nil_r.
Qed.

Lemma emits_lift {A} P (r : Result A) : emits P (lift r).
Proof.
  intros w. split; [reflexivity|]. split; [apply le_n|].
  exists []. simpl. now rewrite app_nil_r.
Qed.

Lemma emits_chain {A B} P (m : M A) (w : World) (next : Result A -> M B) :
  emits P m -> (forall r, emits P (next r)) ->
  collections (snd (next (fst (m w)) (snd (m w)))) = collections w
  /\ llm_calls w <= llm_calls (snd (next (fst (m w)) (snd (m w))))
  /\ exists t, trace (snd (next (fst (m w)) (snd (m w)))) = trace w ++ t
               /\ Forall P t.
Proof.
  intros Hm Hn.
  destruct (Hm w) as (Hc & Hl & t & Ht & HP).
  destruct (Hn (fst (m w)) (snd (m w))) as (Hc' & Hl' & t' & Ht' & HP').
  split; [congruence|].
  split; [eapply Nat.le_trans; eauto|].
  exists (t ++ t'). split; [now rewrite Ht', Ht, app_assoc|].
  apply Forall_app; auto.
Qed.

Lemma emits_bind {A B} P (m : M A) (k : A -> M B) :
  emits P m -> (forall a, emits P (k a)) -> emits P (bind m k).
Proof.
  intros Hm Hk w.
  pose proof (emits_chain P m w
                (fun r => match r with Return a => k a | Raise e => raise e end)
                Hm) as H.
  unfold bind. destruct (m w) as [[a|e] w']; simpl in *;
    apply H; intros [a'|e']; auto using emits_raise.
Qed.

Lemma emits_try {A} P (m : M A) (h : Exn -> M A) :
  emits P m -> (forall e, emits P (h e)) -> emits P (try_except m h).
Proof.
  intros Hm Hh w.
  pose proof (emits_chain P m w
                (fun r => match r with Return a => ret a | Raise e => h e end)
                Hm) as H.
  unfold try_except. destruct (m w) as [[a|e] w']; simpl in *;
    apply H; intros [a'|e']; auto using emits_ret.
Qed.

Lemma emits_weaken {A} (P Q : Event -> Prop) (m : M A) :
  (forall e, P e -> Q e) -> emits P m -> emits Q m.
Proof.
  intros HPQ Hm w. destruct (Hm w) as (Hc & Hl & t & Ht & HP).
  split; [exact Hc|]. split; [exact Hl|].
  exists t. split; [exact Ht|]. eapply Forall_impl; eauto.
Qed.

Lemma post_bind {S A B} (m : ST S A) (k : A -> ST S B) w Q :
  post m w (fun r w1 => match r with
                        | Return a => post (k a) w1 Q
                        | Raise e => Q (Raise e) w1
                        end) ->
  post (bind m k) w Q.
Proof. unfold post, bind. destruct (m w) as [[a|e] w1]; auto. Qed.

Lemma post_try {S A} (m : ST S A) (h : Exn -> ST S A) w Q :
  post m w (fun r w1 => match r with
                        | Return a => Q (Return a) w1
                        | Raise e => post (h e) w1 Q
                        end) ->
  post (try_except m h) w Q.
Proof. unfold post, try_except. destruct (m w) as [[a|e] w1]; auto. Qed.

Lemma collections_counted w : collections (count_db_request w) = collections w.
Proof. reflexivity. Qed.

Lemma trace_counted w : trace (count_db_request w) = trace w.
Proof. reflexivity. Qed.

(** Reduces a goal about a computation that has come to its end. *)
Ltac stop := unfold post, raise, ret; cbn [fst snd]; rewrite ?trace_counted.

(** Equal traces, up to the bracketing of the concatenations. *)
Ltac traces := repeat (rewrite <- app_assoc; simpl); reflexivity.

Section Primitives.
Context {ext : External}.

Lemma emits_invoke {A} (P : Event -> Prop) (model : nat -> option A) site :
  P (LlmCall site) -> emits P (invoke model site).
Proof.
  intros HP w. unfold invoke.
  destruct (model (llm_calls w)); simpl;
    (split; [reflexivity|]); (split; [auto|]);
    exists [LlmCall site]; auto.
Qed.

Lemma emits_unique_id P prefix : emits P (unique_id_generator prefix).
Proof.
  intros w. split; [reflexivity|]. split; [apply le_n|].
  exists []. simpl. now rewrite app_nil_r.
Qed.

(** A request to the provider is counted once. *)
Lemma invoke_counts {A} (model : nat -> option A) site w :
  llm_calls (snd (invoke model site w)) = S (llm_calls w).
Proof. unfold invoke. destruct (model (llm_calls w)); reflexivity. Qed.

End Primitives.

Create HintDb emits.
#[export] Hint Resolve emits_ret emits_raise emits_lift emits_bind emits_try
  emits_invoke emits_unique_id : emits.

End EffectsFacts.

Module PipelineFacts.
Import PyStr Effects Pipeline EffectsFacts.
Local Open Scope effect_scope.

(** Splits a goal about the footprint of a computation along its
    structure. *)
Ltac footprint :=
  repeat first
    [ assumption
    | apply emits_ret | apply emits_raise | apply emits_lift
    | apply emits_unique_id
    | apply emits_invoke; reflexivity
    | apply emits_bind; [|intros]
    | apply emits_try; [|intros]
    | match goal with
      | |- emits _ (if ?b then _ else _) => destruct b
      | |- emits _ (match ?x with _ => _ end) => destruct x
      end ].

Section Footprints.
Context {ext : External}.

Let D (e : Event) : Prop := describes e = true.
Let Mo (e : Event) : Prop := builds_modules e = true.
Let L (e : Event) : Prop := builds_lessons e = true.

Lemma generate_description_emits data unique_id :
  emits D (generate_description data unique_id).
Proof.
  unfold generate_description, generate_description_body, improve_description.
  footprint.
Qed.

Lemma improve_module_emits module report : emits Mo (improve_module module report).
Proof. unfold improve_module, decode. footprint. Qed.

Lemma enhance_and_check_emits item : emits Mo (enhance_and_check item).
Proof.
  unfold enhance_and_check.
  apply emits_bind; [unfold enhance_module, decode; footprint|intros].
  apply emits_bind; [footprint|intros].
  destruct (negb _); [apply improve_module_emits|footprint].
Qed.

Lemma enhance_all_emits items : emits Mo (enhance_all items).
Proof.
  induction items as [|item rest IH]; simpl; [footprint|].
  apply emits_bind; [apply enhance_and_check_emits|intros; footprint].
Qed.

Lemma assign_module_ids_emits ms : emits Mo (assign_module_ids ms).
Proof. induction ms as [|m rest IH]; simpl; footprint. Qed.

Lemma generate_module_emits data : emits Mo (generate_module data).
Proof.
  unfold generate_module, module_generater, module_generater_body, log_sample.
  apply emits_try; [|intros; footprint].
  apply emits_bind; [|intros; apply emits_bind;
                       [apply assign_module_ids_emits|intros; footprint]].
  apply emits_try; [|intros; footprint].
  apply emits_bind; [footprint|intros].
  apply emits_bind; [apply enhance_all_emits|intros].
  footprint.
Qed.

Lemma assign_lesson_ids_emits ls : emits L (assign_lesson_ids ls).
Proof. induction ls as [|l rest IH]; simpl; footprint. Qed.

Lemma expand_all_emits ls : emits L (expand_all ls).
Proof.
  induction ls as [|l rest IH]; simpl; [footprint|].
  apply emits_bind; [unfold expand_lesson_content; footprint|intros; footprint].
Qed.

Lemma improve_lesson_emits lesson evaluation :
  emits L (improve_lesson lesson evaluation).
Proof. unfold improve_lesson. footprint. Qed.

Lemma improve_each_emits evaluations :
  forall objects improved, emits L (improve_each evaluations objects improved).
Proof.
  induction evaluations as [|ev rest IH]; intros; simpl; [footprint|].
  destruct (find_lesson _ _); [|apply IH].
  destruct (nth_error _ _); [|apply IH].
  destruct (negb _); [|apply IH].
  apply emits_bind; [apply improve_lesson_emits|intros; apply IH].
Qed.

Lemma lessons_for_modules_emits ms : emits L (lessons_for_modules ms).
Proof.
  induction ms as [|m rest IH]; simpl; [footprint|].
  apply emits_bind; [footprint|intros].
  apply emits_bind.
  { unfold generate_lesson_outlines, read_module_keys.
    apply emits_bind; [footprint|intros].
    apply emits_bind; [footprint|intros].
    apply emits_bind; [apply assign_lesson_ids_emits|intros; footprint]. }
  intros. apply emits_bind; [apply expand_all_emits|intros].
  apply emits_bind; [|intros; footprint].
  unfold _check_and_improve_module_quality.
  apply emits_try; [|intros; footprint].
  apply emits_bind; [apply improve_each_emits|intros; footprint].
Qed.

Lemma generate_lessons_emits ms course_id :
  emits L (generate_lessons_for_each_module ms course_id).
Proof.
  unfold generate_lessons_for_each_module.
  apply emits_bind; [apply lessons_for_modules_emits|intros; footprint].
Qed.

(** ** What the stages return *)

Lemma generate_description_result data unique_id w d :
  fst (generate_description data unique_id w) = Return d ->
  doc_course_id d = unique_id /\ doc_course_name d = course_name data.
Proof.
  unfold generate_description, generate_description_body, try_except, bind.
  match goal with
  | |- context [match ?m w with _ => _ end] => destruct (m w) as [[s|e] w1]
  end; simpl; [|discriminate].
  intros H; injection H as <-. split; reflexivity.
Qed.

Lemma generate_module_result data w m :
  fst (generate_module data w) = Return (GeneratedModules m) ->
  modules_course_id m = doc_course_id data.
Proof.
  unfold generate_module, try_except, bind.
  destruct (module_generater _ w) as [[c|e] w1]; simpl; [|discriminate].
  destruct (assign_module_ids _ w1) as [[ms|e] w2]; simpl; [|discriminate].
  intros H; injection H as <-. reflexivity.
Qed.

Lemma generate_lessons_result ms course_id w l :
  fst (generate_lessons_for_each_module ms course_id w) = Return l ->
  lessons_course_id l = course_id.
Proof.
  unfold generate_lessons_for_each_module, bind.
  destruct (lessons_for_modules ms w) as [[r|e] w1]; simpl; [|discriminate].
  intros H; injection H as <-. reflexivity.
Qed.

(** ** The shape of a run *)

Lemma post_insert_one_document c d w (Q : Result Response -> World -> Prop) :
  (mongo_available (db_requests w) = false ->
   Q (Raise (MongoInsertFailed DriverError)) (count_db_request w)) ->
  (mongo_available (db_requests w) = true ->
   Q (Return Updated) (log (DbInsert c) (store c d (count_db_request w)))) ->
  post (insert_one_document c d) w Q.
Proof.
  unfold post, insert_one_document, try_except, bind, insert_one.
  destruct (mongo_available (db_requests w)); auto.
Qed.

Lemma generate_course_shape data w :
  post (generate_course data) w
       (fun r w' => exists t, trace w' = trace w ++ t /\ Shape data w r w' t).
Proof.
  unfold generate_course, generate_course_body. apply post_try, post_bind.
  unfold post at 1, find_one.
  destruct (mongo_available (db_requests w)) eqn:Hdb; cbn [fst snd].
  2:{ stop. exists []. split; [now rewrite app_nil_r|]. now constructor. }
  set (w1 := log (DbFind COURSES) (count_db_request w)).
  destruct (find _ _) as [existing|] eqn:Hfind.
  { stop. exists [DbFind COURSES]. split; [reflexivity|]. now constructor. }
  apply post_bind. unfold post at 1, unique_id_generator. cbn [fst snd].
  set (unique_id := "COURSE" +++ "_" +++ uuid4_hex8 (ids_drawn w1)).
  set (w2 := count_id w1).
  assert (Ht2 : trace w2 = trace w ++ [DbFind COURSES]) by reflexivity.
  assert (Hc2 : collections w2 = collections w) by reflexivity.
  clearbody w2 unique_id. clear w1.
  (* the description *)
  apply post_bind. unfold post at 1.
  pose proof (generate_description_emits data unique_id w2)
    as (Hc3 & _ & tD & Ht3 & HD).
  pose proof (generate_description_result data unique_id w2) as Hres.
  destruct (generate_description data unique_id w2) as [[d|e] w3];
    cbn [fst snd] in *.
  2:{ stop. exists (DbFind COURSES :: tD). split; [rewrite Ht3, Ht2; traces|].
      apply description_failed; [exact HD|congruence]. }
  destruct (Hres d eq_refl) as [Hid Hname]. clear Hres.
  apply post_bind, post_insert_one_document; intros Hdb3.
  { stop. exists (DbFind COURSES :: tD). split; [rewrite Ht3, Ht2; traces|].
    apply description_failed; [exact HD|]. rewrite collections_counted. congruence. }
  set (w4 := log (DbInsert COURSES)
                 (store COURSES (CourseDocument d) (count_db_request w3))).
  assert (Ht4 : trace w4 = trace w ++ DbFind COURSES :: tD ++ [DbInsert COURSES]).
  { simpl. rewrite Ht3, Ht2. traces. }
  assert (Hc4 : collections w4 =
                (domain_collection w, courses_collection w ++ [CourseDocument d],
                 modules_collection w, lessons_collection w)).
  { unfold collections in *. simpl in *. congruence. }
  clearbody w4. clear Hc2 Ht2 Hc3 Ht3 Hdb3 w2 w3.
  (* the modules *)
  apply post_bind. unfold post at 1.
  pose proof (generate_module_emits d w4) as (Hc5 & _ & tM & Ht5 & HM).
  pose proof (generate_module_result d w4) as Hres.
  destruct (generate_module d w4) as [[g|e] w5]; cbn [fst snd] in *.
  2:{ stop. exists (DbFind COURSES :: tD ++ DbInsert COURSES :: tM).
      split; [rewrite Ht5, Ht4; traces|].
      eapply modules_failed; eauto; congruence. }
  destruct g as [m|e].
  2:{ stop. exists (DbFind COURSES :: tD ++ DbInsert COURSES :: tM).
      split; [rewrite Ht5, Ht4; traces|].
      eapply modules_failed; eauto; congruence. }
  pose proof (Hres m eq_refl) as Hmid. clear Hres.
  apply post_bind, post_insert_one_document; intros Hdb5.
  { stop. exists (DbFind COURSES :: tD ++ DbInsert COURSES :: tM).
    split; [rewrite Ht5, Ht4; traces|].
    eapply modules_failed; eauto. rewrite collections_counted. congruence. }
  set (w6 := log (DbInsert MODULES)
                 (store MODULES (ModulesDocument m) (count_db_request w5))).
  assert (Ht6 : trace w6 = trace w ++ DbFind COURSES :: tD ++ DbInsert COURSES
                             :: tM ++ [DbInsert MODULES]).
  { simpl. rewrite Ht5, Ht4. traces. }
  assert (Hc6 : collections w6 =
                (domain_collection w, courses_collection w ++ [CourseDocument d],
                 modules_collection w ++ [ModulesDocument m],
                 lessons_collection w)).
  { unfold collections in *. simpl in *. congruence. }
  clearbody w6. clear Hc5 Ht5 Hdb5 Hc4 Ht4 w4 w5.
  (* the lessons *)
  apply post_bind. unfold post at 1.
  pose proof (generate_lessons_emits (curriculum_modules (curriculum m))
                unique_id w6) as (Hc7 & _ & tL & Ht7 & HL).
  pose proof (generate_lessons_result (curriculum_modules (curriculum m))
                unique_id w6) as Hres.
  destruct (generate_lessons_for_each_module _ unique_id w6) as [[l|e] w7];
    cbn [fst snd] in *.
  2:{ stop. exists (DbFind COURSES :: tD ++ DbInsert COURSES :: tM
                      ++ DbInsert MODULES :: tL).
      split; [rewrite Ht7, Ht6; traces|].
      eapply lessons_failed; eauto; congruence. }
  pose proof (Hres l eq_refl) as Hlid. clear Hres.
  apply post_insert_one_document; intros Hdb7.
  { stop. exists (DbFind COURSES :: tD ++ DbInsert COURSES :: tM
                    ++ DbInsert MODULES :: tL).
    split; [rewrite Ht7, Ht6; traces|].
    eapply lessons_failed; eauto. rewrite collections_counted. congruence. }
  exists (DbFind COURSES :: tD ++ DbInsert COURSES :: tM
            ++ DbInsert MODULES :: tL ++ [DbInsert LESSONS]).
  split; [simpl; rewrite Ht7, Ht6; traces|].
  apply (completed data w _ tD tM tL d m l); auto; try congruence.
  unfold collections in *. simpl in *. congruence.
Qed.

End Footprints.

End PipelineFacts.

(** Steps of a computation whose outcome is known. *)
Module Steps.
Import Effects.

Lemma bind_returns {S A B} (m : ST S A) (k : A -> ST S B) w a w' :
  m w = (Return a, w') -> bind m k w = k a w'.
Proof. unfold bind. now intros ->. Qed.

Lemma bind_raises {S A B} (m : ST S A) (k : A -> ST S B) w e w' :
  m w = (Raise e, w') -> bind m k w = (Raise e, w').
Proof. unfold bind. now intros ->. Qed.

Lemma try_returns {S A} (m : ST S A) (h : Exn -> ST S A) w a w' :
  m w = (Return a, w') -> try_except m h w = (Return a, w').
Proof. unfold try_except. now intros ->. Qed.

Lemma try_raises {S A} (m : ST S A) (h : Exn -> ST S A) w e w' :
  m w = (Raise e, w') -> try_except m h w = h e w'.
Proof. unfold try_except. now intros ->. Qed.

(** What returns from a sequence has gone through both parts. *)
Lemma bind_return_inv {S A B} (m : ST S A) (k : A -> ST S B) w b :
  fst (bind m k w) = Return b ->
  exists a w', m w = (Return a, w') /\ fst (k a w') = Return b.
Proof.
  unfold bind. destruct (m w) as [[a|e] w']; [eauto|discriminate].
Qed.

(** What returns under a handler that raises was returned by the body. *)
Lemma try_return_inv {S A} (m : ST S A) (f : Exn -> Exn) w a :
  fst (try_except m (fun e => raise (f e)) w) = Return a ->
  fst (m w) = Return a.
Proof.
  unfold try_except, raise. destruct (m w) as [[x|e] w']; [auto|discriminate].
Qed.

End Steps.

(* ===================================================================== *)
(** * What the stages do with the replies *)
(* ===================================================================== *)

Module StageFacts.
Import PyStr Effects PyJson Pipeline EffectsFacts PipelineFacts Steps DictFacts.
Local Open Scope effect_scope.

(** ** The checks on a decoded module *)

Lemma receiver_error name v e : receiver name v = Raise e -> interpreter_error e.
Proof. destruct v; cbn; intros H; inversion H; exact I. Qed.

Lemma receivers_error name elements : forall e,
  receivers name elements = Raise e -> interpreter_error e.
Proof.
  induction elements as [|x rest IH]; intros e; cbn; [discriminate|].
  destruct (receiver name x) eqn:R; cbn.
  - destruct (receivers name rest); cbn; [discriminate|].
    intros H; injection H as <-. now apply IH.
  - intros H; injection H as <-. now apply receiver_error in R.
Qed.

Lemma text_argument_error name v e :
  text_argument name v = Raise e -> interpreter_error e.
Proof.
  unfold text_argument. destruct (truthy v); [apply receiver_error|discriminate].
Qed.

Lemma texts_argument_error name v e :
  texts_argument name v = Raise e -> interpreter_error e.
Proof.
  unfold texts_argument. destruct (truthy v); [|discriminate].
  destruct v; try (intros H; inversion H; exact I); try discriminate.
  apply receivers_error.
Qed.

(** A check that raises raises an error of the interpreter. *)
Lemma check_module_quality_error module e :
  check_module_quality module = Raise e -> interpreter_error e.
Proof.
  unfold check_module_quality, and_then.
  repeat match goal with
         | |- match ?r with _ => _ end = _ -> _ =>
             let E := fresh "E" in
             destruct r eqn:E;
             [|intros H; injection H as <-;
               first [eapply text_argument_error; eassumption
                     |eapply texts_argument_error; eassumption]]
         end.
  discriminate.
Qed.

(** A report is the report of the typed checker on what was read. *)
Lemma check_module_quality_report module report :
  check_module_quality module = Return report ->
  exists d, report = ModuleQuality.check_module_quality d.
Proof.
  unfold check_module_quality, and_then.
  repeat match goal with
         | |- match ?r with _ => _ end = _ -> _ => destruct r; [|discriminate]
         end.
  intros H; injection H as <-. eauto.
Qed.

(** ** Suggestions *)

Lemma module_suggest_nil cond text acc :
  ModuleQuality.suggest cond text acc = [] -> cond = false /\ acc = [].
Proof.
  unfold ModuleQuality.suggest. destruct cond; [|auto].
  intros H. now destruct acc.
Qed.

(** No suggestion is made exactly when no criterion is below 0.7. *)
Lemma module_suggestions_nil c :
  ModuleQuality._generate_improvement_suggestions c = [] <->
  forallb (fun q => Score.geb q (7 # 10)) (ModuleQuality.values c) = true.
Proof.
  unfold ModuleQuality._generate_improvement_suggestions, ModuleQuality.values,
    Score.ltb, Score.geb. cbn [forallb].
  split.
  - intros H.
    repeat match goal with
           | H : ModuleQuality.suggest _ _ _ = [] |- _ =>
               apply module_suggest_nil in H as [? H]
           end.
    repeat match goal with
           | H : negb ?b = false |- _ => apply negb_false_iff in H; rewrite H
           end.
    reflexivity.
  - intros H. rewrite !andb_true_iff in H.
    destruct H as (-> & -> & -> & -> & -> & _). reflexivity.
Qed.

(** ** The enhanced module *)

Lemma get_or_merge key default module items :
  NoDup (Dicts.keys items) ->
  get_or key default (merge module items)
  = match Dicts.get key items with
    | Some v => v
    | None => get_or key default
                     [("title", JString (item_title module));
                      ("description", JString (item_description module))]
    end.
Proof.
  intros Hnd. unfold get_or at 1, merge. rewrite (get_unpack _ _ _ Hnd).
  now destruct (Dicts.get key items).
Qed.

Lemma get_merge key module items :
  NoDup (Dicts.keys items) ->
  Dicts.get key (merge module items)
  = match Dicts.get key items with
    | Some v => Some v
    | None => Dicts.get key
                        [("title", JString (item_title module));
                         ("description", JString (item_description module))]
    end.
Proof. intros Hnd. unfold merge. now rewrite (get_unpack _ _ _ Hnd). Qed.

(** A reply with a title and a description is checked as it is. *)
Lemma check_merge module items :
  NoDup (Dicts.keys items) ->
  Dicts.get "title" items <> None -> Dicts.get "description" items <> None ->
  check_module_quality (merge module items) = check_module_quality items.
Proof.
  intros Hnd Ht Hd. unfold check_module_quality.
  rewrite !(get_or_merge _ _ _ _ Hnd). unfold get_or.
  destruct (Dicts.get "title" items); [|contradiction].
  destruct (Dicts.get "description" items); [|contradiction].
  reflexivity.
Qed.

Lemma text_argument_string name s :
  exists t, text_argument name (JString s) = Return t.
Proof. unfold text_argument. destruct (truthy _); cbn; eauto. Qed.

Lemma check_fallback module :
  exists report, check_module_quality (fallback_module module) = Return report.
Proof.
  unfold check_module_quality, fallback_module.
  cbn [get_or Dicts.get String.eqb Ascii.eqb Bool.eqb].
  destruct (text_argument_string "split" (item_title module)) as (t & ->).
  destruct (text_argument_string "split" (item_description module)) as (d & ->).
  cbn. eauto.
Qed.

Lemma workable_usable v : workable v -> usable v.
Proof.
  intros (items & -> & _ & Ht & Hd & _ & Hl & Hs). exists items. auto.
Qed.

Lemma fallback_usable module : usable (JObject (fallback_module module)).
Proof.
  exists (fallback_module module). split; [reflexivity|].
  repeat split; try discriminate. eexists. reflexivity.
Qed.

Lemma merge_usable module items :
  workable (JObject items) -> usable (JObject (merge module items)).
Proof.
  intros (items' & E & Hnd & Ht & Hd & _ & Hl & Hs). injection E as <-.
  exists (merge module items). split; [reflexivity|].
  rewrite !(get_merge _ _ _ Hnd), !(get_or_merge _ _ _ _ Hnd).
  unfold get_or in *.
  destruct (Dicts.get "title" items); [|contradiction].
  destruct (Dicts.get "description" items); [|contradiction].
  repeat split; try discriminate.
  - destruct (Dicts.get "level" items); [exact Hl|]. eexists. reflexivity.
  - destruct (Dicts.get "learning_objectives" items); [exact Hs|reflexivity].
Qed.

Lemma usable_identified module i :
  usable module ->
  exists identified,
    setitem module "module_id" (JString i) = Return identified
    /\ usable identified /\ readable identified.
Proof.
  intros (items & -> & Ht & Hd & (level & Hl) & Hs).
  eexists. split; [reflexivity|].
  assert (Hother : forall k, k <> "module_id" ->
                             Dicts.get k (Dicts.set "module_id" (JString i) items)
                             = Dicts.get k items)
    by (intros k Hk; now apply get_set_other).
  split.
  - eexists. split; [reflexivity|]. unfold get_or in *.
    rewrite !Hother by discriminate. repeat split; eauto.
  - unfold readable, read_module_keys, get, getitem, get_or in *.
    rewrite !Hother by discriminate. rewrite get_set.
    cbn [and_then]. rewrite Hl. cbn [and_then].
    destruct (Dicts.get "title" items); [|contradiction].
    destruct (Dicts.get "description" items); [|contradiction].
    reflexivity.
Qed.

Section Stage.
Context {ext : External}.

(** ** The module stage, request by request *)

Lemma enhance_module_outcome (module : ModuleItem) (w : World) :
  enhance_module module w
  = (Return (enhanced_at module (llm_calls w)),
     log (LlmCall EnhanceModule) (count_llm_call w)).
Proof.
  unfold enhance_module, enhanced_at, try_except, bind, invoke, decode, lift,
    mapping.
  destruct (chat_model (llm_calls w)) as [reply|]; [|reflexivity].
  destruct (json_loads reply) as [[]|]; reflexivity.
Qed.

(** The improvement is asked for exactly when the report needs it. *)
Lemma improve_when_needed (module : Dicts.Dict Json) (d : ModuleDict)
      (w : World) :
  let report := ModuleQuality.check_module_quality d in
  (if negb (ModuleQuality.passes_threshold report)
   then improve_module module report
   else ret (JObject module)) w
  = if needs_improvement report
    then (Return (improved_at module (llm_calls w)),
          log (LlmCall ImproveModule) (count_llm_call w))
    else (Return (JObject module), w).
Proof.
  cbv zeta. unfold needs_improvement, improve_module.
  pose proof (module_suggestions_nil
                (ModuleQuality.criteria (ModuleQuality.check_module_quality d)))
    as N.
  change (ModuleQuality._generate_improvement_suggestions
            (ModuleQuality.criteria (ModuleQuality.check_module_quality d)))
    with (ModuleQuality.improvement_suggestions
            (ModuleQuality.check_module_quality d)) in N.
  destruct (ModuleQuality.passes_threshold _); cbn [negb andb]; [reflexivity|].
  destruct (forallb _ _); cbn [negb].
  - now rewrite (proj2 N eq_refl).
  - destruct (ModuleQuality.improvement_suggestions _);
      [now specialize (proj1 N eq_refl)|].
    unfold try_except, bind, invoke, decode, improved_at.
    destruct (chat_model (llm_calls w)) as [reply|]; [|reflexivity].
    now destruct (json_loads reply).
Qed.

Lemma enhance_and_check_outcome (module : ModuleItem) (w : World) :
  let enhanced := enhanced_at module (llm_calls w) in
  let w1 := log (LlmCall EnhanceModule) (count_llm_call w) in
  enhance_and_check module w
  = match check_module_quality enhanced with
    | Raise e => (Raise e, w1)
    | Return report =>
        if needs_improvement report
        then (Return (improved_at enhanced (S (llm_calls w))),
              log (LlmCall ImproveModule) (count_llm_call w1))
        else (Return (JObject enhanced), w1)
    end.
Proof.
  cbv zeta. unfold enhance_and_check.
  rewrite (bind_returns _ _ _ _ _ (enhance_module_outcome module w)).
  destruct (check_module_quality _) as [report|e] eqn:C;
    [|reflexivity].
  destruct (check_module_quality_report _ _ C) as (d & ->).
  rewrite (bind_returns _ _ _ _ _
             (eq_refl : lift (Return (ModuleQuality.check_module_quality d)) _
                        = _)).
  apply improve_when_needed.
Qed.

(** The loop makes the requests expected of it, and nothing else. *)
Lemma enhance_all_requests (items : list ModuleItem) : forall w,
  let r := enhance_all items w in
  trace (snd r) = trace w ++ module_requests items (llm_calls w)
  /\ llm_calls (snd r) = llm_calls w + length (module_requests items (llm_calls w))
  /\ ids_drawn (snd r) = ids_drawn w
  /\ match fst r with
     | Return ms => length ms = length items
     | Raise e => interpreter_error e
     end.
Proof.
  induction items as [|module rest IH]; intros w; cbv zeta.
  - cbn. rewrite app_nil_r. repeat split; lia.
  - cbn [enhance_all module_requests].
    pose proof (enhance_and_check_outcome module w) as Hs. cbv zeta in Hs.
    destruct (check_module_quality _) as [report|e] eqn:C.
    + destruct (needs_improvement report).
      * rewrite (bind_returns _ _ _ _ _ Hs).
        match goal with
        | |- context [bind (enhance_all rest) _ ?w1] =>
            specialize (IH w1); cbv zeta in IH;
            destruct IH as (Ht & Hc & Hi & Hr);
            unfold bind; destruct (enhance_all rest w1) as [[ms|e] w2]
        end; cbn [fst snd ret length] in *;
          rewrite Ht, Hc; repeat split;
          try (cbn; rewrite <- ?app_assoc; cbn; reflexivity);
          try (cbn; lia); auto.
      * rewrite (bind_returns _ _ _ _ _ Hs).
        match goal with
        | |- context [bind (enhance_all rest) _ ?w1] =>
            specialize (IH w1); cbv zeta in IH;
            destruct IH as (Ht & Hc & Hi & Hr);
            unfold bind; destruct (enhance_all rest w1) as [[ms|e] w2]
        end; cbn [fst snd ret length] in *;
          rewrite Ht, Hc; repeat split;
          try (cbn; rewrite <- ?app_assoc; cbn; reflexivity);
          try (cbn; lia); auto.
    + rewrite (bind_raises _ _ _ _ _ Hs). cbn. repeat split; try lia.
      now apply check_module_quality_error in C.
Qed.

(** ** Replies the stages can work with *)

Section Workable.
Hypothesis replies_workable : forall s v, json_loads s = Some v -> workable v.

Lemma enhanced_at_checked (module : ModuleItem) (n : nat) :
  (exists report, check_module_quality (enhanced_at module n) = Return report)
  /\ usable (JObject (enhanced_at module n)).
Proof.
  unfold enhanced_at.
  destruct (chat_model n) as [reply|];
    [|split; [apply check_fallback|apply fallback_usable]].
  destruct (json_loads reply) as [v|] eqn:J;
    [|split; [apply check_fallback|apply fallback_usable]].
  pose proof (replies_workable _ _ J) as Hv.
  destruct Hv as (items & -> & Hnd & Ht & Hd & Hc & Hl & Hs).
  split.
  - now rewrite check_merge.
  - apply merge_usable. exists items. auto 10.
Qed.

Lemma improved_at_usable (module : Dicts.Dict Json) (n : nat) :
  usable (JObject module) -> usable (improved_at module n).
Proof.
  intros Hm. unfold improved_at.
  destruct (chat_model n) as [reply|]; [|exact Hm].
  destruct (json_loads reply) as [v|] eqn:J; [|exact Hm].
  apply workable_usable. eauto.
Qed.

Lemma enhance_all_usable (items : list ModuleItem) : forall w,
  exists ms w',
    enhance_all items w = (Return ms, w')
    /\ Forall usable ms /\ length ms = length items.
Proof.
  induction items as [|module rest IH]; intros w.
  - exists [], w. repeat split. constructor.
  - cbn [enhance_all].
    pose proof (enhance_and_check_outcome module w) as Hs. cbv zeta in Hs.
    destruct (enhanced_at_checked module (llm_calls w)) as ((report & C) & Hu).
    rewrite C in Hs.
    assert (Hstep : exists m w1, enhance_and_check module w = (Return m, w1)
                                 /\ usable m).
    { destruct (needs_improvement report); eexists _, _;
        (split; [exact Hs|]); [now apply improved_at_usable|exact Hu]. }
    destruct Hstep as (m & w1 & Hm & Hum).
    rewrite (bind_returns _ _ _ _ _ Hm).
    destruct (IH w1) as (ms & w2 & Hr & Hall & Hlen).
    rewrite (bind_returns _ _ _ _ _ Hr).
    exists (m :: ms), w2. repeat split; [now constructor|cbn; lia].
Qed.

Lemma log_sample_usable (ms : list Json) (w : World) :
  Forall usable ms -> log_sample ms w = (Return tt, w).
Proof.
  intros H. destruct H as [|m ms (items & -> & Ht & _ & _ & Hs) _];
    [reflexivity|].
  unfold log_sample, bind, lift, getitem, get.
  destruct (Dicts.get "title" items); [|contradiction].
  now rewrite Hs.
Qed.

Lemma module_generater_usable (name : string) (w : World) (out : ModuleOutput) :
  curriculum_model (llm_calls w) = Some out ->
  exists ms w',
    module_generater name w
    = (Return (mkCurriculum (output_course out) (output_duration out)
                            (output_num_modules out) (output_tools out) ms),
       w')
    /\ Forall usable ms /\ length ms = length (output_modules out).
Proof.
  intros Hout. unfold module_generater, module_generater_body.
  assert (Hi : invoke curriculum_model CurriculumStructure w
               = (Return out,
                  log (LlmCall CurriculumStructure) (count_llm_call w)))
    by (unfold invoke; now rewrite Hout).
  destruct (enhance_all_usable (output_modules out)
              (log (LlmCall CurriculumStructure) (count_llm_call w)))
    as (ms & w' & Hr & Hall & Hlen).
  exists ms, w'. split; [|auto].
  apply try_returns. rewrite (bind_returns _ _ _ _ _ Hi).
  rewrite (bind_returns _ _ _ _ _ Hr).
  rewrite (bind_returns _ _ _ _ _ (log_sample_usable ms w' Hall)).
  reflexivity.
Qed.

End Workable.

Lemma assign_module_ids_usable (ms : list Json) :
  Forall usable ms ->
  forall w, exists ms' w',
    assign_module_ids ms w = (Return ms', w')
    /\ Forall readable ms' /\ length ms' = length ms.
Proof.
  induction 1 as [|m ms Hm _ IH]; intros w.
  - exists [], w. repeat split. constructor.
  - cbn [assign_module_ids].
    rewrite (bind_returns _ _ _ _ _
               (eq_refl : unique_id_generator "MODULE" w = _)).
    destruct (usable_identified m ("MODULE" +++ "_" +++ uuid4_hex8 (ids_drawn w))
                Hm) as (identified & Hset & _ & Hread).
    unfold bind at 1, lift at 1. rewrite Hset.
    destruct (IH (count_id w)) as (ms' & w' & Hr & Hall & Hlen).
    rewrite (bind_returns _ _ _ _ _ Hr).
    exists (identified :: ms'), w'. repeat split; [now constructor|cbn; lia].
Qed.

Lemma generate_module_usable (data : CourseDoc) (w : World) (out : ModuleOutput) :
  (forall s v, json_loads s = Some v -> workable v) ->
  curriculum_model (llm_calls w) = Some out ->
  exists d w',
    generate_module data w = (Return (GeneratedModules d), w')
    /\ modules_course_id d = doc_course_id data
    /\ Forall readable (curriculum_modules (curriculum d))
    /\ length (curriculum_modules (curriculum d)) = length (output_modules out).
Proof.
  intros Hw Hout. unfold generate_module.
  destruct (module_generater_usable Hw (doc_course_name data) w out Hout)
    as (ms & w1 & Hg & Hall & Hlen).
  destruct (assign_module_ids_usable ms Hall w1) as (ms' & w2 & Ha & Hread & Hlen').
  eexists _, w2. split.
  - apply try_returns. rewrite (bind_returns _ _ _ _ _ Hg).
    cbn [curriculum_modules]. rewrite (bind_returns _ _ _ _ _ Ha). reflexivity.
  - cbn. repeat split; [exact Hread|lia].
Qed.

(** ** The lesson stage *)

Lemma readable_title (module : Json) :
  readable module -> exists title, getitem module "title" = Return title.
Proof.
  unfold readable, read_module_keys, and_then.
  destruct (get module "level" _); [|discriminate].
  destruct (lower_of _); [|discriminate].
  destruct (getitem module "title"); [eauto|discriminate].
Qed.

Lemma assign_lesson_ids_total (ls : list LessonItem) : forall w,
  exists ls' w', assign_lesson_ids ls w = (Return ls', w').
Proof.
  induction ls as [|l rest IH]; intros w; [now exists [], w|].
  cbn [assign_lesson_ids].
  rewrite (bind_returns _ _ _ _ _ (eq_refl : unique_id_generator "LESSON" w = _)).
  destruct (IH (count_id w)) as (ls' & w' & Hr).
  rewrite (bind_returns _ _ _ _ _ Hr). eexists _, _. reflexivity.
Qed.

Lemma expand_all_total (ls : list LessonItem) : forall w,
  exists ls' w', expand_all ls w = (Return ls', w').
Proof.
  induction ls as [|l rest IH]; intros w; [now exists [], w|].
  cbn [expand_all].
  assert (He : exists l' w1, expand_lesson_content l w = (Return l', w1)).
  { unfold expand_lesson_content, try_except, bind, invoke.
    destruct (chat_model (llm_calls w)); eexists _, _; reflexivity. }
  destruct He as (l' & w1 & He).
  rewrite (bind_returns _ _ _ _ _ He).
  destruct (IH w1) as (ls' & w' & Hr).
  rewrite (bind_returns _ _ _ _ _ Hr). eexists _, _. reflexivity.
Qed.

Lemma check_and_improve_total (module : ModuleLessonContent) (w : World) :
  exists checked w',
    _check_and_improve_module_quality module w = (Return checked, w').
Proof.
  unfold _check_and_improve_module_quality, try_except.
  match goal with
  | |- context [match ?m w with _ => _ end] => destruct (m w) as [[c|e] w1]
  end; eexists _, _; reflexivity.
Qed.

Lemma lessons_for_modules_readable (ms : list Json) :
  Forall readable ms ->
  (forall n, outline_model n <> None) ->
  forall w, exists results w',
    lessons_for_modules ms w = (Return results, w')
    /\ length results = length ms.
Proof.
  intros Hall Hout. induction Hall as [|m ms Hm _ IH]; intros w.
  - now exists [], w.
  - cbn [lessons_for_modules].
    destruct (readable_title m Hm) as (title & Ht).
    unfold bind at 1, lift at 1. rewrite Ht.
    unfold generate_lesson_outlines.
    unfold bind at 2, lift at 1. rewrite Hm.
    destruct (outline_model (llm_calls w)) as [result|] eqn:O;
      [|now apply Hout in O].
    assert (Hi : invoke outline_model LessonOutlines w
                 = (Return result,
                    log (LlmCall LessonOutlines) (count_llm_call w)))
      by (unfold invoke; now rewrite O).
    destruct (assign_lesson_ids_total (lessons result)
                (log (LlmCall LessonOutlines) (count_llm_call w)))
      as (ls & w1 & Ha).
    assert (Ho : (result0 <- invoke outline_model LessonOutlines ;;
                  ls0 <- assign_lesson_ids (lessons result0) ;;
                  ret (mkModuleLessons (lessons_module_id result0) ls0)) w
                 = (Return (mkModuleLessons (lessons_module_id result) ls), w1)).
    { rewrite (bind_returns _ _ _ _ _ Hi), (bind_returns _ _ _ _ _ Ha).
      reflexivity. }
    rewrite (bind_returns _ _ _ _ _ Ho). cbn [lessons lessons_module_id].
    destruct (expand_all_total ls w1) as (ls' & w2 & He).
    rewrite (bind_returns _ _ _ _ _ He).
    destruct (check_and_improve_total
                (mkModuleLessons (lessons_module_id result) ls') w2)
      as (checked & w3 & Hc).
    rewrite (bind_returns _ _ _ _ _ Hc).
    destruct (IH w3) as (results & w4 & Hr & Hlen).
    rewrite (bind_returns _ _ _ _ _ Hr).
    eexists _, _. split; [reflexivity|]. cbn. lia.
Qed.

(** ** A run in which every service answers *)

Lemma generate_description_returns (data : AddNewCourse) (unique_id : string)
      (w : World) :
  description data <> "" \/ chat_model (llm_calls w) <> None ->
  exists d w', generate_description data unique_id w = (Return d, w').
Proof.
  intros H. unfold generate_description, generate_description_body.
  destruct (String.eqb (description data) "") eqn:E; cbn [negb].
  - apply String.eqb_eq in E. destruct H as [H|H]; [contradiction|].
    destruct (chat_model (llm_calls w)) as [reply|] eqn:C; [|contradiction].
    assert (Hi : invoke chat_model GenerateDescription w
                 = (Return reply,
                    log (LlmCall GenerateDescription) (count_llm_call w)))
      by (unfold invoke; now rewrite C).
    assert (Hfinal : exists final w1,
               (reply0 <- invoke chat_model GenerateDescription ;;
                let initial_description := clean_reply reply0 in
                let quality_report :=
                  DescriptionQuality.check_description_quality
                    initial_description in
                if negb (DescriptionQuality.passes_threshold quality_report)
                then improve_description initial_description
                       (DescriptionQuality.feedback quality_report)
                else ret initial_description) w = (Return final, w1)).
    { rewrite (bind_returns _ _ _ _ _ Hi). cbv zeta.
      destruct (negb _); [|eexists _, _; reflexivity].
      unfold improve_description.
      destruct (DescriptionQuality.all_good _); [eexists _, _; reflexivity|].
      unfold try_except, bind, invoke.
      destruct (chat_model (llm_calls (log _ _))); eexists _, _; reflexivity. }
    destruct Hfinal as (final & w1 & Hfinal).
    eexists _, _. apply try_returns.
    rewrite (bind_returns _ _ _ _ _ Hfinal). reflexivity.
  - eexists _, _. reflexivity.
Qed.

Lemma insert_one_document_served (c : Collection) (d : Document) (w : World) :
  mongo_available (db_requests w) = true ->
  insert_one_document c d w
  = (Return Updated, log (DbInsert c) (store c d (count_db_request w))).
Proof.
  intros H. unfold insert_one_document, try_except, bind, insert_one.
  now rewrite H.
Qed.

(** With the name free, the services answering and replies the stages
    can work with, the run writes the three documents and returns. *)
Lemma generate_course_completes (data : AddNewCourse) (w : World) :
  existsb (names_course (course_name data)) (courses_collection w) = false ->
  (forall n, mongo_available n = true) ->
  description data <> "" \/ chat_model (llm_calls w) <> None ->
  (forall n, curriculum_model n <> None) ->
  (forall n, outline_model n <> None) ->
  (forall s v, json_loads s = Some v -> workable v) ->
  exists d m l w',
    generate_course data w = (Return Updated, w')
    /\ collections w'
       = (domain_collection w, courses_collection w ++ [CourseDocument d],
          modules_collection w ++ [ModulesDocument m],
          lessons_collection w ++ [LessonsDocument l])
    /\ doc_course_name d = course_name data
    /\ modules_course_id m = doc_course_id d
    /\ lessons_course_id l = doc_course_id d
    /\ Forall readable (curriculum_modules (curriculum m))
    /\ length (lesson_modules l) = length (curriculum_modules (curriculum m)).
Proof.
  intros Hfree Hdb Hdesc Hcur Hout Hw.
  unfold generate_course, generate_course_body.
  (* the look-up *)
  assert (Hfind : find_one COURSES (course_name data) w
                  = (Return None, log (DbFind COURSES) (count_db_request w))).
  { unfold find_one. rewrite Hdb. cbn [collection].
    destruct (find _ _) as [f|] eqn:F; [|reflexivity].
    apply find_some in F as [Hin Hn].
    assert (existsb (names_course (course_name data)) (courses_collection w)
            = true) by (apply existsb_exists; eauto).
    congruence. }
  set (w1 := log (DbFind COURSES) (count_db_request w)) in *.
  set (unique_id := "COURSE" +++ "_" +++ uuid4_hex8 (ids_drawn w1)).
  set (w2 := count_id w1).
  (* the description *)
  destruct (generate_description_returns data unique_id w2 Hdesc)
    as (d & w3 & Hd).
  pose proof (generate_description_emits data unique_id w2) as (Hc3 & _).
  pose proof (generate_description_result data unique_id w2 d) as Hres3.
  rewrite Hd in Hc3, Hres3. cbn [fst snd] in Hc3, Hres3.
  destruct (Hres3 eq_refl) as [Hid Hname].
  pose proof (insert_one_document_served COURSES (CourseDocument d) w3
                (Hdb _)) as Hi4.
  set (w4 := log (DbInsert COURSES)
                 (store COURSES (CourseDocument d) (count_db_request w3))) in *.
  (* the modules *)
  destruct (curriculum_model (llm_calls w4)) as [out|] eqn:O;
    [|now apply Hcur in O].
  destruct (generate_module_usable d w4 out Hw O)
    as (m & w5 & Hm & Hmid & Hread & _).
  pose proof (generate_module_emits d w4) as (Hc5 & _).
  rewrite Hm in Hc5. cbn [snd] in Hc5.
  pose proof (insert_one_document_served MODULES (ModulesDocument m) w5
                (Hdb _)) as Hi6.
  set (w6 := log (DbInsert MODULES)
                 (store MODULES (ModulesDocument m) (count_db_request w5))) in *.
  (* the lessons *)
  destruct (lessons_for_modules_readable _ Hread Hout w6)
    as (results & w7 & Hl & Hlen).
  pose proof (lessons_for_modules_emits (curriculum_modules (curriculum m)) w6)
    as (Hc7 & _).
  rewrite Hl in Hc7. cbn [snd] in Hc7.
  pose proof (insert_one_document_served LESSONS
                (LessonsDocument (mkLessonsDoc unique_id results)) w7 (Hdb _))
    as Hi8.
  exists d, m, (mkLessonsDoc unique_id results). eexists. split.
  - apply try_returns. rewrite (bind_returns _ _ _ _ _ Hfind).
    rewrite (bind_returns _ _ _ _ _
               (eq_refl : unique_id_generator "COURSE" w1 = (Return unique_id, w2))).
    rewrite (bind_returns _ _ _ _ _ Hd), (bind_returns _ _ _ _ _ Hi4).
    rewrite (bind_returns _ _ _ _ _ Hm), (bind_returns _ _ _ _ _ Hi6).
    unfold generate_lessons_for_each_module.
    rewrite (bind_returns _ _ _ _ _
               (bind_returns _ _ _ _ _ Hl
                : (final_results <- lessons_for_modules _ ;;
                   ret (mkLessonsDoc unique_id final_results)) w6 = _)).
    exact Hi8.
  - cbn [lessons_course_id lesson_modules]. repeat split; auto; try congruence.
    unfold collections in *. subst w6 w4 w2 w1. cbn in *.
    injection Hc3 as ? ? ? ?. injection Hc5 as ? ? ? ?.
    injection Hc7 as ? ? ? ?. congruence.
Qed.

End Stage.

End StageFacts.

Module PipelineClaims.
Import PyStr Effects PyJson Pipeline EffectsFacts PipelineFacts Steps StageFacts
       Samples.
Local Open Scope effect_scope.

(** ** The order of the stages *)

(** A move keeps the stage or enters the next one, and a stage is entered
    by the write that ends the one before. *)
Lemma step_rank s e s' :
  step s e = Some s' ->
  (s' = s /\ exists site, e = LlmCall site)
  \/ (rank s' = S (rank s)
      /\ e = match s with
             | Started => DbFind COURSES
             | Describing => DbInsert COURSES
             | GeneratingModules => DbInsert MODULES
             | _ => DbInsert LESSONS
             end).
Proof.
  destruct s, e as [site|c|c]; try destruct c; try destruct site;
    cbn; intros H; inversion H; subst; eauto.
Qed.

Lemma run_writes t : forall s0 s1,
  run s0 t = Some s1 ->
  rank s0 <= rank s1
  /\ (rank s0 < 2 <= rank s1 -> In (DbInsert COURSES) t)
  /\ (rank s0 < 3 <= rank s1 -> In (DbInsert MODULES) t).
Proof.
  induction t as [|e t IH]; intros s0 s1 H; simpl in H.
  - injection H as <-. repeat split; lia.
  - destruct (step s0 e) as [s'|] eqn:E; [|discriminate].
    destruct (IH _ _ H) as (Hle & Hc & Hm).
    apply step_rank in E as [[-> _]|[Hr He]].
    + repeat split; [lia| |]; intros; right; auto.
    + repeat split; [lia| |]; intros Hlt.
      * destruct (Nat.eq_dec (rank s0) 1) as [H1|H1];
          [left; destruct s0; try discriminate H1; now rewrite He
          |right; apply Hc; lia].
      * destruct (Nat.eq_dec (rank s0) 2) as [H2|H2];
          [left; destruct s0; try discriminate H2; now rewrite He
          |right; apply Hm; lia].
Qed.

Lemma run_app t1 : forall s t2,
  run s (t1 ++ t2) =
  match run s t1 with Some s' => run s' t2 | None => None end.
Proof.
  induction t1 as [|e t1 IH]; intros; simpl; [reflexivity|].
  destruct (step s e); auto.
Qed.

Lemma run_loop s t :
  Forall (fun e => step s e = Some s) t -> run s t = Some s.
Proof. induction 1 as [|e t He _ IH]; simpl; [reflexivity|now rewrite He]. Qed.

Lemma describing_loops t :
  Forall (fun e => describes e = true) t -> run Describing t = Some Describing.
Proof.
  intros H. apply run_loop. eapply Forall_impl; [|exact H].
  intros [site| |] He; try discriminate He. unfold step. now rewrite He.
Qed.

Lemma modules_loop t :
  Forall (fun e => builds_modules e = true) t ->
  run GeneratingModules t = Some GeneratingModules.
Proof.
  intros H. apply run_loop. eapply Forall_impl; [|exact H].
  intros [site| |] He; try discriminate He. unfold step. now rewrite He.
Qed.

Lemma lessons_loop t :
  Forall (fun e => builds_lessons e = true) t ->
  run GeneratingLessons t = Some GeneratingLessons.
Proof.
  intros H. apply run_loop. eapply Forall_impl; [|exact H].
  intros [site| |] He; try discriminate He. unfold step. now rewrite He.
Qed.

(** Every shape of a run is a path through the stages. *)
Lemma shape_accepted data w r w' t :
  Shape data w r w' t ->
  exists s, run Started t = Some s /\ (r = Return Updated -> s = Finished).
Proof.
  intros [e w1 _|w1 _|e w1 tD HD _|e w1 tD tM d HD HM _ _
         |e w1 tD tM tL d m HD HM HL _ _ _|w1 tD tM tL d m l HD HM HL _ _ _ _];
    cbn [run step].
  - exists Started. split; [reflexivity|discriminate].
  - exists Describing. split; [reflexivity|discriminate].
  - exists Describing. split; [now apply describing_loops|discriminate].
  - exists GeneratingModules. split; [|discriminate].
    rewrite run_app, describing_loops by assumption. cbn [run step].
    now apply modules_loop.
  - exists GeneratingLessons. split; [|discriminate].
    rewrite run_app, describing_loops by assumption. cbn [run step].
    rewrite run_app, modules_loop by assumption. cbn [run step].
    now apply lessons_loop.
  - exists Finished. split; [|reflexivity].
    rewrite run_app, describing_loops by assumption. cbn [run step].
    rewrite run_app, modules_loop by assumption. cbn [run step].
    rewrite run_app, lessons_loop by assumption. reflexivity.
Qed.

(** On a path through the stages, what belongs to the modules comes after
    the write of the description, and what belongs to the lessons after
    the write of the modules. *)
Lemma accepted_order t s :
  run Started t = Some s ->
  forall t1 e t2, t = t1 ++ e :: t2 ->
    (builds_modules e = true \/ e = DbInsert MODULES -> In (DbInsert COURSES) t1)
    /\ (builds_lessons e = true \/ e = DbInsert LESSONS -> In (DbInsert MODULES) t1).
Proof.
  intros Hrun t1 e t2 ->. rewrite run_app in Hrun.
  destruct (run Started t1) as [s1|] eqn:H1; [|discriminate].
  simpl in Hrun. destruct (step s1 e) as [s2|] eqn:E; [|discriminate].
  destruct (run_writes _ _ _ H1) as (_ & Hc & Hm). cbn [rank] in Hc, Hm.
  split; intros He.
  - apply Hc. split; [lia|].
    destruct He as [He| ->].
    + destruct e as [site| |]; try discriminate He.
      destruct s1; cbn in E; try discriminate E; cbn; try lia;
        destruct site; discriminate.
    + destruct s1; cbn in E; try discriminate E; cbn; lia.
  - apply Hm. split; [lia|].
    destruct He as [He| ->].
    + destruct e as [site| |]; try discriminate He.
      destruct s1; cbn in E; try discriminate E; cbn; try lia;
        destruct site; discriminate.
    + destruct s1; cbn in E; try discriminate E; cbn; lia.
Qed.

Section Claims.
Context {ext : External}.


(** ** A course that exists *)

Lemma find_named name docs :
  existsb (names_course name) docs = true ->
  exists d, find (names_course name) docs = Some d.
Proof.
  induction docs as [|d docs IH]; simpl; [discriminate|].
  destruct (names_course name d); eauto.
Qed.

(** C8. When a document of the courses collection already carries the
    requested [course_name], [generate_course] makes no request to the
    LLM provider and writes to no collection: all collections are as
    before the call. If the look-up is served, the call returns the
    message [Course '<name>' already exists.] and the look-up is the
    only thing that happened. *)
Theorem existing_course_is_left_alone (data : AddNewCourse) (w : World) :
  existsb (names_course (course_name data)) (courses_collection w) = true ->
  collections (snd (generate_course data w)) = collections w
  /\ llm_calls (snd (generate_course data w)) = llm_calls w
  /\ (mongo_available (db_requests w) = true ->
      fst (generate_course data w)
      = Return (Message ("Course '" +++ course_name data +++ "' already exists."))
      /\ trace (snd (generate_course data w)) = trace w ++ [DbFind COURSES]).
Proof.
  intros Hexists. apply find_named in Hexists as [d Hd].
  unfold generate_course, generate_course_body, try_except, bind, find_one.
  destruct (mongo_available (db_requests w)); cbn [collection].
  - rewrite Hd. cbn. repeat split.
  - cbn. repeat split; discriminate.
Qed.

(** ** Improvement after a failed check *)

(** The improvement of a module stays away from the provider when the
    report passes or suggests nothing, and asks it once otherwise. *)
Lemma improve_module_calls module report w :
  if ModuleQuality.passes_threshold report
     || match ModuleQuality.improvement_suggestions report with
        | [] => true
        | _ => false
        end
  then improve_module module report w = (Return (JObject module), w)
  else llm_calls (snd (improve_module module report w)) = S (llm_calls w)
       /\ trace (snd (improve_module module report w))
          = trace w ++ [LlmCall ImproveModule].
Proof.
  unfold improve_module.
  destruct (ModuleQuality.passes_threshold report); [reflexivity|].
  destruct (ModuleQuality.improvement_suggestions report); [reflexivity|].
  cbn [orb]. unfold try_except, bind, invoke, decode.
  destruct (chat_model (llm_calls w)) as [reply|]; [|split; reflexivity].
  destruct (json_loads reply); split; reflexivity.
Qed.

Lemma improve_lesson_calls lesson evaluation w :
  if LessonQuality.passes_threshold evaluation
     || match LessonQuality.improvement_suggestions evaluation with
        | [] => true
        | _ => false
        end
  then improve_lesson lesson evaluation w = (Return lesson, w)
  else llm_calls (snd (improve_lesson lesson evaluation w)) = S (llm_calls w)
       /\ trace (snd (improve_lesson lesson evaluation w))
          = trace w ++ [LlmCall ImproveLesson].
Proof.
  unfold improve_lesson.
  destruct (LessonQuality.passes_threshold evaluation); [reflexivity|].
  destruct (LessonQuality.improvement_suggestions evaluation); [reflexivity|].
  cbn [orb]. unfold try_except, bind, invoke.
  destruct (chat_model (llm_calls w)) as [reply|]; split; reflexivity.
Qed.

(** ** The loop over the lessons of a module *)

Lemma find_lesson_nth wanted objects i :
  find_lesson wanted objects = Some i ->
  exists l, nth_error objects i = Some l /\ lesson_id l = wanted.
Proof.
  revert i. induction objects as [|o objects IH]; intros i; simpl; [discriminate|].
  destruct (String.eqb (lesson_id o) wanted) eqn:E.
  - intros H; injection H as <-. exists o. split; [reflexivity|].
    now apply String.eqb_eq.
  - destruct (find_lesson wanted objects) as [j|]; [|discriminate].
    intros H; injection H as <-. exact (IH j eq_refl).
Qed.

Lemma find_lesson_ids wanted objects objects' :
  map lesson_id objects' = map lesson_id objects ->
  find_lesson wanted objects' = find_lesson wanted objects.
Proof.
  revert objects'. induction objects as [|o objects IH]; intros [|o' objects'];
    simpl; try discriminate; [reflexivity|].
  intros H; injection H as -> Hrest. now rewrite (IH _ Hrest).
Qed.

Lemma find_lesson_in wanted objects :
  In wanted (map lesson_id objects) -> find_lesson wanted objects <> None.
Proof.
  induction objects as [|o objects IH]; simpl; [tauto|].
  destruct (String.eqb (lesson_id o) wanted) eqn:E; [discriminate|].
  intros [H|H]; [apply String.eqb_neq in E; contradiction|].
  destruct (find_lesson wanted objects); [discriminate|now apply IH].
Qed.

Lemma replace_at_ids i x objects l :
  nth_error objects i = Some l -> lesson_id x = lesson_id l ->
  map lesson_id (replace_at i x objects) = map lesson_id objects.
Proof.
  revert i. induction objects as [|o objects IH]; intros [|i]; simpl;
    try discriminate.
  - intros H; injection H as ->. now intros ->.
  - intros H Hx. now rewrite (IH i H Hx).
Qed.

Lemma apply_improvement_id lesson f :
  lesson_id (apply_improvement lesson f) = lesson_id lesson.
Proof.
  unfold apply_improvement.
  destruct (improved_title f), (improved_content f); cbn;
    destruct (type lesson); reflexivity.
Qed.

(** [improve_lesson] keeps the identifier and never raises. *)
Lemma improve_lesson_returns lesson evaluation w :
  exists l, fst (improve_lesson lesson evaluation w) = Return l
            /\ lesson_id l = lesson_id lesson.
Proof.
  unfold improve_lesson.
  destruct (LessonQuality.passes_threshold evaluation); [now exists lesson|].
  destruct (LessonQuality.improvement_suggestions evaluation); [now exists lesson|].
  unfold try_except, bind, invoke.
  destruct (chat_model (llm_calls w)); cbn; eexists; split; try reflexivity.
  apply apply_improvement_id.
Qed.

Lemma improve_each_calls evaluations :
  forall objects improved w,
    Forall sound evaluations ->
    Forall (fun ev => In (LessonQuality.evaluated_lesson_id ev)
                         (map lesson_id objects)) evaluations ->
    (exists r, fst (improve_each evaluations objects improved w) = Return r)
    /\ llm_calls (snd (improve_each evaluations objects improved w))
       = llm_calls w + failing evaluations.
Proof.
  induction evaluations as [|ev rest IH]; intros objects improved w Hs Hin.
  - cbn. split; [eauto|lia].
  - inversion Hs as [|? ? Hev Hs']; inversion Hin as [|? ? Hid Hin']; subst.
    cbn [improve_each].
    destruct (find_lesson _ objects) as [i|] eqn:F;
      [|now apply find_lesson_in in Hid].
    destruct (find_lesson_nth _ _ _ F) as (l & Hl & Hlid). rewrite Hl.
    unfold failing. cbn [filter].
    destruct (LessonQuality.passes_threshold ev) eqn:P; cbn [negb].
    + exact (IH objects (improved ++ [Some i]) w Hs' Hin').
    + pose proof (improve_lesson_calls l ev w) as C.
      rewrite P in C. cbn [orb] in C.
      destruct (LessonQuality.improvement_suggestions ev) eqn:Sg;
        [now specialize (Hev P)|].
      destruct C as [C _].
      destruct (improve_lesson_returns l ev w) as (l' & Hret & Hid').
      unfold bind.
      destruct (improve_lesson l ev w) as [[x|e] w1]; cbn [fst snd] in *;
        [|discriminate].
      injection Hret as ->.
      assert (Hin1 : Forall (fun ev0 => In (LessonQuality.evaluated_lesson_id ev0)
                                          (map lesson_id (replace_at i l' objects)))
                            rest).
      { rewrite (replace_at_ids i l' objects l Hl Hid'). exact Hin'. }
      destruct (IH (replace_at i l' objects) (improved ++ [Some i]) w1 Hs' Hin1)
        as [Hr Hc].
      split; [exact Hr|]. rewrite Hc, C. unfold failing. cbn [length]. lia.
Qed.

Lemma check_and_improve_calls module w :
  llm_calls (snd (_check_and_improve_module_quality module w))
  = llm_calls w + failing (lesson_evaluations (lessons module)).
Proof.
  unfold _check_and_improve_module_quality, try_except, bind.
  destruct (improve_each_calls (lesson_evaluations (lessons module))
              (lessons module) [] w) as [[r Hr] Hc].
  - unfold lesson_evaluations. apply Forall_map, Forall_forall.
    intros l _. exact (LessonQualityFacts.failing_lesson_has_suggestions l _).
  - unfold lesson_evaluations. apply Forall_map, Forall_forall.
    intros l Hl. cbn. now apply in_map.
  - destruct (improve_each _ _ _ w) as [[x|e] w1]; cbn [fst snd] in *;
      [exact Hc|discriminate].
Qed.

(** The module stage makes the requests expected of it. *)
Lemma module_generater_requests (name : string) (w : World) :
  match curriculum_model (llm_calls w) with
  | Some out =>
      let requests := module_requests (output_modules out) (S (llm_calls w)) in
      trace (snd (module_generater name w))
      = trace w ++ LlmCall CurriculumStructure :: requests
      /\ llm_calls (snd (module_generater name w))
         = S (llm_calls w) + length requests
  | None =>
      trace (snd (module_generater name w))
      = trace w ++ [LlmCall CurriculumStructure]
      /\ llm_calls (snd (module_generater name w)) = S (llm_calls w)
  end.
Proof.
  unfold module_generater.
  assert (Hstate : forall m : M Curriculum,
             snd (try_except m (fun e => raise (CustomException e)) w)
             = snd (m w)).
  { intros m. unfold try_except, raise. now destruct (m w) as [[c|e] w']. }
  rewrite Hstate. unfold module_generater_body.
  assert (Hi : invoke curriculum_model CurriculumStructure w
               = (match curriculum_model (llm_calls w) with
                  | Some out => Return out
                  | None => Raise ProviderError
                  end, log (LlmCall CurriculumStructure) (count_llm_call w)))
    by (unfold invoke; now destruct (curriculum_model (llm_calls w))).
  destruct (curriculum_model (llm_calls w)) as [out|].
  2:{ rewrite (bind_raises _ _ _ _ _ Hi). split; reflexivity. }
  rewrite (bind_returns _ _ _ _ _ Hi). cbv zeta.
  set (w1 := log (LlmCall CurriculumStructure) (count_llm_call w)).
  destruct (enhance_all_requests (output_modules out) w1) as (Ht & Hc & _).
  change (llm_calls w1) with (S (llm_calls w)) in *.
  unfold bind.
  destruct (enhance_all (output_modules out) w1) as [[ms|e] w2];
    cbn [fst snd] in *.
  - assert (Hs : snd (log_sample ms w2) = w2).
    { unfold log_sample, bind, lift. destruct ms as [|sample rest];
        [reflexivity|].
      destruct (getitem sample "title"); [|reflexivity].
      destruct (get sample "learning_objectives" _); [|reflexivity].
      now destruct (slice _). }
    destruct (log_sample ms w2) as [[u|e] w3]; cbn [fst snd] in *; subst w3;
      unfold ret; cbn [fst snd]; rewrite Ht, Hc; split;
      try reflexivity; (cbn; rewrite <- app_assoc; reflexivity).
  - rewrite Ht, Hc. split; [cbn; rewrite <- app_assoc; reflexivity|reflexivity].
Qed.

(** C4 (amended). Modules and lessons are checked and repaired by one
    regeneration. In the module stage, after the request for the
    curriculum, every module is enhanced with one request and
    checked; when its report fails the threshold with a criterion
    below 0.7, exactly one more request is sent to improve it, and
    what the reply decodes to takes its place; when the report passes,
    or fails with every criterion at 0.7 or more, which leaves it
    without suggestion, the module is kept as it is and no request is
    sent; a check that raises, on a reply whose fields are not of the
    types it needs, ends the stage. [improve_module] and
    [improve_lesson] return what they are given, without a request,
    for a report or an evaluation that passes; for a lesson whose
    evaluation fails exactly one request is sent, and the check of
    the lessons of a module sends as many requests as there are
    lessons below the threshold. *)
Theorem improve_after_failed_threshold
        (name : string) (item : ModuleItem)
        (module : Dicts.Dict Json) (report : ModuleQuality.QualityReport)
        (lesson : LessonItem)
        (module_context : option LessonQuality.ModuleContext)
        (expanded : ModuleLessonContent) (w : World) :
  let evaluation := LessonQuality.evaluate_lesson lesson module_context in
  let enhanced := enhanced_at item (llm_calls w) in
  let w1 := log (LlmCall EnhanceModule) (count_llm_call w) in
  match curriculum_model (llm_calls w) with
  | Some out =>
      let requests := module_requests (output_modules out) (S (llm_calls w)) in
      trace (snd (module_generater name w))
      = trace w ++ LlmCall CurriculumStructure :: requests
      /\ llm_calls (snd (module_generater name w))
         = S (llm_calls w) + length requests
  | None =>
      trace (snd (module_generater name w))
      = trace w ++ [LlmCall CurriculumStructure]
      /\ llm_calls (snd (module_generater name w)) = S (llm_calls w)
  end
  /\ enhance_and_check item w
     = match check_module_quality enhanced with
       | Raise e => (Raise e, w1)
       | Return checked =>
           if needs_improvement checked
           then (Return (improved_at enhanced (S (llm_calls w))),
                 log (LlmCall ImproveModule) (count_llm_call w1))
           else (Return (JObject enhanced), w1)
       end
  /\ (check_module_quality module = Return report ->
      (ModuleQuality.passes_threshold report = true ->
       improve_module module report w = (Return (JObject module), w))
      /\ (ModuleQuality.passes_threshold report = false ->
          if forallb (fun q => Score.geb q (7 # 10))
                     (ModuleQuality.values (ModuleQuality.criteria report))
          then improve_module module report w = (Return (JObject module), w)
          else llm_calls (snd (improve_module module report w))
               = S (llm_calls w)
               /\ trace (snd (improve_module module report w))
                  = trace w ++ [LlmCall ImproveModule]))
  /\ (LessonQuality.passes_threshold evaluation = true ->
      improve_lesson lesson evaluation w = (Return lesson, w))
  /\ (LessonQuality.passes_threshold evaluation = false ->
      llm_calls (snd (improve_lesson lesson evaluation w)) = S (llm_calls w)
      /\ trace (snd (improve_lesson lesson evaluation w))
         = trace w ++ [LlmCall ImproveLesson])
  /\ llm_calls (snd (_check_and_improve_module_quality expanded w))
     = llm_calls w + failing (lesson_evaluations (lessons expanded)).
Proof.
  cbv zeta.
  split; [exact (module_generater_requests name w)|].
  split; [exact (enhance_and_check_outcome item w)|].
  split; [|split; [|split]]; [| | |apply check_and_improve_calls].
  - intros Hcheck.
    destruct (check_module_quality_report _ _ Hcheck) as (d & ->).
    pose proof (improve_module_calls module
                  (ModuleQuality.check_module_quality d) w) as C.
    split; intros H; rewrite H in C; [exact C|]. cbn [orb] in C.
    pose proof (module_suggestions_nil
                  (ModuleQuality.criteria
                     (ModuleQuality.check_module_quality d))) as N.
    change (ModuleQuality._generate_improvement_suggestions
              (ModuleQuality.criteria (ModuleQuality.check_module_quality d)))
      with (ModuleQuality.improvement_suggestions
              (ModuleQuality.check_module_quality d)) in N.
    destruct (forallb _ _).
    + rewrite (proj2 N eq_refl) in C. exact C.
    + destruct (ModuleQuality.improvement_suggestions _); [|exact C].
      now specialize (proj1 N eq_refl).
  - intros H. pose proof (improve_lesson_calls lesson
                            (LessonQuality.evaluate_lesson lesson module_context) w) as C.
    now rewrite H in C.
  - intros H.
    pose proof (improve_lesson_calls lesson
                  (LessonQuality.evaluate_lesson lesson module_context) w) as C.
    pose proof (LessonQualityFacts.failing_lesson_has_suggestions
                  lesson module_context H) as Hs.
    rewrite H in C.
    destruct (LessonQuality.improvement_suggestions _); [contradiction|].
    exact C.
Qed.

End Claims.

(** A run in which every service answers goes through all the stages. *)
Example answered_run :
  fst (@generate_course answering python_request empty_world) = Return Updated
  /\ trace (snd (@generate_course answering python_request empty_world))
     = [DbFind COURSES; LlmCall GenerateDescription; DbInsert COURSES;
        LlmCall CurriculumStructure; LlmCall EnhanceModule;
        LlmCall ImproveModule; DbInsert MODULES;
        LlmCall LessonOutlines; LlmCall ExpandLesson; LlmCall ImproveLesson;
        DbInsert LESSONS]
  /\ run Started (trace (snd (@generate_course answering python_request
                                empty_world))) = Some Finished.
Proof. vm_compute. repeat split. Qed.

(** A run that loses MongoDB after the description is written stops
    there: the modules are generated but not written, and no lesson is
    asked for. *)
Example interrupted_run :
  fst (@generate_course database_lost python_request empty_world)
  = Raise (CustomException (MongoInsertFailed DriverError))
  /\ trace (snd (@generate_course database_lost python_request empty_world))
     = [DbFind COURSES; LlmCall GenerateDescription; DbInsert COURSES;
        LlmCall CurriculumStructure; LlmCall EnhanceModule;
        LlmCall ImproveModule]
  /\ length (modules_collection
               (snd (@generate_course database_lost python_request empty_world)))
     = 0.
Proof. vm_compute. repeat split. Qed.

(** The fields of [fair_fields] are those of [fair_module]. *)
Example fair_fields_checked :
  check_module_quality fair_fields
  = Return (ModuleQuality.check_module_quality fair_module).
Proof. vm_compute. reflexivity. Qed.

(** [fair_fields] is a module the stages can work with. *)
Example fair_fields_workable : workable (JObject fair_fields).
Proof.
  exists fair_fields. split; [reflexivity|].
  split; [repeat constructor; cbn; intuition discriminate|].
  repeat split; try discriminate.
  - eexists. exact fair_fields_checked.
  - eexists. reflexivity.
Qed.


Lemma existing_course_is_left_alone_witness :
  existsb (names_course (course_name python_request))
          (courses_collection world_with_python) = true
  /\ fst (@generate_course answering python_request world_with_python)
     = Return (Message "Course 'Python' already exists.")
  /\ collections (snd (@generate_course answering python_request world_with_python))
     = collections world_with_python.
Proof.
  split; [reflexivity|].
  destruct (@existing_course_is_left_alone answering python_request
              world_with_python eq_refl) as (Hc & _ & Hr).
  split; [exact (proj1 (Hr eq_refl))|exact Hc].
Defined.

(** The module [fair_fields] fails the threshold with 79 points, and its
    improvement sends no request to the provider. *)
Lemma failing_module_without_improvement_call :
  exists report,
    check_module_quality fair_fields = Return report
    /\ ModuleQuality.quality_score report = (7900 # 100)%Q
    /\ ModuleQuality.passes_threshold report = false
    /\ llm_calls (snd (@improve_module answering fair_fields report empty_world))
       <> S (llm_calls empty_world).
Proof.
  eexists. split; [exact fair_fields_checked|].
  split; [vm_compute; reflexivity|].
  split; [reflexivity|]. vm_compute. discriminate.
Qed.

Lemma improve_after_failed_threshold_witness :
  LessonQuality.passes_threshold (LessonQuality.evaluate_lesson bare_exercise None)
  = false
  /\ llm_calls (snd (@improve_lesson answering bare_exercise
                       (LessonQuality.evaluate_lesson bare_exercise None)
                       empty_world)) = 1
  /\ ModuleQuality.passes_threshold (ModuleQuality.check_module_quality fair_module)
     = false
  /\ @improve_module answering fair_fields
       (ModuleQuality.check_module_quality fair_module) empty_world
     = (Return (JObject fair_fields), empty_world)
  /\ trace (snd (@module_generater answering "Python" empty_world))
     = [LlmCall CurriculumStructure; LlmCall EnhanceModule; LlmCall ImproveModule]
  /\ trace (snd (@module_generater replying "Python" empty_world))
     = [LlmCall CurriculumStructure; LlmCall EnhanceModule].
Proof.
  destruct (@improve_after_failed_threshold answering "Python"
              (mkItem "Basics" "The first steps") fair_fields
              (ModuleQuality.check_module_quality fair_module) bare_exercise
              None (mkModuleLessons "MODULE_X" [bare_exercise]) empty_world)
    as (Hstage & _ & Hm & _ & Hl & _).
  destruct (@improve_after_failed_threshold replying "Python"
              (mkItem "Basics" "The first steps") fair_fields
              (ModuleQuality.check_module_quality fair_module) bare_exercise
              None (mkModuleLessons "MODULE_X" [bare_exercise]) empty_world)
    as (Hstage' & _).
  split; [reflexivity|]. split; [exact (proj1 (Hl eq_refl))|].
  split; [reflexivity|].
  split; [exact (proj2 (Hm fair_fields_checked) eq_refl)|].
  split; [exact (proj1 Hstage)|exact (proj1 Hstage')].
Defined.

End PipelineClaims.

Module AuthClaims.
Import Effects Users Samples.
Local Open Scope effect_scope.

Section Claims.
Context {services : Services}.

Lemma first_match e (l : list UserRow) :
  existsb (fun u => String.eqb (email u) e) l = false <->
  filter (fun u => String.eqb (email u) e) l = [].
Proof.
  induction l as [|u l IH]; simpl; [tauto|].
  destruct (String.eqb (email u) e); simpl; [split; discriminate|exact IH].
Qed.

(** ** Registration *)


(** ** Login *)

(** C3 (what the code does). When the e-mail address is not in the user
    table, or the password does not verify against the hash of the row
    found, [authenticate_user] raises the HTTP 401 error
    [Incorrect email or password], but [login] does not let it through:
    its handler catches every exception, so the login fails with a
    [CustomException] built from that error. *)
Theorem login_wraps_unauthorized (e plain : string) (t : Table) :
  supabase_available (requests t) = true ->
  (forall u, hd_error (filter (fun u => String.eqb (email u) e) (rows t)) = Some u ->
             pwd_verify plain (password u) = Some false) ->
  fst (AuthComponent.authenticate_user e plain t)
  = Raise (HTTPException 401 "Incorrect email or password")
  /\ fst (AuthComponent.login e plain t)
     = Raise (CustomException (HTTPException 401 "Incorrect email or password")).
Proof.
  intros Hup Hcheck.
  unfold AuthComponent.login, AuthComponent.login_body,
    AuthComponent.authenticate_user, AuthComponent.authenticate_user_body,
    AuthComponent.get_user_by_email, AuthComponent.verify_password,
    try_except, bind, select_by_email, call.
  rewrite Hup. cbn [fst snd ret].
  destruct (hd_error _) as [u|] eqn:F; [|split; reflexivity].
  rewrite (Hcheck u eq_refl). split; reflexivity.
Qed.

(** With both checks passed and a token encoded, [login] returns the
    token, the type [bearer] and the data of the user. *)
Lemma login_bearer (e plain : string) (t : Table) (u : UserRow) (token : string) :
  supabase_available (requests t) = true ->
  hd_error (filter (fun u => String.eqb (email u) e) (rows t)) = Some u ->
  pwd_verify plain (password u) = Some true ->
  jwt_encode (id u) = Some token ->
  fst (AuthComponent.login e plain t)
  = Return (mkToken token "bearer" (response_of u)).
Proof.
  intros Hup Hfound Hverified Htoken.
  unfold AuthComponent.login, AuthComponent.login_body,
    AuthComponent.authenticate_user, AuthComponent.authenticate_user_body,
    AuthComponent.get_user_by_email, AuthComponent.verify_password,
    AuthComponent.create_access_token, try_except, bind, select_by_email, call.
  rewrite Hup. cbn [fst snd ret]. rewrite Hfound, Hverified. cbn.
  rewrite Htoken. reflexivity.
Qed.

End Claims.


Lemma login_wraps_unauthorized_witness :
  fst (@AuthComponent.login working "ada@example.com" "wrong" one_user)
  = Raise (CustomException (HTTPException 401 "Incorrect email or password"))
  /\ fst (@AuthComponent.login working "nobody@example.com" "x" no_users)
     = Raise (CustomException (HTTPException 401 "Incorrect email or password")).
Proof.
  split.
  - refine (proj2 (@login_wraps_unauthorized working "ada@example.com" "wrong"
                     one_user eq_refl _)).
    intros u H. injection H as <-. reflexivity.
  - refine (proj2 (@login_wraps_unauthorized working "nobody@example.com" "x"
                     no_users eq_refl _)).
    intros u H. discriminate H.
Defined.

End AuthClaims.

Module ErrorClaims.
Import Effects Pipeline Users Samples.
Local Open Scope effect_scope.

(** With MongoDB out of reach, [insert_data] reports the failure in the
    dictionary it returns, [insert_one_document] raises the exception it
    builds itself, and with the provider out of reach [generate_module]
    returns the exception object: none of the three failures is raised as
    a [CustomException]. *)
Lemma failures_not_raised_as_custom_exception :
  let by_status :=
    fst (@insert_data database_down (CourseDocument python_course) empty_world) in
  let by_other_exception :=
    fst (@insert_one_document database_down COURSES
           (CourseDocument python_course) empty_world) in
  let by_value := fst (@generate_module provider_down python_course empty_world) in
  (by_status = Return (StatusFalse DriverError)
   /\ ~ raises_custom_exception by_status)
  /\ (by_other_exception = Raise (MongoInsertFailed DriverError)
      /\ ~ raises_custom_exception by_other_exception)
  /\ (by_value
      = Return (ReturnedException (CustomException (CustomException ProviderError)))
      /\ ~ raises_custom_exception by_value).
Proof.
  cbv zeta. repeat split; try reflexivity; intros [cause H]; discriminate H.
Qed.

(** A handler that raises or returns what it makes of the error. *)
Lemma guards_try {S A} (body : ST S A) (handler : Exn -> ST S A)
      (surfaced : Exn -> Result A) :
  (forall e w, handler e w = (surfaced e, w)) ->
  guards (try_except body handler) body surfaced.
Proof.
  intros H w. unfold try_except. destruct (body w) as [[a|e] w']; cbn [fst snd];
    [reflexivity|apply H].
Qed.

Section Claims.
Context {ext : External} {services : Services}.

(** C2 (amended). A failure is caught where it occurs, and how it is
    surfaced depends on the call site. [Courses.generate_course], the
    description and module generators and [AuthComponent.login] raise
    [CustomException], built from the error that the statements under
    their [try] raised. [MongoUtils.insert_one_document] raises an
    exception of its own, [Mongo insert failed], chained to the
    driver's error. [InsertData.insert_data] never raises: it returns
    a status dictionary, with status false when the insertion failed.
    [AuthComponent.register_user] and [authenticate_user] raise the
    HTTP errors of their bodies unchanged and every other error as
    [CustomException] built from it. In every case the operation
    returns what its body returns and fails when its body fails; so
    a look-up that MongoDB does not serve leaves [generate_course] as
    [CustomException] holding the driver's error, a request that the
    provider does not answer leaves the two generators as
    [CustomException] holding the provider's, and an insertion that
    MongoDB does not serve leaves [insert_one_document] as its own
    exception. *)
Theorem failures_by_call_site :
  let wrapped {A} (e : Exn) : Result A := Raise (CustomException e) in
  let http_or_wrapped {A} (e : Exn) : Result A :=
    match e with
    | HTTPException _ _ => Raise e
    | _ => Raise (CustomException e)
    end in
  (forall data, guards (generate_course data) (generate_course_body data) wrapped)
  /\ (forall data unique_id,
         guards (generate_description data unique_id)
                (generate_description_body data unique_id) wrapped)
  /\ (forall name, guards (module_generater name) (module_generater_body name)
                          wrapped)
  /\ (forall address plain,
         guards (AuthComponent.login address plain)
                (AuthComponent.login_body address plain) wrapped)
  /\ (forall c d,
         guards (insert_one_document c d) (insert_one c d ;;; ret Updated)
                (fun e => Raise (MongoInsertFailed e)))
  /\ (forall d,
         guards (insert_data d) (insert_one DOMAINS d ;;; ret StatusTrue)
                (fun e => Return (StatusFalse e)))
  /\ (forall address plain r name organization,
         guards (AuthComponent.register_user address plain r name organization)
                (AuthComponent.register_user_body address plain r name
                                                  organization)
                http_or_wrapped)
  /\ (forall address plain,
         guards (AuthComponent.authenticate_user address plain)
                (AuthComponent.authenticate_user_body address plain)
                http_or_wrapped)
  /\ (forall c d w e,
         fst (insert_one_document c d w) = Raise e ->
         e = MongoInsertFailed DriverError)
  /\ (forall d w,
         fst (insert_data d w)
         = Return (if mongo_available (db_requests w)
                   then StatusTrue else StatusFalse DriverError))
  /\ (forall data w,
         mongo_available (db_requests w) = false ->
         fst (generate_course data w) = Raise (CustomException DriverError))
  /\ (forall data unique_id w,
         description data = "" -> chat_model (llm_calls w) = None ->
         fst (generate_description data unique_id w)
         = Raise (CustomException ProviderError))
  /\ (forall name w,
         curriculum_model (llm_calls w) = None ->
         fst (module_generater name w) = Raise (CustomException ProviderError))
  /\ (forall c d w,
         mongo_available (db_requests w) = false ->
         fst (insert_one_document c d w)
         = Raise (MongoInsertFailed DriverError)).
Proof.
  cbv zeta. repeat match goal with |- _ /\ _ => split end.
  - intros data. now apply guards_try.
  - intros data unique_id. now apply guards_try.
  - intros name. now apply guards_try.
  - intros address plain. now apply guards_try.
  - intros c d. now apply guards_try.
  - intros d. now apply guards_try.
  - intros address plain r name organization. apply guards_try.
    now intros [] w.
  - intros address plain. apply guards_try. now intros [] w.
  - intros c d w e.
    unfold insert_one_document, try_except, bind, insert_one.
    destruct (mongo_available (db_requests w)); cbn; [discriminate|].
    intros H; now injection H as <-.
  - intros d w. unfold insert_data, try_except, bind, insert_one.
    destruct (mongo_available (db_requests w)); reflexivity.
  - intros data w H.
    unfold generate_course, generate_course_body, try_except, bind, find_one.
    now rewrite H.
  - intros data unique_id w Hd H.
    unfold generate_description, generate_description_body, try_except, bind,
      invoke.
    rewrite Hd. cbn [String.eqb negb]. now rewrite H.
  - intros name w H.
    unfold module_generater, module_generater_body, try_except, bind, invoke.
    now rewrite H.
  - intros c d w H. unfold insert_one_document, try_except, bind, insert_one.
    now rewrite H.
Qed.

End Claims.

(** Failures as they are surfaced: MongoDB out of reach at the look-up
    of [generate_course] and the provider out of reach in the two
    generators; a registration for an address that is taken, and one
    with the table out of reach; a login for an address nobody has. *)
Lemma failures_by_call_site_witness :
  fst (@generate_course database_down python_request empty_world)
  = Raise (CustomException DriverError)
  /\ fst (@generate_description provider_down python_request "COURSE_1" empty_world)
     = Raise (CustomException ProviderError)
  /\ fst (@module_generater provider_down "Python" empty_world)
     = Raise (CustomException ProviderError)
  /\ fst (@AuthComponent.register_user working "ada@example.com" "x"
            "administrator" (Some "Ada") None one_user)
     = Raise (HTTPException 400 "User with this email already exists")
  /\ fst (@AuthComponent.register_user unreachable "ada@example.com" "x"
            "administrator" (Some "Ada") None one_user)
     = Raise (CustomException (CustomException ProviderError))
  /\ fst (@AuthComponent.login working "nobody@example.com" "x" one_user)
     = Raise (CustomException
                (HTTPException 401 "Incorrect email or password")).
Proof.
  destruct (@failures_by_call_site database_down working)
    as (Hcourse & _).
  destruct (@failures_by_call_site provider_down working)
    as (_ & Hdescription & Hmodules & Hlogin & _ & _ & Hregister & _).
  destruct (@failures_by_call_site provider_down unreachable)
    as (_ & _ & _ & _ & _ & _ & Hregister' & _).
  repeat match goal with |- _ /\ _ => split end.
  - exact (f_equal fst (Hcourse python_request empty_world)).
  - exact (f_equal fst (Hdescription python_request "COURSE_1" empty_world)).
  - exact (f_equal fst (Hmodules "Python" empty_world)).
  - exact (f_equal fst (Hregister "ada@example.com" "x" "administrator"
                                  (Some "Ada") None one_user)).
  - exact (f_equal fst (Hregister' "ada@example.com" "x" "administrator"
                                   (Some "Ada") None one_user)).
  - exact (f_equal fst (Hlogin "nobody@example.com" "x" one_user)).
Defined.

End ErrorClaims.

(* ===================================================================== *)
(** * More on the sections of a model response *)
(* ===================================================================== *)

Module MarkdownSections.
Import PyStr Markdown MarkdownFacts Samples.

(** ** Dictionaries *)

Lemma dict_set_keys k v d :
  map fst (dict_set k v d)
  = if mem k (map fst d) then map fst d else map fst d ++ [k].
Proof.
  unfold mem. induction d as [|[k' v'] d IH]; simpl; [reflexivity|].
  destruct (String.eqb k k') eqn:E; simpl.
  - apply String.eqb_eq in E. now subst.
  - rewrite IH. now destruct (existsb _ _).
Qed.

Lemma mem_In x xs : mem x xs = true <-> In x xs.
Proof.
  unfold mem. rewrite existsb_exists. split.
  - intros (y & Hy & E). apply String.eqb_eq in E. now subst.
  - intros H. exists x. split; [exact H|apply String.eqb_refl].
Qed.

Lemma dict_set_In k v d name :
  In name (map fst (dict_set k v d)) <-> name = k \/ In name (map fst d).
Proof.
  rewrite dict_set_keys. destruct (mem k (map fst d)) eqn:E.
  - apply mem_In in E. split; [auto|]. intros [->|H]; auto.
  - rewrite in_app_iff. simpl. intuition.
Qed.

Lemma dict_set_NoDup k v d :
  NoDup (map fst d) -> NoDup (map fst (dict_set k v d)).
Proof.
  intros H. rewrite dict_set_keys. destruct (mem k (map fst d)) eqn:E; [exact H|].
  assert (~ In k (map fst d)) by (rewrite <- mem_In; congruence).
  clear E. induction (map fst d) as [|x xs IH]; simpl.
  - constructor; [tauto|constructor].
  - inversion H as [|? ? Hx Hxs]; subst. constructor.
    + rewrite in_app_iff. simpl in *. intuition.
    + apply IH; simpl in *; intuition.
Qed.

Lemma dict_get_set k v d default : dict_get k (dict_set k v d) default = v.
Proof.
  induction d as [|[k' v'] d IH]; simpl.
  - now rewrite String.eqb_refl.
  - destruct (String.eqb k k') eqn:E; simpl; [now rewrite String.eqb_refl|].
    now rewrite E.
Qed.

Lemma dict_get_set_other k k' v d default :
  k' <> k -> dict_get k' (dict_set k v d) default = dict_get k' d default.
Proof.
  intros Hk. apply String.eqb_neq in Hk.
  induction d as [|[k0 v0] d IH]; simpl.
  - now rewrite Hk.
  - destruct (String.eqb k k0) eqn:E; simpl.
    + apply String.eqb_eq in E. subst. now rewrite Hk.
    + now rewrite IH.
Qed.

(** ** Lines *)

Lemma join_split_on (s : string) : join NL (split_on LF s) = s.
Proof.
  unfold join. induction s as [|c s IH]; [reflexivity|].
  simpl split_on. destruct (Ascii.eqb c LF) eqn:E.
  - apply Ascii.eqb_eq in E. subst c.
    destruct (split_on LF s) eqn:S; [now apply split_on_nonempty in S|].
    change (String.concat NL ("" :: s0 :: l)) with (NL +++ String.concat NL (s0 :: l)).
    now rewrite IH.
  - destruct (split_on LF s) as [|w ws] eqn:S; [now apply split_on_nonempty in S|].
    destruct ws as [|w' ws].
    + simpl in *. now rewrite IH.
    + change (String.concat NL (String c w :: w' :: ws))
        with (String c (w +++ NL +++ String.concat NL (w' :: ws))).
      change (String.concat NL (w :: w' :: ws))
        with (w +++ NL +++ String.concat NL (w' :: ws)) in IH.
      now rewrite IH.
Qed.

(** The header line made of the marker and a title that is one line. *)
Lemma header_line (n : string) :
  split_on LF n = [n] ->
  split_on LF ("## " +++ n) = ["## " +++ n]
  /\ startswith "## " ("## " +++ n) = true
  /\ drop 3 ("## " +++ n) = n.
Proof.
  intros H. repeat split.
  - simpl. now rewrite H.
  - unfold startswith. simpl. now destruct n.
Qed.

(** ** The loop *)

Lemma parse_lines_app st l1 l2 :
  parse_lines st (l1 ++ l2) = parse_lines (parse_lines st l1) l2.
Proof. unfold parse_lines. apply fold_left_app. Qed.

(** Under a header with a title, the lines up to the next header are
    collected. *)
Lemma parse_lines_body (body : list string) : forall secs name collected,
  name <> "" ->
  forallb (fun line => negb (startswith "## " line)) body = true ->
  parse_lines (mkParse secs (Some name) collected) body
  = mkParse secs (Some name) (collected ++ body).
Proof.
  induction body as [|l body IH]; intros secs name collected Hname Hbody.
  - now rewrite app_nil_r.
  - simpl in Hbody. apply andb_true_iff in Hbody as [Hl Hbody].
    apply negb_true_iff in Hl.
    unfold parse_lines in *. simpl. unfold parse_line at 2. rewrite Hl.
    cbn [current_section truthy sections current_content].
    apply String.eqb_neq in Hname. rewrite Hname. cbn [negb].
    rewrite IH; [|now apply String.eqb_neq|exact Hbody].
    now rewrite <- app_assoc.
Qed.

(** The names under which the state will have sections once it is
    saved. *)
Lemma save_section_keys st name :
  In name (map fst (save_section st))
  <-> In name (map fst (sections st))
      \/ (current_section st = Some name /\ name <> "").
Proof.
  unfold save_section. destruct (current_section st) as [n|].
  - cbn [truthy]. destruct (String.eqb n "") eqn:E; cbn [negb].
    + apply String.eqb_eq in E. subst. split; [auto|].
      intros [H|[H1 H2]]; [exact H|]. injection H1 as <-. contradiction.
    + apply String.eqb_neq in E. rewrite dict_set_In. split.
      * intros [->|H]; auto.
      * intros [H|[H1 H2]]; [auto|]. injection H1 as <-. auto.
  - split; [auto|]. intros [H|[H1 _]]; [exact H|discriminate].
Qed.

Lemma save_section_NoDup st :
  NoDup (map fst (sections st)) -> NoDup (map fst (save_section st)).
Proof.
  intros H. unfold save_section. destruct (current_section st) as [n|]; [|exact H].
  destruct (truthy (Some n)); [now apply dict_set_NoDup|exact H].
Qed.

Section Titles.

(** [name] is the title of a header line among [lines]. *)
Let titled (lines : list string) (name : string) : Prop :=
  name <> ""
  /\ exists line, In line lines /\ startswith "## " line = true
                  /\ strip (drop 3 line) = name.

Lemma parse_lines_invariant (lines : list string) :
let st := parse_lines parse_init lines in
NoDup (map fst (sections st))
/\ forall name,
     In name (map fst (save_section st)) <-> titled lines name.
Proof.
induction lines as [|l lines IH] using rev_ind; cbv zeta.
- split; [constructor|]. intros name. cbn. split; [tauto|].
  intros (_ & line & [] & _).
- rewrite parse_lines_app. cbv zeta in IH. destruct IH as [Hnd IH].
  set (st := parse_lines parse_init lines) in *. clearbody st.
  cbn [parse_lines fold_left]. unfold parse_line.
  destruct (startswith "## " l) eqn:Hl.
  + split; [now apply save_section_NoDup|].
    intros name. rewrite save_section_keys. cbn [sections current_section].
    rewrite IH. split.
    * intros [(Hne & line & Hin & Hh & Ht)|[Hc Hne]].
      -- split; [exact Hne|]. exists line. rewrite in_app_iff. auto.
      -- injection Hc as Hc. split; [exact Hne|]. exists l.
         rewrite in_app_iff. simpl. auto.
    * intros (Hne & line & Hin & Hh & Ht).
      apply in_app_iff in Hin as [Hin|[<-|[]]].
      -- left. split; [exact Hne|]. now exists line.
      -- right. split; [now rewrite Ht|exact Hne].
  + assert (Hsame : forall name,
               titled (lines ++ [l]) name <-> titled lines name).
    { intros name. split; intros (Hne & line & Hin & Hh & Ht);
        (split; [exact Hne|]); exists line; rewrite in_app_iff in *.
      - destruct Hin as [Hin|[<-|[]]]; [auto|congruence].
      - auto. }
    destruct (truthy (current_section st)) eqn:Ht.
    * split; [exact Hnd|]. intros name. rewrite Hsame, <- IH.
      rewrite !save_section_keys. reflexivity.
    * split; [exact Hnd|]. intros name. rewrite Hsame. apply IH.
Qed.

End Titles.

(** X1. The sections [_parse_markdown_sections] finds in a text are
    named after its header lines: the names are pairwise distinct, and a
    name is one of them exactly when it is not empty and some line of the
    text starts with the header marker and has that name, stripped, after
    the marker. A header without a name gives no section. *)
Theorem sections_are_named_by_headers (text : string) :
  NoDup (map fst (_parse_markdown_sections text))
  /\ forall name,
       In name (map fst (_parse_markdown_sections text))
       <-> name <> ""
           /\ exists line, In line (split_on LF text)
                           /\ startswith "## " line = true
                           /\ strip (drop 3 line) = name.
Proof.
  unfold _parse_markdown_sections.
  destruct (parse_lines_invariant (split_on LF text)) as [Hnd Hkeys].
  split; [now apply save_section_NoDup|exact Hkeys].
Qed.

(** A section put at the end of a text is assigned under its name. *)
Lemma parse_appended_section (t n b : string) :
  split_on LF n = [n] -> strip n <> "" -> no_header_line b = true ->
  _parse_markdown_sections (t +++ NL +++ "## " +++ n +++ NL +++ b)
  = dict_set (strip n) (strip b) (_parse_markdown_sections t).
Proof.
  intros Hline Hname Hbody. unfold _parse_markdown_sections.
  destruct (header_line n Hline) as (Hsplit & Hstart & Hdrop).
  change (t +++ NL +++ "## " +++ n +++ NL +++ b)
    with (t +++ String LF (("## " +++ n) +++ String LF b)).
  rewrite !split_on_app, Hsplit, !parse_lines_app.
  set (st := parse_lines parse_init (split_on LF t)). clearbody st.
  cbn [parse_lines fold_left]. unfold parse_line at 1. rewrite Hstart, Hdrop.
  change (fold_left parse_line (split_on LF b) ?s) with (parse_lines s (split_on LF b)).
  rewrite parse_lines_body by assumption.
  unfold save_section at 1. cbn [current_section sections current_content truthy app].
  apply String.eqb_neq in Hname. rewrite Hname. cbn [negb].
  now rewrite join_split_on.
Qed.

(** X2. A section appended to a response, a header line with a name
    followed by a body without header line, is stored as Python's
    [sections[name] = body] does: under the stripped name, with the
    stripped body, in the place of an earlier section of that name if
    there is one and at the end otherwise. So the last section of a name
    is the one that is kept, and the other sections are as they were. *)
Theorem last_section_of_a_name_wins (t n b : string) :
  split_on LF n = [n] -> strip n <> "" -> no_header_line b = true ->
  let secs := _parse_markdown_sections (t +++ NL +++ "## " +++ n +++ NL +++ b) in
  secs = dict_set (strip n) (strip b) (_parse_markdown_sections t)
  /\ (forall default, dict_get (strip n) secs default = strip b)
  /\ (forall k default,
         k <> strip n ->
         dict_get k secs default = dict_get k (_parse_markdown_sections t) default).
Proof.
  intros Hline Hname Hbody. cbv zeta.
  rewrite (parse_appended_section t n b Hline Hname Hbody).
  split; [reflexivity|]. split; intros.
  - apply dict_get_set.
  - now apply dict_get_set_other.
Qed.

(** ** Sections that [expand_lesson_content] loses *)

Lemma filter_dict_set (f : string * string -> bool) k v secs :
  (forall v', f (k, v') = false) ->
  filter f (dict_set k v secs) = filter f secs.
Proof.
  intros Hf. induction secs as [|[k' v'] secs IH]; simpl.
  - now rewrite Hf.
  - destruct (String.eqb k k') eqn:E; simpl.
    + apply String.eqb_eq in E. subst k'. now rewrite !Hf.
    + now rewrite IH.
Qed.

Lemma extract_dict_set k v secs :
  mem (lower k) excluded_sections = true ->
  _extract_main_content (dict_set k v secs) = _extract_main_content secs.
Proof.
  intros Hk. unfold _extract_main_content.
  rewrite filter_dict_set; [reflexivity|].
  intros v'. change (negb (mem (lower k) excluded_sections) = false).
  now rewrite Hk.
Qed.

(** X3. The prompt of [expand_lesson_content] asks for the sections
    [## Instruction], [## Expected Output] and [## Answer], but the fields
    are read under the keys [instruction], [expected_output] and
    [answer], while the main content leaves out every section whose name
    is one of these keys in any capitalisation. A section whose name
    differs from a key by capitalisation only, as [Instruction] and
    [Answer] do, is therefore lost: appending it to a response changes
    nothing in the lesson that comes out. *)
Theorem capitalised_exercise_section_is_lost
        (rewrites : string -> string) (lesson : LessonItem) (t n b : string) :
  split_on LF n = [n] -> strip n <> "" -> no_header_line b = true ->
  mem (lower (strip n)) excluded_sections = true ->
  mem (strip n) excluded_sections = false ->
  expand_lesson_content rewrites lesson
    (Some (t +++ NL +++ "## " +++ n +++ NL +++ b))
  = expand_lesson_content rewrites lesson (Some t).
Proof.
  intros Hline Hname Hbody Hlower Hexact.
  unfold expand_lesson_content.
  rewrite (parse_appended_section t n b Hline Hname Hbody).
  rewrite (extract_dict_set _ _ _ Hlower).
  assert (Hother : forall k, mem k excluded_sections = true ->
                             dict_get k (dict_set (strip n) (strip b)
                                           (_parse_markdown_sections t)) ""
                             = dict_get k (_parse_markdown_sections t) "").
  { intros k Hk. apply dict_get_set_other. intros ->. congruence. }
  rewrite !Hother by reflexivity. reflexivity.
Qed.

End MarkdownSections.

Module MarkdownSectionsExamples.
Import PyStr Markdown MarkdownSections Samples.

Lemma last_section_of_a_name_wins_witness :
  _parse_markdown_sections
    (("## Intro" +++ NL +++ "old" +++ NL +++ "## Usage" +++ NL +++ "how")
       +++ NL +++ "## " +++ "Intro " +++ NL +++ " new ")
  = [("Intro", "new"); ("Usage", "how")].
Proof.
  destruct (last_section_of_a_name_wins
              ("## Intro" +++ NL +++ "old" +++ NL +++ "## Usage" +++ NL +++ "how")
              "Intro " " new " eq_refl) as (H & _ & _);
    [discriminate|reflexivity|].
  cbv zeta in H. rewrite H. reflexivity.
Defined.

Lemma capitalised_exercise_section_is_lost_witness :
  expand_lesson_content (fun s => s) outline_lesson
    (Some (("## Intro" +++ NL +++ "text")
             +++ NL +++ "## " +++ "Answer" +++ NL +++ "x = 1"))
  = mkLesson "LESSON_0A1B2C3D" "Variables" read_and_execute
             ("## Intro" +++ NL +++ "text") (Some "") (Some "") (Some "") None.
Proof.
  rewrite (capitalised_exercise_section_is_lost (fun s => s) outline_lesson
             ("## Intro" +++ NL +++ "text") "Answer" "x = 1" eq_refl);
    [reflexivity|discriminate|reflexivity|reflexivity|reflexivity].
Defined.

End MarkdownSectionsExamples.

(* ===================================================================== *)
(** * More on the evaluation of lessons *)
(* ===================================================================== *)

Module LessonScores.
Import PyStr Markdown LessonQuality LessonQualityFacts Samples.

Lemma deduct_le_100 cond d score :
  (0 <= d -> score <= 100 -> deduct cond d score <= 100)%Z.
Proof. unfold deduct; destruct cond; lia. Qed.

(** A deduction that leaves 100 points was not made. *)
Lemma deduct_top cond d score :
  (0 < d -> score <= 100 -> deduct cond d score = 100 ->
   cond = false /\ score = 100)%Z.
Proof. unfold deduct; destruct cond; intros; split; auto; lia. Qed.

Ltac under_100 := repeat (apply deduct_le_100; [lia|]); lia.

(** With all 100 points left, no check has found anything. *)
Lemma full_raw_score sc cq eq mr :
  (structure_quality sc = good ->
   has_sections sc = true /\ has_formatting sc = true
   /\ (content_length sc <? 300) = false) ->
  raw_score sc cq eq mr = 100%Z -> suggestions_for sc cq eq mr = [].
Proof.
  intros Hgood H. unfold raw_score in H. unfold suggestions_for.
  apply deduct_top in H as [Hr H]; [|lia|destruct cq, eq; under_100].
  apply negb_false_iff in Hr. rewrite Hr. cbn [negb].
  destruct eq as [q|], cq as [q'|];
    repeat match goal with
           | H : deduct _ _ _ = 100%Z |- _ =>
               apply deduct_top in H as [? H]; [|lia|under_100]
           end;
    repeat match goal with
           | H : negb ?b = false |- _ => apply negb_false_iff in H
           end;
    repeat match goal with
           | H : ?b = _ |- _ => rewrite H
           end;
    reflexivity.
Qed.

(** Without a suggestion, the score is 100, or 80 for a structure that
    needs improvement. *)
Lemma silent_raw_score sc cq eq mr :
  (structure_quality sc = good ->
   has_sections sc = true /\ has_formatting sc = true
   /\ (content_length sc <? 300) = false) ->
  suggestions_for sc cq eq mr = [] ->
  raw_score sc cq eq mr
  = if is_needs_improvement (structure_quality sc) then 80%Z else 100%Z.
Proof.
  intros Hgood H. unfold suggestions_for in H. unfold raw_score.
  destruct (is_relevant mr); cbn [negb] in H.
  2:{ apply suggest_nil in H as [_ H]. apply app_eq_nil in H as [_ H].
      discriminate. }
  destruct eq as [q|], cq as [q'|];
    repeat match goal with
           | H : suggest _ _ _ = [] |- _ => apply suggest_nil in H as [? H]
           end;
    (destruct (structure_quality sc);
     [ destruct (Hgood eq_refl) as (Hs & Hf & Hl)
     | cbn [is_needs_improvement] in H;
       repeat match goal with
              | H : suggest _ _ _ = [] |- _ => apply suggest_nil in H as [? H]
              end ]);
    repeat match goal with
           | H : negb ?b = false |- _ => apply negb_false_iff in H
           end;
    repeat match goal with
           | H : ?b = _ |- _ => rewrite H
           end;
    reflexivity.
Qed.

(** X4. The suggestions of [evaluate_lesson] agree with its score in one
    direction only. A lesson with 100 points gets no suggestion, and a
    lesson without suggestion passes the threshold; but such a lesson has
    100 or 80 points: a content with section headers, formatting and
    three paragraphs that is between 300 and 500 characters long loses
    the 20 points of a structure that needs improvement and is told
    nothing. There is such a lesson: one with 80 points and no
    suggestion. *)
Theorem suggestions_agree_with_score
        (lesson : LessonItem) (module_context : option ModuleContext) :
  let e := evaluate_lesson lesson module_context in
  (quality_score e = 100%Z -> improvement_suggestions e = [])
  /\ (improvement_suggestions e = [] ->
      passes_threshold e = true
      /\ quality_score e
         = if is_needs_improvement (structure_quality (structure_check e))
           then 80%Z else 100%Z)
  /\ (improvement_suggestions e = [] -> quality_score e = 80%Z ->
      has_sections (structure_check e) = true
      /\ has_formatting (structure_check e) = true
      /\ 300 <= String.length (content lesson) <= 500
      /\ 3 <= paragraph_count (structure_check e))
  /\ (exists silent context,
        improvement_suggestions (evaluate_lesson silent context) = []
        /\ quality_score (evaluate_lesson silent context) = 80%Z).
Proof.
  cbv zeta.
  assert (Hsilent : exists silent context,
             improvement_suggestions (evaluate_lesson silent context) = []
             /\ quality_score (evaluate_lesson silent context) = 80%Z).
  { exists Samples.silent_lesson, None. split; vm_compute; reflexivity. }
  match goal with |- _ /\ _ /\ _ /\ ?example => set (found := example) end.
  unfold evaluate_lesson.
  cbn [quality_score passes_threshold improvement_suggestions structure_check].
  set (sc := check_content_structure (content lesson)).
  set (cq := match find_code_blocks (content lesson) with
             | [] => None
             | _ => check_code_quality (join NL (find_code_blocks (content lesson)))
             end).
  set (eq := check_exercise_quality lesson).
  set (mr := match module_context with
             | Some ctx => _check_module_relevance lesson ctx
             | None => relevant_by_default
             end).
  pose proof (raw_score_range sc cq eq mr) as Hrange.
  pose proof (good_structure (content lesson)) as Hgood. fold sc in Hgood.
  split; [|split; [|split; [|exact Hsilent]]].
  - intros H. apply full_raw_score; [exact Hgood|lia].
  - intros H. rewrite (silent_raw_score sc cq eq mr Hgood H).
    destruct (is_needs_improvement _); split; reflexivity.
  - intros H H80. rewrite (silent_raw_score sc cq eq mr Hgood H) in H80.
    destruct (structure_quality sc) eqn:Hq; cbn in H80; [discriminate|].
    clear H80. unfold suggestions_for in H. rewrite Hq in H.
    cbn [is_needs_improvement] in H.
    destruct (is_relevant mr); cbn [negb] in H.
    2:{ apply suggest_nil in H as [_ H]. apply app_eq_nil in H as [_ H].
        discriminate. }
    assert (Hs : suggest (negb (has_formatting sc))
                   "Add formatting elements like bold, italic, lists, or code blocks"
                   (suggest (paragraph_count sc <? 3)
                      "Break content into more paragraphs for readability"
                      (suggest (content_length sc <? 300)
                         "Expand the content with more detailed explanations"
                         (suggest (negb (has_sections sc))
                            "Add section headers to organize content" [])))
                 = []).
    { destruct eq as [q|], cq as [q'|];
        repeat match goal with
               | H : suggest _ (String ?c _) (suggest _ _ (suggest _ _ (suggest _ _ (suggest _ _ _))))
                     = [] |- _ => apply suggest_nil in H as [_ H]
               end; exact H. }
    clear H.
    apply suggest_nil in Hs as [Hf Hs]. apply suggest_nil in Hs as [Hp Hs].
    apply suggest_nil in Hs as [Hl Hs]. apply suggest_nil in Hs as [Hh _].
    apply negb_false_iff in Hf, Hh. apply Nat.ltb_ge in Hp, Hl.
    split; [exact Hh|]. split; [exact Hf|].
    split; [|exact Hp]. split; [exact Hl|].
    unfold sc, check_content_structure in Hq, Hh, Hf, Hp.
    cbn [structure_quality has_sections has_formatting paragraph_count] in *.
    rewrite Hh, Hf in Hq. apply Nat.leb_le in Hp. rewrite Hp in Hq.
    destruct (500 <? String.length (content lesson)) eqn:E; [discriminate|].
    apply Nat.ltb_ge in E. exact E.
Qed.

(** ** A context without keywords *)

(** The relevance check comes last. *)
Lemma raw_score_relevance sc cq eq mr :
  raw_score sc cq eq mr
  = deduct (negb (is_relevant mr)) 25 (raw_score sc cq eq relevant_by_default).
Proof. reflexivity. Qed.

Lemma irrelevant_raw_score sc cq eq mr :
  is_relevant mr = false ->
  (raw_score sc cq eq mr <= 75)%Z
  /\ In "Rewrite content to focus specifically on the module topic"
        (suggestions_for sc cq eq mr).
Proof.
  intros H. split.
  - pose proof (raw_score_range sc cq eq relevant_by_default) as R.
    rewrite (raw_score_relevance sc cq eq mr), H. unfold deduct. cbn [negb]. lia.
  - unfold suggestions_for. rewrite H. cbn [negb].
    match goal with
    | |- In ?x (suggest ?c ?t (?l ++ [?x])) =>
        generalize l; intros l3; unfold suggest; destruct c
    end.
    + apply in_or_app. left. apply in_or_app. right. now left.
    + apply in_or_app. right. now left.
Qed.

Lemma relevance_ratio_nil text : relevance_ratio [] text = (0 # 1)%Q.
Proof. reflexivity. Qed.

Lemma all_sections_irrelevant (secs : Sections) :
  filter (fun '(_, section_content) =>
            negb (Qle_bool (2 # 10) (relevance_ratio [] section_content))) secs
  = secs.
Proof.
  induction secs as [|[k v] secs IH]; [reflexivity|].
  cbn [filter]. rewrite IH. reflexivity.
Qed.

Lemma keywordless_relevance (lesson : LessonItem) (ctx : ModuleContext) :
  _extract_keywords (context_title ctx) = [] ->
  _extract_keywords (context_description ctx) = [] ->
  _check_module_relevance lesson ctx
  = mkRelevance false (Some (0 # 1)%Q)
                (map fst (_parse_markdown_sections (content lesson))).
Proof.
  intros Ht Hd. unfold _check_module_relevance. rewrite Ht, Hd.
  change (unique ([] ++ [])) with (@nil string).
  rewrite all_sections_irrelevant. reflexivity.
Qed.

Lemma keywordless_score (lesson : LessonItem) (ctx : ModuleContext) :
  _extract_keywords (context_title ctx) = [] ->
  _extract_keywords (context_description ctx) = [] ->
  (0 <= quality_score (evaluate_lesson lesson (Some ctx)) <= 75)%Z.
Proof.
  intros Ht Hd. unfold evaluate_lesson. cbn [quality_score].
  rewrite (keywordless_relevance lesson ctx Ht Hd).
  match goal with
  | |- context [raw_score ?sc ?cq ?eq ?mr] =>
      destruct (irrelevant_raw_score sc cq eq mr eq_refl) as [Hs _]
  end.
  lia.
Qed.

(** X5. A module context whose title and description give no keyword,
    words of one or two letters and stop words only, makes every lesson
    irrelevant: the keyword relevance is 0, every section of the lesson
    is listed as irrelevant, 25 points are deducted, so that the score
    is at most 75, and the lesson is told to rewrite its content. The
    empty title and description that [check_module_quality] evaluates
    with are such a context. *)
Theorem context_without_keywords_is_never_relevant
        (lesson : LessonItem) (ctx : ModuleContext) :
  _extract_keywords (context_title ctx) = [] ->
  _extract_keywords (context_description ctx) = [] ->
  let e := evaluate_lesson lesson (Some ctx) in
  is_relevant (module_relevance e) = false
  /\ keyword_relevance (module_relevance e) = Some (0 # 1)%Q
  /\ irrelevant_sections (module_relevance e)
     = map fst (_parse_markdown_sections (content lesson))
  /\ (quality_score e <= 75)%Z
  /\ In "Rewrite content to focus specifically on the module topic"
        (improvement_suggestions e).
Proof.
  intros Ht Hd. cbv zeta. unfold evaluate_lesson.
  cbn [module_relevance quality_score improvement_suggestions].
  pose proof (keywordless_relevance lesson ctx Ht Hd) as Hr.
  rewrite Hr. cbn [is_relevant keyword_relevance irrelevant_sections].
  repeat (split; [reflexivity|]).
  match goal with
  | |- context [raw_score ?sc ?cq ?eq ?mr] =>
      destruct (irrelevant_raw_score sc cq eq mr eq_refl) as [Hs Hi]
  end.
  split; [lia|exact Hi].
Qed.

(** ** Exercises without their sections *)

Lemma empty_is_consistent rewrites :
  _ensure_markdown_consistency rewrites "" = "".
Proof. reflexivity. Qed.

(** X6. The exercise fields decide whether a practical lesson can pass
    where [check_module_quality] evaluates it. If the model response has
    no section named exactly [instruction], or none named exactly
    [expected_output], the field is set to the empty string, the
    exercise check finds no clear steps, or no clear output, and together
    with the 25 points of the relevance check the lesson falls below the
    threshold of 70. *)
Theorem exercise_without_sections_fails
        (rewrites : string -> string) (lesson : LessonItem) (response : string) :
  type lesson = read_and_execute ->
  dict_get "instruction" (_parse_markdown_sections response) "" = ""
  \/ dict_get "expected_output" (_parse_markdown_sections response) "" = "" ->
  let expanded := expand_lesson_content rewrites lesson (Some response) in
  let e := evaluate_lesson expanded (Some (mkContext "" "")) in
  (quality_score e <= 65)%Z /\ passes_threshold e = false.
Proof.
  intros Htype Hmissing. cbv zeta.
  assert (Hscore : (quality_score
                      (evaluate_lesson
                         (expand_lesson_content rewrites lesson (Some response))
                         (Some (mkContext "" ""))) <= 65)%Z).
  2:{ split; [exact Hscore|]. unfold evaluate_lesson in *.
      cbn [quality_score passes_threshold] in *. apply Z.leb_gt. lia. }
  unfold evaluate_lesson. cbn [quality_score].
  set (expanded := expand_lesson_content rewrites lesson (Some response)).
  pose proof (keywordless_relevance expanded (mkContext "" "") eq_refl eq_refl)
    as Hrel.
  apply (f_equal is_relevant) in Hrel. cbn [is_relevant] in Hrel.
  set (mr := _check_module_relevance expanded (mkContext "" "")) in *.
  assert (Hex : exists q, check_exercise_quality expanded = Some q
                          /\ (has_clear_steps q = false \/ has_clear_output q = false)).
  { unfold check_exercise_quality, expanded, expand_lesson_content.
    unfold set_content. cbn [type]. rewrite Htype.
    unfold set_exercise. cbn [type instruction expected_output answer].
    eexists. split; [reflexivity|]. cbn [has_clear_steps has_clear_output].
    destruct Hmissing as [H|H]; rewrite H, empty_is_consistent; cbn; auto. }
  destruct Hex as (q & Hq & Hflag). rewrite Hq.
  match goal with
  | |- context [raw_score ?sc ?cq _ _] => set (s := sc); set (c := cq)
  end.
  unfold raw_score. rewrite Hrel. cbn [negb].
  assert (H5 : forall s5, (s5 <= 100 ->
              deduct true 25
                (deduct (negb (has_clear_output q)) 10
                   (deduct (negb (has_clear_steps q)) 15 s5)) <= 65)%Z).
  { intros s5 Hs5. unfold deduct.
    destruct Hflag as [-> | ->]; cbn [negb];
      repeat match goal with |- context [if ?b then _ else _] => destruct b end;
      lia. }
  match goal with
  | |- context [deduct (negb (has_clear_steps q)) 15 ?s5] =>
      assert (Hs5 : (s5 <= 100)%Z) by (destruct c; under_100);
      pose proof (H5 s5 Hs5)
  end.
  lia.
Qed.

End LessonScores.

Module LessonScoresExamples.
Import PyStr Markdown LessonQuality LessonScores Samples.

Lemma context_without_keywords_is_never_relevant_witness :
  let e := evaluate_lesson one_lesson (Some (mkContext "AI and ML" "Go on")) in
  is_relevant (module_relevance e) = false /\ (quality_score e <= 75)%Z.
Proof.
  destruct (context_without_keywords_is_never_relevant one_lesson
              (mkContext "AI and ML" "Go on") eq_refl eq_refl)
    as (H1 & _ & _ & H2 & _).
  split; [exact H1|exact H2].
Defined.

Lemma exercise_without_sections_fails_witness :
  passes_threshold
    (evaluate_lesson
       (expand_lesson_content (fun s => s) outline_lesson
          (Some ("## Intro" +++ NL +++ "text" +++ NL +++ "## Instruction" +++ NL
                   +++ "1. Open the editor" +++ NL +++ "## Expected Output" +++ NL
                   +++ "A greeting appears on the screen")))
       (Some (mkContext "" "")))
  = false.
Proof.
  refine (proj2 (exercise_without_sections_fails (fun s => s) outline_lesson
                   _ eq_refl _)).
  left. reflexivity.
Defined.

End LessonScoresExamples.
From Stdlib Require Import Lqa.

(* ===================================================================== *)
(** * Module and course reports *)
(* ===================================================================== *)

Module LessonReportFacts.
Import PyStr LessonReports LessonScores Effects Samples.

(** The evaluations a report is made of. *)
Lemma evaluations_of_module (ls : list LessonItem) :
  map (fun lesson => LessonQuality.evaluate_lesson lesson (Some module_context)) ls
  = Pipeline.lesson_evaluations ls.
Proof. reflexivity. Qed.

(** The loop over the lessons, as three list operations. *)
Lemma tally_lessons (ls : list LessonItem) : forall acc,
  let evaluations := Pipeline.lesson_evaluations ls in
  map evaluation (entries (fold_left tally_lesson ls acc))
  = map evaluation (entries acc) ++ evaluations
  /\ total_score (fold_left tally_lesson ls acc)
     = (total_score acc
        + fold_right Z.add 0 (map LessonQuality.quality_score evaluations))%Z
  /\ below (fold_left tally_lesson ls acc)
     = below acc + Pipeline.failing evaluations.
Proof.
  induction ls as [|l ls IH]; intros acc; cbv zeta.
  - cbn. rewrite app_nil_r. repeat split; lia.
  - cbn [fold_left]. destruct (IH (tally_lesson acc l)) as (He & Ht & Hb).
    rewrite He, Ht, Hb. unfold tally_lesson.
    cbn [entries total_score below]. rewrite map_app, <- app_assoc.
    unfold Pipeline.failing, Pipeline.lesson_evaluations.
    cbn [map filter fold_right app evaluation].
    change module_context with Pipeline.unfilled_context.
    destruct (LessonQuality.passes_threshold _); cbn [negb length];
      repeat split; lia.
Qed.

Lemma scores_of_module (ls : list LessonItem) :
  (0 <= fold_right Z.add 0
          (map LessonQuality.quality_score (Pipeline.lesson_evaluations ls))
   <= 75 * Z.of_nat (length ls))%Z.
Proof.
  induction ls as [|l ls IH]; [cbn; lia|].
  destruct (keywordless_score l module_context eq_refl eq_refl) as [H0 H75].
  unfold Pipeline.lesson_evaluations in *.
  cbn [map fold_right length]. 
  change module_context with Pipeline.unfilled_context in *.
  lia.
Qed.

(** A total of 70 points per lesson needs a lesson with 70 points. *)
Lemma some_lesson_passes (evs : list LessonQuality.Evaluation) :
  Forall (fun e => LessonQuality.passes_threshold e
                   = (70 <=? LessonQuality.quality_score e)%Z) evs ->
  evs <> [] ->
  (70 * Z.of_nat (length evs)
   <= fold_right Z.add 0 (map LessonQuality.quality_score evs))%Z ->
  exists e, In e evs /\ LessonQuality.passes_threshold e = true.
Proof.
  induction 1 as [|e evs He _ IH]; [contradiction|]. intros _ Hsum.
  destruct (LessonQuality.passes_threshold e) eqn:P; [exists e; simpl; auto|].
  symmetry in He. apply Z.leb_gt in He.
  destruct evs as [|e' evs'].
  - cbn in Hsum. lia.
  - destruct IH as (x & Hx & Px); [discriminate| |exists x; simpl in *; auto].
    cbn [map fold_right length] in *. lia.
Qed.

Lemma all_lessons_pass (evs : list LessonQuality.Evaluation) :
  Forall (fun e => LessonQuality.passes_threshold e
                   = (70 <=? LessonQuality.quality_score e)%Z) evs ->
  forallb LessonQuality.passes_threshold evs = true ->
  (70 * Z.of_nat (length evs)
   <= fold_right Z.add 0 (map LessonQuality.quality_score evs))%Z.
Proof.
  induction 1 as [|e evs He _ IH]; [cbn; lia|]. intros Hall.
  cbn [forallb] in Hall. apply andb_true_iff in Hall as [P Hall].
  rewrite P in He. symmetry in He. apply Z.leb_le in He.
  specialize (IH Hall). cbn [map fold_right length]. lia.
Qed.

Lemma threshold_by_score (ls : list LessonItem) :
  Forall (fun e => LessonQuality.passes_threshold e
                   = (70 <=? LessonQuality.quality_score e)%Z)
         (Pipeline.lesson_evaluations ls).
Proof.
  unfold Pipeline.lesson_evaluations. apply Forall_map, Forall_forall.
  intros l _. reflexivity.
Qed.

Lemma denominator (n : nat) :
  Z.pos (Pos.of_nat (Nat.max 1 n)) = Z.of_nat (Nat.max 1 n).
Proof.
  rewrite <- positive_nat_Z, Nat2Pos.id; [reflexivity|lia].
Qed.


(** ** Sums of bounded scores *)

Lemma count_succ (n : nat) :
  (inject_Z (Z.of_nat (S n)) == inject_Z (Z.of_nat n) + 1)%Q.
Proof. rewrite Nat2Z.inj_succ. unfold Z.succ. now rewrite inject_Z_plus. Qed.

Lemma sum_between (lo hi : Q) (xs : list Q) :
  Forall (fun q => lo <= q /\ q <= hi)%Q xs ->
  forall acc,
    (acc + lo * inject_Z (Z.of_nat (length xs)) <= fold_left Qplus xs acc
     /\ fold_left Qplus xs acc <= acc + hi * inject_Z (Z.of_nat (length xs)))%Q.
Proof.
  induction 1 as [|x xs [Hlo Hhi] _ IH]; intros acc.
  - cbn [fold_left length Z.of_nat]. change (inject_Z 0) with 0%Q. split; lra.
  - cbn [fold_left length]. destruct (IH (acc + x)%Q) as [H1 H2].
    rewrite count_succ. split; lra.
Qed.

End LessonReportFacts.

(* ===================================================================== *)
(** * More on the module quality checker *)
(* ===================================================================== *)

Module ModuleScores.
Import PyStr ModuleQuality LessonReportFacts Samples.

(** ** Rounding *)

Lemma round_half_even_between (x : Q) (n : Z) :
  (0 <= x)%Q -> (x <= inject_Z n)%Q ->
  (0 <= Score.round_half_even x <= n)%Z.
Proof.
  intros H0 Hn. unfold Score.round_half_even.
  pose proof (Qfloor_resp_le _ _ H0) as Hf0. change (Qfloor 0) with 0%Z in Hf0.
  pose proof (Qfloor_resp_le _ _ Hn) as Hfn. rewrite Qfloor_Z in Hfn.
  pose proof (Qfloor_le x) as Hfx.
  destruct (Z.eq_dec (Qfloor x) n) as [E|E].
  - assert (Hlt : (x - inject_Z (Qfloor x) < 1 # 2)%Q) by (rewrite E in *; lra).
    destruct (Qcompare_spec (x - inject_Z (Qfloor x)) (1 # 2)); [lra|lia|lra].
  - destruct (Qcompare _ _); [destruct (Z.even _)| |]; lia.
Qed.

Lemma round2_between (q : Q) :
  (0 <= q)%Q -> (q <= 100)%Q ->
  (0 <= Score.round2 q)%Q /\ (Score.round2 q <= 100)%Q.
Proof.
  intros H0 H100.
  destruct (round_half_even_between (q * 100) 10000) as [Hlo Hhi].
  - lra.
  - change (inject_Z 10000) with 10000%Q. lra.
  - unfold Score.round2, Qle. cbn [Qnum Qden]. lia.
Qed.

(** ** The criteria *)

Lemma min_between (x y : Q) :
  (0 <= x)%Q -> (0 <= y)%Q ->
  (0 <= Score.min x y)%Q /\ (Score.min x y <= x)%Q /\ (Score.min x y <= y)%Q.
Proof.
  intros Hx Hy. unfold Score.min. destruct (Qle_bool x y) eqn:E.
  - apply Qle_bool_iff in E. repeat split; lra.
  - assert (y < x)%Q.
    { apply Qnot_le_lt. intros H. apply Qle_bool_iff in H. congruence. }
    repeat split; lra.
Qed.

Lemma sum_of_shares {A} (share : Q) (xs : list A) :
  (0 <= share)%Q -> (0 <= Score.sum (map (fun _ => share) xs))%Q.
Proof.
  intros Hs.
  destruct (sum_between share share (map (fun _ => share) xs)) with (acc := 0%Q)
    as [Hlo _].
  - apply Forall_map, Forall_forall. intros; split; lra.
  - fold (Score.sum (map (fun _ : A => share) xs)) in Hlo.
    assert (0 <= inject_Z (Z.of_nat (length (map (fun _ : A => share) xs))))%Q.
    { unfold Qle. cbn [Qnum Qden inject_Z]. lia. }
    nra.
Qed.

Ltac by_cases :=
  repeat match goal with
         | |- context [if ?b then _ else _] => destruct b
         end;
  split; lra.

Lemma title_between t :
  (0 <= _check_title_quality t /\ _check_title_quality t <= 1)%Q.
Proof. unfold _check_title_quality. by_cases. Qed.

Lemma description_between d :
  (0 <= _check_description_quality d /\ _check_description_quality d <= 1)%Q.
Proof. unfold _check_description_quality. by_cases. Qed.

Lemma objectives_between objectives :
  (0 <= _check_learning_objectives objectives
   /\ _check_learning_objectives objectives <= 1)%Q.
Proof.
  unfold _check_learning_objectives. destruct objectives as [|o os]; [split; lra|].
  match goal with
  | |- context [Score.min (Score.sum (map ?f ?l)) ?y] =>
      pose proof (sum_of_shares (1 # 10) l ltac:(lra)) as Hs;
      destruct (min_between (Score.sum (map f l)) y Hs ltac:(lra)) as (H0 & _ & H1);
      generalize dependent (Score.min (Score.sum (map f l)) y); intros
  end.
  destruct (between _ _ _); split; lra.
Qed.

Lemma topics_between topics :
  (0 <= _check_key_topics topics /\ _check_key_topics topics <= 1)%Q.
Proof.
  unfold _check_key_topics. destruct topics as [|t ts]; [split; lra|].
  match goal with
  | |- context [Score.min ?x (Score.sum (map ?f ?l))] =>
      pose proof (sum_of_shares (5 # 100) l ltac:(lra)) as Hs;
      destruct (min_between x (Score.sum (map f l)) ltac:(lra) Hs) as (H0 & H1 & _);
      generalize dependent (Score.min x (Score.sum (map f l))); intros
  end.
  destruct (between _ _ _); split; lra.
Qed.

Lemma relevance_between applications :
  (0 <= _check_practical_relevance applications
   /\ _check_practical_relevance applications <= 1)%Q.
Proof.
  unfold _check_practical_relevance.
  destruct applications as [|a l]; [split; lra|].
  match goal with
  | |- context [Score.min ?x (Score.sum (map ?f ?l))] =>
      pose proof (sum_of_shares (15 # 100) l ltac:(lra)) as Hs;
      destruct (min_between x (Score.sum (map f l)) ltac:(lra) Hs) as (H0 & H1 & _);
      generalize dependent (Score.min x (Score.sum (map f l))); intros
  end.
  destruct (_ <=? _); split; lra.
Qed.

(** X9. The report of [ModuleQualityChecker.check_module_quality]. Each
    of the five criteria lies between 0 and 1, so the score lies between
    0 and 100; the module passes exactly when the criteria add up to 4 or
    more; and a field that is missing or empty gives its criterion the
    value 0 and draws the suggestion of that criterion. *)
Theorem module_quality_report_bounds (m : ModuleDict) :
  let r := check_module_quality m in
  Forall (fun q => 0 <= q /\ q <= 1)%Q (values (criteria r))
  /\ (0 <= quality_score r)%Q /\ (quality_score r <= 100)%Q
  /\ (passes_threshold r = true <-> (4 <= Score.sum (values (criteria r)))%Q)
  /\ (get_string (module_title m) = "" ->
      title_quality (criteria r) = 0%Q
      /\ In "Make the title more action-oriented and specific about what learners will achieve."
            (improvement_suggestions r))
  /\ (get_string (module_description m) = "" ->
      description_quality (criteria r) = 0%Q
      /\ In "Enhance the description with more specific details about technologies and skills covered."
            (improvement_suggestions r))
  /\ (get_list (learning_objectives m) = [] ->
      learning_objectives_quality (criteria r) = 0%Q
      /\ In "Improve learning objectives using specific, measurable action verbs from Bloom's taxonomy."
            (improvement_suggestions r))
  /\ (get_list (key_topics m) = [] ->
      key_topics_quality (criteria r) = 0%Q
      /\ In "Expand key topics to be more comprehensive and specific."
            (improvement_suggestions r))
  /\ (get_list (practical_applications m) = [] ->
      practical_relevance (criteria r) = 0%Q
      /\ In "Add more industry-relevant practical applications with specific examples."
            (improvement_suggestions r)).
Proof.
  cbv zeta. unfold check_module_quality.
  cbn [criteria quality_score passes_threshold improvement_suggestions].
  unfold module_criteria, values.
  cbn [title_quality description_quality learning_objectives_quality
       key_topics_quality practical_relevance length].
  pose proof (title_between (get_string (module_title m))) as [Ht0 Ht1].
  pose proof (description_between (get_string (module_description m))) as [Hd0 Hd1].
  pose proof (objectives_between (get_list (learning_objectives m))) as [Ho0 Ho1].
  pose proof (topics_between (get_list (key_topics m))) as [Hk0 Hk1].
  pose proof (relevance_between (get_list (practical_applications m))) as [Hp0 Hp1].
  unfold _generate_improvement_suggestions.
  cbn [title_quality description_quality learning_objectives_quality
       key_topics_quality practical_relevance].
  set (t := _check_title_quality (get_string (module_title m))) in *.
  set (d := _check_description_quality (get_string (module_description m))) in *.
  set (o := _check_learning_objectives (get_list (learning_objectives m))) in *.
  set (k := _check_key_topics (get_list (key_topics m))) in *.
  set (p := _check_practical_relevance (get_list (practical_applications m))) in *.
  unfold Score.sum. cbn [fold_left].
  change (inject_Z (Z.of_nat 5)) with 5%Q.
  unfold Qdiv. change (/ 5)%Q with (1 # 5)%Q.
  split; [repeat constructor; assumption|].
  assert (Hscore : (0 <= (0 + t + d + o + k + p) * (1 # 5) * 100
                    /\ (0 + t + d + o + k + p) * (1 # 5) * 100 <= 100)%Q).
  { split; lra. }
  destruct (round2_between _ (proj1 Hscore) (proj2 Hscore)) as [Hr0 Hr1].
  split; [exact Hr0|]. split; [exact Hr1|].
  split.
  { unfold Score.geb. rewrite Qle_bool_iff. split; intros H; lra. }
  unfold suggest, Score.ltb.
  repeat split;
    try (unfold t, d, o, k, p;
         match goal with H : _ = _ |- _ => rewrite H end; reflexivity);
    unfold t, d, o, k, p in *;
    match goal with H : _ = _ |- _ => rewrite H end;
    cbn [_check_title_quality String.eqb _check_description_quality
         _check_learning_objectives _check_key_topics _check_practical_relevance];
    change (Qle_bool (7 # 10) 0) with false; cbn [negb];
    repeat match goal with
           | |- context [if ?b then _ else _] => destruct b
           end;
    repeat (apply in_or_app; first [right; now left | left]).
Qed.

End ModuleScores.

(* ===================================================================== *)
(** * More on the generation pipeline *)
(* ===================================================================== *)

Module DescriptionStage.
Import PyStr Effects Pipeline EffectsFacts PipelineFacts Samples.
Local Open Scope effect_scope.

(** ** One line *)

Lemma join_lines_chars (s : string) (c : ascii) :
  In c (list_ascii_of_string (join " " (split_on LF s))) ->
  c = " "%char \/ (In c (list_ascii_of_string s) /\ c <> LF).
Proof.
  unfold join. induction s as [|a s IH]; [intros []|].
  simpl split_on. destruct (Ascii.eqb a LF) eqn:E.
  - destruct (split_on LF s) as [|w ws] eqn:S;
      [now apply MarkdownFacts.split_on_nonempty in S|].
    change (String.concat " " ("" :: w :: ws))
      with (String " " (String.concat " " (w :: ws))).
    cbn [list_ascii_of_string In]. intros [<-|H]; [now left|].
    destruct (IH H) as [->|[H1 H2]]; auto.
  - destruct (split_on LF s) as [|w ws] eqn:S;
      [now apply MarkdownFacts.split_on_nonempty in S|].
    assert (Hc : String.concat " " (String a w :: ws)
                 = String a (String.concat " " (w :: ws)))
      by (destruct ws; reflexivity).
    rewrite Hc. cbn [list_ascii_of_string In]. intros [<-|H].
    + right. split; [now left|]. intros ->. now rewrite Ascii.eqb_refl in E.
    + destruct (IH H) as [->|[H1 H2]]; auto.
Qed.

Lemma remove_char_chars (ch : ascii) (s : string) (c : ascii) :
  In c (list_ascii_of_string (remove_char ch s)) ->
  In c (list_ascii_of_string s) /\ c <> ch.
Proof.
  induction s as [|a s IH]; [intros []|]. simpl.
  destruct (Ascii.eqb a ch) eqn:E.
  - intros H. destruct (IH H). auto.
  - cbn [list_ascii_of_string In]. intros [<-|H].
    + split; [now left|]. intros ->. now rewrite Ascii.eqb_refl in E.
    + destruct (IH H). auto.
Qed.

Lemma single_line_chars (d : string) (c : ascii) :
  In c (list_ascii_of_string (single_line d)) -> c <> LF /\ c <> CR.
Proof.
  unfold single_line. intros H.
  apply join_lines_chars in H as [->|[H Hlf]]; [split; discriminate|].
  apply remove_char_chars in H as [_ Hcr]. auto.
Qed.

(** ** The check and the improvement *)

(** A description below the threshold has a criterion that is not
    marked as good. *)
Lemma failed_description_has_feedback (d : string) :
  DescriptionQuality.passes_threshold
    (DescriptionQuality.check_description_quality d) = false ->
  DescriptionQuality.all_good
    (DescriptionQuality.feedback (DescriptionQuality.check_description_quality d))
  = false.
Proof.
  unfold DescriptionQuality.check_description_quality,
    DescriptionQuality.overall_score, DescriptionQuality.all_good,
    DescriptionQuality.remark, DescriptionQuality.length_score,
    DescriptionQuality.marketing_score, DescriptionQuality.specificity_score,
    DescriptionQuality.component.
  cbn [DescriptionQuality.passes_threshold DescriptionQuality.feedback
       DescriptionQuality.length_feedback
       DescriptionQuality.marketing_appeal_feedback
       DescriptionQuality.specificity_feedback].
  destruct (DescriptionQuality.length_ok d),
    (DescriptionQuality.has_marketing_appeal d),
    (DescriptionQuality.has_specificity d); vm_compute; congruence.
Qed.

Section Stage.
Context {ext : External}.

(** X10. The description stage. A description given by the user is
    stored on one line, without carriage return or line feed, and no
    request is sent to the provider. Otherwise one request is sent; if
    it fails, [generate_description] raises [CustomException]; if the
    reply passes the quality check it is stored, cleaned; if not,
    exactly one more request is sent, and its cleaned reply is stored,
    or the first reply if the second request fails. The document
    carries the given identifier, the data of the request, and is
    neither popular nor trending. *)
Theorem generate_description_requests
        (data : AddNewCourse) (unique_id : string) (w : World) :
  let r := generate_description data unique_id w in
  let document :=
    mkCourse unique_id (course_name data) (level data) (image_uri data)
             (created_at data) false false in
  (description data <> "" ->
   r = (Return (document (single_line (description data))), w)
   /\ forall c, In c (list_ascii_of_string (single_line (description data))) ->
                c <> LF /\ c <> CR)
  /\ (description data = "" ->
      match chat_model (llm_calls w) with
      | None =>
          fst r = Raise (CustomException ProviderError)
          /\ llm_calls (snd r) = S (llm_calls w)
      | Some reply =>
          let initial := clean_reply reply in
          if DescriptionQuality.passes_threshold
               (DescriptionQuality.check_description_quality initial)
          then fst r = Return (document initial)
               /\ llm_calls (snd r) = S (llm_calls w)
          else fst r = Return (document
                                 match chat_model (S (llm_calls w)) with
                                 | Some improved => clean_reply improved
                                 | None => initial
                                 end)
               /\ llm_calls (snd r) = S (S (llm_calls w))
      end).
Proof.
  cbv zeta. split.
  - intros Hd. apply String.eqb_neq in Hd.
    split; [|apply single_line_chars].
    unfold generate_description, generate_description_body, try_except, bind.
    rewrite Hd. reflexivity.
  - intros Hd.
    unfold generate_description, generate_description_body, try_except, bind,
      invoke.
    rewrite Hd. cbn [String.eqb negb].
    destruct (chat_model (llm_calls w)) as [reply|]; [|split; reflexivity].
    pose proof (failed_description_has_feedback (clean_reply reply)) as Hf.
    destruct (DescriptionQuality.passes_threshold _); cbn [negb];
      [split; reflexivity|].
    unfold improve_description. rewrite (Hf eq_refl).
    unfold try_except, bind, invoke. cbn [llm_calls log count_llm_call].
    destruct (chat_model (S (llm_calls w))); split; reflexivity.
Qed.

End Stage.

End DescriptionStage.

Module ModuleStage.
Import PyStr Effects PyJson Pipeline EffectsFacts PipelineFacts Steps DictFacts
       StageFacts Samples.
Local Open Scope effect_scope.

Section Stage.
Context {ext : External}.

(** At most two requests are expected for a module. *)
Lemma module_requests_bound (items : list ModuleItem) : forall n,
  length (module_requests items n) <= 2 * length items.
Proof.
  induction items as [|module rest IH]; intros n;
    cbn [module_requests length]; [lia|].
  destruct (check_module_quality _) as [report|e]; [|cbn; lia].
  destruct (needs_improvement report); cbn [length].
  - specialize (IH (S (S n))). lia.
  - specialize (IH (S n)). lia.
Qed.

(** A loop that returns has made a request for every module. *)
Lemma enhance_all_returned (items : list ModuleItem) : forall w ms w',
  enhance_all items w = (Return ms, w') ->
  length items <= length (module_requests items (llm_calls w)).
Proof.
  induction items as [|module rest IH]; intros w ms w' H;
    cbn [module_requests length]; [lia|].
  cbn [enhance_all] in H.
  pose proof (enhance_and_check_outcome module w) as Hs. cbv zeta in Hs.
  destruct (check_module_quality _) as [report|e].
  - destruct (needs_improvement report);
      rewrite (bind_returns _ _ _ _ _ Hs) in H; unfold bind in H;
      match type of H with
      | context [enhance_all rest ?w1] =>
          destruct (enhance_all rest w1) as [[others|e] w2] eqn:E;
          [apply IH in E|discriminate]
      end; cbn [llm_calls log count_llm_call] in E; cbn [length]; lia.
  - rewrite (bind_raises _ _ _ _ _ Hs) in H. discriminate.
Qed.

(** Reading the sample for the log changes nothing; it fails on a first
    module that is no dictionary or has no title, or whose objectives
    cannot be sliced. *)
Lemma log_sample_outcome (ms : list Json) (w : World) :
  snd (log_sample ms w) = w
  /\ match fst (log_sample ms w) with
     | Return _ => True
     | Raise e => interpreter_error e
     end.
Proof.
  destruct ms as [|sample rest]; [split; [reflexivity|exact I]|].
  unfold log_sample, bind, lift.
  destruct (getitem sample "title") as [title|e] eqn:G.
  - destruct (get sample "learning_objectives" (JArray [])) as [objectives|e]
      eqn:O.
    + cbn [fst snd]. split; [reflexivity|].
      destruct objectives; cbn; exact I.
    + destruct sample; cbn in O; inversion O; cbn; split; auto; exact I.
  - cbn [fst snd]. split; [reflexivity|].
    destruct sample as [| | | | | |items]; cbn in G; inversion G;
      try exact I.
    destruct (Dicts.get "title" items); inversion G. exact I.
Qed.

Lemma module_generater_outcome (name : string) (w : World) :
  let r := module_generater name w in
  match curriculum_model (llm_calls w) with
  | None =>
      r = (Raise (CustomException ProviderError),
           log (LlmCall CurriculumStructure) (count_llm_call w))
  | Some out =>
      let requests := module_requests (output_modules out) (S (llm_calls w)) in
      trace (snd r) = trace w ++ LlmCall CurriculumStructure :: requests
      /\ llm_calls (snd r) = S (llm_calls w) + length requests
      /\ ids_drawn (snd r) = ids_drawn w
      /\ match fst r with
         | Return c =>
             course c = output_course out
             /\ duration c = output_duration out
             /\ num_modules c = output_num_modules out
             /\ tools c = output_tools out
             /\ length (curriculum_modules c) = length (output_modules out)
             /\ length (output_modules out) <= length requests
         | Raise e => exists cause, e = CustomException cause
                                    /\ interpreter_error cause
         end
  end.
Proof.
  cbv zeta. unfold module_generater, module_generater_body.
  assert (Hi : invoke curriculum_model CurriculumStructure w
               = (match curriculum_model (llm_calls w) with
                  | Some out => Return out
                  | None => Raise ProviderError
                  end, log (LlmCall CurriculumStructure) (count_llm_call w)))
    by (unfold invoke; now destruct (curriculum_model (llm_calls w))).
  destruct (curriculum_model (llm_calls w)) as [out|].
  2:{ erewrite try_raises; [reflexivity|]. now apply bind_raises. }
  set (w1 := log (LlmCall CurriculumStructure) (count_llm_call w)) in *.
  pose proof (enhance_all_requests (output_modules out) w1) as Hloop.
  cbv zeta in Hloop. destruct Hloop as (Ht & Hc & Hd & Hr).
  change (llm_calls w1) with (S (llm_calls w)) in Ht, Hc.
  change (trace w1) with (trace w ++ [LlmCall CurriculumStructure]) in Ht.
  change (ids_drawn w1) with (ids_drawn w) in Hd.
  rewrite <- app_assoc in Ht. cbn [app] in Ht.
  pose proof (enhance_all_returned (output_modules out) w1) as Hall.
  change (llm_calls w1) with (S (llm_calls w)) in Hall.
  destruct (enhance_all (output_modules out) w1) as [[ms|e] w2] eqn:E;
    cbn [fst snd] in Ht, Hc, Hd, Hr.
  - pose proof (log_sample_outcome ms w2) as (Hs & Hl).
    destruct (log_sample ms w2) as [[u|e] w3] eqn:L; cbn [fst snd] in Hs, Hl;
      subst w3.
    + erewrite try_returns;
        [|rewrite (bind_returns _ _ _ _ _ Hi), (bind_returns _ _ _ _ _ E),
            (bind_returns _ _ _ _ _ L); reflexivity].
      cbn [fst snd course duration num_modules tools curriculum_modules].
      repeat split; try assumption. exact (Hall _ _ eq_refl).
    + erewrite try_raises;
        [|rewrite (bind_returns _ _ _ _ _ Hi), (bind_returns _ _ _ _ _ E);
          apply bind_raises; exact L].
      cbn [fst snd raise]. repeat split; try assumption. eauto.
  - erewrite try_raises;
      [|rewrite (bind_returns _ _ _ _ _ Hi); apply bind_raises; exact E].
    cbn [fst snd raise]. repeat split; try assumption. eauto.
Qed.

(** The module of the document that was given the [k]-th identifier. *)
Let identified (w : World) (module : Json) : Prop :=
  exists items k,
    module = JObject items /\ ids_drawn w <= k
    /\ Dicts.get "module_id" items = Some (JString ("MODULE_" +++ uuid4_hex8 k)).

Lemma assign_module_ids_outcome (ms : list Json) : forall w,
  let r := assign_module_ids ms w in
  trace (snd r) = trace w /\ llm_calls (snd r) = llm_calls w
  /\ ids_drawn w <= ids_drawn (snd r)
  /\ match fst r with
     | Return ms' => length ms' = length ms /\ Forall (identified w) ms'
     | Raise e => interpreter_error e
     end.
Proof.
  induction ms as [|module rest IH]; intros w; cbv zeta.
  - cbn. repeat split; auto.
  - cbn [assign_module_ids].
    rewrite (bind_returns _ _ _ _ _ (eq_refl : unique_id_generator "MODULE" w = _)).
    destruct (setitem module "module_id" _) as [m|e] eqn:Hset.
    + rewrite (bind_returns _ _ _ _ _
                 (eq_refl : lift (Return m) (count_id w) = _)).
      specialize (IH (count_id w)). cbv zeta in IH.
      destruct IH as (Ht & Hc & Hd & Hr).
      unfold bind. destruct (assign_module_ids rest (count_id w))
        as [[others|e] w'] eqn:E; cbn [fst snd ret] in *;
        cbn [ids_drawn count_id] in Hd.
      * repeat split; try assumption; try lia.
        -- destruct Hr as [Hlen _]. cbn [length]. lia.
        -- destruct Hr as [_ Hall]. constructor.
           ++ destruct module as [| | | | | |items]; cbn in Hset;
                inversion Hset.
              exists (Dicts.set "module_id"
                        (JString ("MODULE" +++ "_" +++ uuid4_hex8 (ids_drawn w)))
                        items), (ids_drawn w).
              split; [reflexivity|]. split; [lia|]. apply get_set.
           ++ eapply Forall_impl; [|exact Hall].
              intros a (items & k & -> & Hk & Hg). exists items, k.
              cbn [ids_drawn count_id] in Hk.
              split; [reflexivity|]. split; [lia|exact Hg].
      * repeat split; try assumption; lia.
    + rewrite (bind_raises _ _ _ _ _
                 (eq_refl : lift (Raise e) (count_id w) = _)).
      cbn [fst snd]. repeat split; [cbn; lia|].
      destruct module; cbn in Hset; inversion Hset; exact I.
Qed.

(** [generate_module], step by step. *)
Lemma generate_module_steps (data : CourseDoc) (w : World) :
  generate_module data w
  = match module_generater (doc_course_name data) w with
    | (Return response, w1) =>
        match assign_module_ids (curriculum_modules response) w1 with
        | (Return ms, w2) =>
            (Return (GeneratedModules
                       (mkModulesDoc (doc_course_id data) (doc_level data)
                          (mkCurriculum (course response) (duration response)
                             (num_modules response) (tools response) ms))),
             w2)
        | (Raise e, w2) => (Return (ReturnedException (CustomException e)), w2)
        end
    | (Raise e, w1) => (Return (ReturnedException (CustomException e)), w1)
    end.
Proof.
  unfold generate_module, try_except, bind.
  destruct (module_generater _ w) as [[response|e] w1]; [|reflexivity].
  destruct (assign_module_ids _ w1) as [[ms|e] w2]; reflexivity.
Qed.


End Stage.

End ModuleStage.

Module ModuleStageExamples.
Import PyStr Effects PyJson Pipeline ModuleStage Samples.


End ModuleStageExamples.

Module LessonStage.
Import PyStr Effects PyJson Pipeline EffectsFacts PipelineFacts PipelineClaims Steps
       StageFacts Samples.
Local Open Scope effect_scope.

(** What the stage keeps of a lesson: identifier, type and outline. *)
Lemma expand_keeps rewrites (lesson : LessonItem) (response : option string) :
  let l := Markdown.expand_lesson_content rewrites lesson response in
  lesson_id l = lesson_id lesson /\ type l = type lesson
  /\ title l = title lesson /\ outline l = outline lesson.
Proof.
  cbv zeta. unfold Markdown.expand_lesson_content.
  destruct response; [|repeat split].
  unfold set_content. cbn [type]. destruct (type lesson); repeat split.
Qed.

Lemma dereference_ids (objects : list LessonItem) (wanted : list string) :
  Forall (fun i => In i (map lesson_id objects)) wanted ->
  map lesson_id
      (dereference objects (map (fun i => find_lesson i objects) wanted))
  = wanted.
Proof.
  induction 1 as [|i wanted Hi _ IH]; [reflexivity|].
  cbn [map dereference flat_map].
  change (flat_map _ (map (fun i => find_lesson i objects) wanted))
    with (dereference objects (map (fun i => find_lesson i objects) wanted)).
  destruct (find_lesson i objects) as [n|] eqn:F;
    [|now apply find_lesson_in in Hi].
  destruct (find_lesson_nth _ _ _ F) as (l & -> & Hl).
  cbn [app map]. now rewrite IH, Hl.
Qed.

Lemma find_lesson_fresh (wanted : string) (pre rest : list LessonItem) :
  ~ In wanted (map lesson_id pre) ->
  find_lesson wanted (pre ++ rest)
  = option_map (Nat.add (length pre)) (find_lesson wanted rest).
Proof.
  induction pre as [|p pre IH]; intros Hn; cbn [app find_lesson length].
  - now destruct (find_lesson wanted rest).
  - cbn [map In] in Hn.
    destruct (String.eqb (lesson_id p) wanted) eqn:E;
      [apply String.eqb_eq in E; tauto|].
    rewrite IH by tauto. now destruct (find_lesson wanted rest).
Qed.

(** With distinct identifiers every lesson is found at its own place. *)
Lemma dereference_own (rest : list LessonItem) : forall pre,
  NoDup (map lesson_id (pre ++ rest)) ->
  dereference (pre ++ rest)
              (map (fun i => find_lesson i (pre ++ rest)) (map lesson_id rest))
  = rest.
Proof.
  induction rest as [|l rest IH]; intros pre Hnd; [reflexivity|].
  cbn [map dereference flat_map].
  change (flat_map _ (map ?f (map lesson_id rest)))
    with (dereference (pre ++ l :: rest) (map f (map lesson_id rest))).
  assert (Hfresh : ~ In (lesson_id l) (map lesson_id pre)).
  { rewrite map_app in Hnd. cbn [map] in Hnd.
    apply NoDup_remove_2 in Hnd. rewrite in_app_iff in Hnd. tauto. }
  rewrite (find_lesson_fresh _ _ _ Hfresh). cbn [find_lesson].
  rewrite String.eqb_refl. cbn [option_map]. rewrite Nat.add_0_r.
  rewrite nth_error_app2, Nat.sub_diag by lia. cbn [nth_error app].
  f_equal. specialize (IH (pre ++ [l])).
  rewrite <- app_assoc in IH. cbn [app] in IH. now apply IH.
Qed.

Section Stage.
Context {ext : External}.

Let kept (old new : LessonItem) : Prop :=
  lesson_id new = lesson_id old /\ type new = type old
  /\ outline new = outline old.

Lemma apply_improvement_keeps lesson f : kept lesson (apply_improvement lesson f).
Proof.
  unfold kept, apply_improvement, set_exercise, set_content, set_title.
  destruct (improved_title f), (improved_content f);
    cbn [type lesson_id outline];
    destruct (type lesson) eqn:T; cbn [type lesson_id outline]; auto.
Qed.

Lemma improve_lesson_keeps lesson evaluation w :
  exists l w', improve_lesson lesson evaluation w = (Return l, w')
               /\ kept lesson l /\ ids_drawn w' = ids_drawn w.
Proof.
  unfold improve_lesson.
  destruct (LessonQuality.passes_threshold evaluation);
    [exists lesson, w; repeat split|].
  destruct (LessonQuality.improvement_suggestions evaluation);
    [exists lesson, w; repeat split|].
  unfold try_except, bind, invoke.
  destruct (chat_model (llm_calls w)); cbn; eexists _, _;
    (split; [reflexivity|]); split; try reflexivity;
    try apply apply_improvement_keeps; repeat split.
Qed.

Lemma replace_at_kept i x objects objects0 l :
  Forall2 kept objects0 objects ->
  nth_error objects i = Some l -> kept l x ->
  Forall2 kept objects0 (replace_at i x objects).
Proof.
  intros H. revert i.
  induction H as [|o0 o l0 l' Ho Hrest IH]; intros [|i] E Hx; cbn in *;
    try discriminate.
  - injection E as ->. constructor; [|assumption].
    unfold kept in *. intuition congruence.
  - constructor; [assumption|]. now apply IH.
Qed.

Lemma kept_ids objects0 objects :
  Forall2 kept objects0 objects -> map lesson_id objects = map lesson_id objects0.
Proof.
  induction 1 as [|a b l l' (H & _) _ IH]; [reflexivity|].
  cbn. now rewrite H, IH.
Qed.

(** The loop never raises; it changes lessons in place and records
    where it found the lesson of each evaluation. *)
Lemma improve_each_returns (evaluations : list LessonQuality.Evaluation) :
  forall objects0 objects improved w,
    Forall2 kept objects0 objects ->
    Forall (fun ev => In (LessonQuality.evaluated_lesson_id ev)
                         (map lesson_id objects0)) evaluations ->
    exists objects' w',
      improve_each evaluations objects improved w
      = (Return (objects',
                 improved
                   ++ map (fun i => find_lesson i objects0)
                          (map LessonQuality.evaluated_lesson_id evaluations)),
         w')
      /\ Forall2 kept objects0 objects' /\ ids_drawn w' = ids_drawn w.
Proof.
  induction evaluations as [|ev rest IH];
    intros objects0 objects improved w Hk Hin.
  - exists objects, w. cbn. rewrite app_nil_r. auto.
  - inversion Hin as [|? ? Hid Hin']; subst. cbn [improve_each map].
    pose proof (kept_ids _ _ Hk) as Hids.
    rewrite (find_lesson_ids _ _ _ Hids).
    destruct (find_lesson _ objects0) as [i|] eqn:F;
      [|now apply find_lesson_in in Hid].
    rewrite <- (find_lesson_ids _ _ _ Hids) in F.
    destruct (find_lesson_nth _ _ _ F) as (l & Hl & _). rewrite Hl.
    replace (improved ++ Some i :: map (fun i0 => find_lesson i0 objects0)
                        (map LessonQuality.evaluated_lesson_id rest))
      with ((improved ++ [Some i])
              ++ map (fun i0 => find_lesson i0 objects0)
                     (map LessonQuality.evaluated_lesson_id rest))
      by now rewrite <- app_assoc.
    destruct (negb (LessonQuality.passes_threshold ev)).
    + destruct (improve_lesson_keeps l ev w) as (l' & w1 & Hr & Hkept & Hi).
      rewrite (bind_returns _ _ _ _ _ Hr).
      destruct (IH objects0 (replace_at i l' objects) (improved ++ [Some i]) w1
                   (replace_at_kept _ _ _ _ _ Hk Hl Hkept) Hin')
        as (objects' & w' & -> & Hk' & Hi').
      exists objects', w'. repeat split; [assumption|congruence].
    + apply IH; assumption.
Qed.

Lemma kept_refl objects : Forall2 kept objects objects.
Proof. induction objects; constructor; [repeat split|assumption]. Qed.

Lemma check_and_improve_returns (module : ModuleLessonContent) (w : World) :
  exists checked w',
    _check_and_improve_module_quality module w = (Return checked, w')
    /\ ids_drawn w' = ids_drawn w
    /\ lessons_module_id checked = lessons_module_id module
    /\ map lesson_id (lessons checked) = map lesson_id (lessons module)
    /\ (NoDup (map lesson_id (lessons module)) ->
        Forall2 kept (lessons module) (lessons checked)).
Proof.
  unfold _check_and_improve_module_quality.
  assert (Hin : Forall (fun ev => In (LessonQuality.evaluated_lesson_id ev)
                                     (map lesson_id (lessons module)))
                       (lesson_evaluations (lessons module))).
  { unfold lesson_evaluations. apply Forall_map, Forall_forall.
    intros l Hl. cbn. now apply in_map. }
  destruct (improve_each_returns _ (lessons module) (lessons module) [] w
              (kept_refl _) Hin) as (objects' & w' & Hr & Hk & Hi).
  erewrite try_returns; [|rewrite (bind_returns _ _ _ _ _ Hr); reflexivity].
  eexists _, _. split; [reflexivity|]. cbn [fst snd lessons lessons_module_id app].
  assert (Hev : map LessonQuality.evaluated_lesson_id
                    (lesson_evaluations (lessons module))
                = map lesson_id (lessons module)).
  { unfold lesson_evaluations. rewrite map_map. reflexivity. }
  rewrite Hev. pose proof (kept_ids _ _ Hk) as Hids.
  assert (Hfind : map (fun i => find_lesson i (lessons module))
                      (map lesson_id (lessons module))
                  = map (fun i => find_lesson i objects')
                        (map lesson_id objects')).
  { rewrite Hids. apply map_ext. intros i. symmetry.
    now apply find_lesson_ids. }
  rewrite Hfind.
  repeat split; [exact Hi| |].
  - rewrite dereference_ids; [exact Hids|].
    apply Forall_forall. auto.
  - intros Hnd. rewrite <- Hids in Hnd.
    pose proof (dereference_own objects' [] Hnd) as Hown.
    cbn [app] in Hown. rewrite Hown. exact Hk.
Qed.

(** X12. [_check_and_improve_module_quality] never raises and neither
    drops nor adds a lesson: the module it returns has the module
    identifier and, in order, the lesson identifiers of the module it
    was given. When these identifiers are pairwise distinct, every
    lesson is in its place, with its identifier, type and outline. *)
Theorem check_and_improve_keeps_the_lessons
        (module : ModuleLessonContent) (w : World) :
  exists checked,
    fst (_check_and_improve_module_quality module w) = Return checked
    /\ ids_drawn (snd (_check_and_improve_module_quality module w))
       = ids_drawn w
    /\ lessons_module_id checked = lessons_module_id module
    /\ map lesson_id (lessons checked) = map lesson_id (lessons module)
    /\ (NoDup (map lesson_id (lessons module)) ->
        Forall2 (fun old new =>
                   lesson_id new = lesson_id old /\ type new = type old
                   /\ outline new = outline old)
                (lessons module) (lessons checked)).
Proof.
  destruct (check_and_improve_returns module w)
    as (checked & w' & -> & Hi & Hm & Hids & Hk).
  exists checked. cbn [fst snd]. auto.
Qed.

(** ** The whole stage *)

Let drawn (l : LessonItem) : Prop :=
  exists k, lesson_id l = "LESSON_" +++ uuid4_hex8 k.

Lemma assign_lesson_ids_returns (ls : list LessonItem) : forall w,
  exists ls' w',
    assign_lesson_ids ls w = (Return ls', w')
    /\ length ls' = length ls /\ Forall drawn ls'.
Proof.
  induction ls as [|l rest IH]; intros w.
  - exists [], w. repeat split. constructor.
  - cbn [assign_lesson_ids].
    rewrite (bind_returns _ _ _ _ _ (eq_refl : unique_id_generator "LESSON" w = _)).
    destruct (IH (count_id w)) as (ls' & w' & Hr & Hlen & Hall).
    rewrite (bind_returns _ _ _ _ _ Hr).
    eexists _, w'. split; [reflexivity|]. cbn [length].
    split; [lia|]. constructor; [|exact Hall].
    exists (ids_drawn w). reflexivity.
Qed.

Lemma expand_all_returns (ls : list LessonItem) : forall w,
  exists ls' w',
    expand_all ls w = (Return ls', w')
    /\ map lesson_id ls' = map lesson_id ls.
Proof.
  induction ls as [|l rest IH]; intros w.
  - exists [], w. split; reflexivity.
  - cbn [expand_all].
    assert (He : exists l' w1, expand_lesson_content l w = (Return l', w1)
                               /\ lesson_id l' = lesson_id l).
    { unfold expand_lesson_content, try_except, bind, invoke.
      destruct (chat_model (llm_calls w)); cbv beta iota; unfold ret;
        eexists _, _; (split; [reflexivity|]);
        apply (expand_keeps markdown_rewrites l). }
    destruct He as (l' & w1 & He & Hid).
    rewrite (bind_returns _ _ _ _ _ He).
    destruct (IH w1) as (ls' & w' & Hr & Hids).
    rewrite (bind_returns _ _ _ _ _ Hr).
    eexists _, w'. split; [reflexivity|]. cbn [map]. now rewrite Hid, Hids.
Qed.

Lemma drawn_ids (ls ls' : list LessonItem) :
  map lesson_id ls' = map lesson_id ls -> Forall drawn ls -> Forall drawn ls'.
Proof.
  revert ls'. induction ls as [|l ls IH]; intros [|l' ls'] H Hd;
    try discriminate; constructor; inversion Hd as [|? ? (k & Hk) Hrest]; subst;
    injection H as Hid Hids.
  - exists k. congruence.
  - now apply IH.
Qed.

(** The modules the lesson stage can read: dictionaries with a title, a
    description and an identifier, whose level, if they have one, is a
    string. *)
Let complete (module : Json) : Prop :=
  exists items,
    module = JObject items
    /\ Dicts.get "title" items <> None
    /\ Dicts.get "description" items <> None
    /\ Dicts.get "module_id" items <> None
    /\ (Dicts.get "level" items = None
        \/ exists s, Dicts.get "level" items = Some (JString s)).

Lemma readable_complete (module : Json) : readable module <-> complete module.
Proof.
  unfold readable, read_module_keys, complete.
  destruct module as [| | | | | |items];
    try (split; [discriminate|intros (items & E & _); discriminate]).
  unfold get, getitem, get_or, lower_of, receiver, and_then. split.
  - intros H. exists items. split; [reflexivity|].
    destruct (Dicts.get "level" items) as [[]|];
      try discriminate;
      (destruct (Dicts.get "title" items); [|discriminate]);
      (destruct (Dicts.get "description" items); [|discriminate]);
      (destruct (Dicts.get "module_id" items); [|discriminate]);
      repeat split; try discriminate; eauto.
  - intros (items' & E & Ht & Hd & Hi & Hl). injection E as <-.
    destruct (Dicts.get "title" items); [|contradiction].
    destruct (Dicts.get "description" items); [|contradiction].
    destruct (Dicts.get "module_id" items); [|contradiction].
    destruct Hl as [->|(s & ->)]; reflexivity.
Qed.

Lemma getitem_error (module : Json) (key : string) (e : Exn) :
  getitem module key = Raise e -> interpreter_error e.
Proof.
  destruct module as [| | | | | |items]; cbn; intros H; inversion H;
    try exact I.
  destruct (Dicts.get key items); inversion H. exact I.
Qed.

Lemma read_module_keys_error (module : Json) (e : Exn) :
  read_module_keys module = Raise e -> interpreter_error e.
Proof.
  unfold read_module_keys, and_then.
  destruct (get module "level" (JString "")) as [level|e0] eqn:L.
  2:{ intros H. injection H as <-.
      destruct module; cbn in L; inversion L; exact I. }
  destruct (lower_of level) as [lowered|e0] eqn:W.
  2:{ intros H. injection H as <-. unfold lower_of, and_then in W.
      destruct (receiver "lower" level) eqn:R; [discriminate|].
      injection W as <-. now apply receiver_error in R. }
  repeat match goal with
         | |- match getitem ?m ?k with _ => _ end = _ -> _ =>
             let G := fresh "G" in
             destruct (getitem m k) eqn:G;
             [|intros H; injection H as <-; now apply getitem_error in G]
         end.
  discriminate.
Qed.

(** A level that is no string has no method [lower]. *)
Lemma read_level_error (items : Dicts.Dict Json) (level : Json) :
  Dicts.get "level" items = Some level ->
  (forall s, level <> JString s) ->
  exists what, read_module_keys (JObject items) = Raise (AttributeError what).
Proof.
  intros Hl Hs. unfold read_module_keys, get, get_or, lower_of, and_then.
  rewrite Hl.
  destruct level; try (eexists; reflexivity). now destruct (Hs s).
Qed.

Lemma generate_lesson_outlines_outcome (module : Json) (w : World) :
  match fst (generate_lesson_outlines module w) with
  | Return outline_of_module =>
      readable module /\ Forall drawn (lessons outline_of_module)
  | Raise e =>
      (read_module_keys module = Raise e /\ generate_lesson_outlines module w
                                            = (Raise e, w))
      \/ (e = ProviderError /\ readable module)
  end.
Proof.
  unfold generate_lesson_outlines, readable.
  destruct (read_module_keys module) as [[]|e] eqn:R.
  2:{ rewrite (bind_raises _ _ _ _ _ (eq_refl : lift (Raise e) w = _)).
      cbn [fst]. left. split; reflexivity. }
  rewrite (bind_returns _ _ _ _ _ (eq_refl : lift (Return tt) w = _)).
  unfold bind at 1, invoke.
  destruct (outline_model (llm_calls w)) as [result|]; [|cbn; right; auto].
  destruct (assign_lesson_ids_returns (lessons result)
              (log (LlmCall LessonOutlines) (count_llm_call w)))
    as (ls' & w' & Hr & _ & Hall).
  rewrite (bind_returns _ _ _ _ _ Hr). cbn. auto.
Qed.

(** A first module that cannot be read stops the loop before any
    request. *)
Lemma lessons_for_modules_unreadable (module : Json) (rest : list Json)
      (w : World) :
  ~ readable module ->
  exists e,
    lessons_for_modules (module :: rest) w = (Raise e, w)
    /\ interpreter_error e
    /\ forall items level,
         module = JObject items -> Dicts.get "title" items <> None ->
         Dicts.get "level" items = Some level ->
         (forall s, level <> JString s) ->
         exists what, e = AttributeError what.
Proof.
  intros Hn. cbn [lessons_for_modules].
  destruct (getitem module "title") as [title|e] eqn:G.
  - rewrite (bind_returns _ _ _ _ _ (eq_refl : lift (Return title) w = _)).
    pose proof (generate_lesson_outlines_outcome module w) as Ho.
    destruct (generate_lesson_outlines module w) as [[o|e] w1] eqn:E;
      cbn [fst] in Ho; [now destruct Ho|].
    destruct Ho as [(Hr & Hw)|(_ & Hr)]; [|contradiction].
    injection Hw as <-. exists e. split; [now apply bind_raises|].
    split; [now apply read_module_keys_error in Hr|].
    intros items level -> _ Hl Hs.
    destruct (read_level_error items level Hl Hs) as (what & Hwhat).
    exists what. congruence.
  - exists e.
    rewrite (bind_raises _ _ _ _ _ (eq_refl : lift (Raise e) w = _)).
    split; [reflexivity|]. split; [now apply getitem_error in G|].
    intros items level -> Ht. cbn in G.
    destruct (Dicts.get "title" items); [discriminate|contradiction].
Qed.

Lemma lessons_for_modules_outcome (ms : list Json) : forall w,
  match fst (lessons_for_modules ms w) with
  | Return results =>
      length results = length ms
      /\ Forall readable ms
      /\ Forall (fun m => Forall drawn (lessons m)) results
  | Raise e =>
      (interpreter_error e /\ ~ Forall readable ms)
      \/ (e = ProviderError /\ ms <> [])
  end.
Proof.
  induction ms as [|module rest IH]; intros w.
  - cbn. repeat split; constructor.
  - assert (Hdec : readable module \/ ~ readable module).
    { unfold readable. destruct (read_module_keys module) as [[]|e]; auto.
      right. discriminate. }
    destruct Hdec as [Hm|Hn].
    2:{ destruct (lessons_for_modules_unreadable module rest w Hn)
          as (e & -> & He & _).
        cbn [fst]. left. split; [exact He|].
        intros H. inversion H. contradiction. }
    cbn [lessons_for_modules].
    destruct (readable_title module Hm) as (title & Ht).
    rewrite Ht.
    rewrite (bind_returns _ _ _ _ _ (eq_refl : lift (Return title) w = _)).
    pose proof (generate_lesson_outlines_outcome module w) as Ho.
    destruct (generate_lesson_outlines module w) as [[o|e] w1] eqn:E;
      cbn [fst snd] in Ho.
    2:{ rewrite (bind_raises _ _ _ _ _ E). cbn [fst].
        destruct Ho as [(Hr & _)|[-> _]]; [|right].
        - unfold readable in Hm. congruence.
        - split; [reflexivity|discriminate]. }
    destruct Ho as [_ Hd].
    rewrite (bind_returns _ _ _ _ _ E).
    destruct (expand_all_returns (lessons o) w1) as (ls' & w2 & Hr & Hids).
    rewrite (bind_returns _ _ _ _ _ Hr).
    destruct (check_and_improve_returns
                (mkModuleLessons (lessons_module_id o) ls') w2)
      as (checked & w3 & Hch & _ & _ & Hids' & _).
    rewrite (bind_returns _ _ _ _ _ Hch).
    specialize (IH w3). unfold bind.
    destruct (lessons_for_modules rest w3) as [[others|e] w4]; cbn [fst] in *.
    + destruct IH as (Hlen & Hall & Hdrawn). unfold ret. cbn [fst length].
      split; [lia|]. split; [now constructor|].
      constructor; [|exact Hdrawn].
      apply (drawn_ids (lessons o)); [|exact Hd].
      cbn [lessons] in Hids'. congruence.
    + cbn [fst]. destruct IH as [(He & Hn)|[-> Hne]]; [left|right].
      * split; [exact He|]. intros H. inversion H. contradiction.
      * split; [reflexivity|discriminate].
Qed.

Lemma Forall_readable_complete (ms : list Json) :
  Forall readable ms <-> Forall complete ms.
Proof.
  split; intros H; (eapply Forall_impl; [|exact H]); intros m;
    apply readable_complete.
Qed.

(** X13. The lesson stage. [generate_lessons_for_each_module] raises
    for two reasons only. One is a module it cannot read, which gives
    an error of the interpreter: a module that is no dictionary
    ([TypeError]) or has no [title], [description] or [module_id]
    ([KeyError]), or whose [level] is no string ([AttributeError], as
    [module.get('level', '').lower()] is the first thing
    [generate_lesson_outlines] does). The other is an outline request
    that fails. Neither a failed expansion nor a failed improvement
    stops it. A module that cannot be read makes the stage raise
    whatever the provider does, and the first one does so before any
    request is sent. When the stage returns, the document carries the
    course identifier, one entry for each module, in order, and every
    lesson has an identifier [LESSON_] followed by eight digits drawn
    for it; and it returns when every module can be read and every
    outline request is answered. *)
Theorem generate_lessons_outcome
        (ms : list Json) (course_id : string) (w : World) :
  let complete module :=
    exists items,
      module = JObject items
      /\ Dicts.get "title" items <> None
      /\ Dicts.get "description" items <> None
      /\ Dicts.get "module_id" items <> None
      /\ (Dicts.get "level" items = None
          \/ exists s, Dicts.get "level" items = Some (JString s)) in
  match fst (generate_lessons_for_each_module ms course_id w) with
  | Return document =>
      lessons_course_id document = course_id
      /\ length (lesson_modules document) = length ms
      /\ Forall complete ms
      /\ Forall (fun m =>
                   Forall (fun l => exists k,
                               lesson_id l = "LESSON_" +++ uuid4_hex8 k)
                          (lessons m))
                (lesson_modules document)
  | Raise e =>
      (interpreter_error e /\ ~ Forall complete ms)
      \/ (e = ProviderError /\ ms <> [])
  end
  /\ (forall module rest,
         ~ complete module ->
         exists e,
           generate_lessons_for_each_module (module :: rest) course_id w
           = (Raise e, w)
           /\ interpreter_error e
           /\ forall items level,
                module = JObject items -> Dicts.get "title" items <> None ->
                Dicts.get "level" items = Some level ->
                (forall s, level <> JString s) ->
                exists what, e = AttributeError what)
  /\ (Forall complete ms -> (forall n, outline_model n <> None) ->
      exists document,
        fst (generate_lessons_for_each_module ms course_id w) = Return document).
Proof.
  cbv zeta. fold complete. unfold generate_lessons_for_each_module.
  split; [|split].
  - unfold bind. pose proof (lessons_for_modules_outcome ms w) as H.
    pose proof (Forall_readable_complete ms) as [Hrc Hcr].
    destruct (lessons_for_modules ms w) as [[results|e] w']; cbn [fst] in *.
    + unfold ret. cbn [fst lessons_course_id lesson_modules].
      destruct H as (Hlen & Hall & Hdrawn). auto.
    + destruct H as [(He & Hn)|H]; [left|right; exact H].
      split; [exact He|]. intros Hc. apply Hn, Hcr, Hc.
  - intros module rest Hn. rewrite <- readable_complete in Hn.
    destruct (lessons_for_modules_unreadable module rest w Hn)
      as (e & Hr & He & Hl).
    exists e. split; [now apply bind_raises|]. auto.
  - intros Hall Hout. rewrite <- Forall_readable_complete in Hall.
    destruct (lessons_for_modules_readable ms Hall Hout w)
      as (results & w' & Hr & _).
    rewrite (bind_returns _ _ _ _ _ Hr). eexists. reflexivity.
Qed.

End Stage.

End LessonStage.

Module LessonStageExamples.
Import PyStr Effects PyJson Pipeline LessonStage Samples.

(** A level that is a number, a missing description and a list stop
    the stage; a module with the three keys goes through. *)
Lemma generate_lessons_outcome_witness :
  fst (@generate_lessons_for_each_module answering [levelled_module] "COURSE_1"
         empty_world)
  = Raise (AttributeError "'int' object has no attribute 'lower'")
  /\ fst (@generate_lessons_for_each_module answering [untold_module] "COURSE_1"
            empty_world)
     = Raise (KeyError "description")
  /\ fst (@generate_lessons_for_each_module answering [JArray []] "COURSE_1"
            empty_world)
     = Raise (TypeError "list indices must be integers or slices, not str")
  /\ exists document,
       fst (@generate_lessons_for_each_module answering [basics_module]
              "COURSE_1" empty_world) = Return document.
Proof.
  split; [vm_compute; reflexivity|]. split; [vm_compute; reflexivity|].
  split; [vm_compute; reflexivity|].
  destruct (@generate_lessons_outcome answering [basics_module] "COURSE_1"
              empty_world) as (_ & _ & H).
  apply H.
  - constructor; [|constructor]. eexists. split; [reflexivity|].
    repeat split; try discriminate. now left.
  - intros n. discriminate.
Defined.

End LessonStageExamples.

Module CourseStage.
Import PyStr Effects Pipeline EffectsFacts PipelineFacts PipelineClaims Steps Samples.
Local Open Scope effect_scope.

Section Stage.
Context {ext : External}.

(** The names of the course documents of a collection. *)
Let names (docs : list Document) : list string :=
  flat_map (fun d => match d with
                     | CourseDocument c => [doc_course_name c]
                     | _ => []
                     end) docs.

Lemma names_taken (name : string) (docs : list Document) :
  existsb (names_course name) docs = true <-> In name (names docs).
Proof.
  induction docs as [|d docs IH]; cbn; [split; [discriminate|tauto]|].
  rewrite orb_true_iff, in_app_iff, IH.
  destruct d as [c| |]; cbn; [|split; intros [H|H]; tauto || discriminate..].
  rewrite String.eqb_eq. intuition.
Qed.

Lemma names_app (a b : list Document) : names (a ++ b) = names a ++ names b.
Proof. unfold names. apply flat_map_app. Qed.

(** A run for a name that is taken. *)
Lemma taken_name_run (data : AddNewCourse) (w : World) :
  existsb (names_course (course_name data)) (courses_collection w) = true ->
  collections (snd (generate_course data w)) = collections w
  /\ (mongo_available (db_requests w) = true ->
      fst (generate_course data w)
      = Return (Message (already_exists (course_name data)))).
Proof.
  intros Hexists. apply find_named in Hexists as [d Hd].
  unfold generate_course, generate_course_body, try_except, bind, find_one.
  destruct (mongo_available (db_requests w)); cbn [collection].
  - rewrite Hd. cbn. split; reflexivity.
  - cbn. split; [reflexivity|discriminate].
Qed.

(** A run for a free name returns only at its end. *)
Lemma free_name_result (data : AddNewCourse) (w : World) (response : Response) :
  existsb (names_course (course_name data)) (courses_collection w) = false ->
  fst (generate_course data w) = Return response -> response = Updated.
Proof.
  intros E H. unfold generate_course, generate_course_body in H.
  apply try_return_inv in H. apply bind_return_inv in H as (existing & w1 & Hf & H).
  assert (Hnone : existing = None).
  { unfold find_one in Hf. destruct (mongo_available (db_requests w));
      [|discriminate]. injection Hf as <- _. cbn [collection].
    destruct (find _ _) as [f|] eqn:F; [|reflexivity].
    apply find_some in F as [Hin Hn].
    assert (existsb (names_course (course_name data)) (courses_collection w)
            = true) by (apply existsb_exists; eauto).
    congruence. }
  subst existing.
  apply bind_return_inv in H as (unique_id & w2 & _ & H).
  apply bind_return_inv in H as (d & w3 & _ & H).
  apply bind_return_inv in H as (u & w4 & _ & H).
  apply bind_return_inv in H as (g & w5 & _ & H).
  destruct g as [m|e]; [|discriminate].
  apply bind_return_inv in H as (u' & w6 & _ & H).
  apply bind_return_inv in H as (l & w7 & _ & H).
  unfold insert_one_document, try_except, bind, insert_one in H.
  destruct (mongo_available (db_requests w7)); cbn in H; [|discriminate].
  now injection H as <-.
Qed.

(** What a run does to the course collection. *)
Lemma courses_after_run (data : AddNewCourse) (w : World) :
  let w' := snd (generate_course data w) in
  courses_collection w' = courses_collection w
  \/ (existsb (names_course (course_name data)) (courses_collection w) = false
      /\ exists d, doc_course_name d = course_name data
                   /\ courses_collection w'
                      = courses_collection w ++ [CourseDocument d]).
Proof.
  cbv zeta.
  destruct (existsb (names_course (course_name data)) (courses_collection w))
    eqn:E.
  { left. destruct (taken_name_run data w E) as [Hc _].
    unfold collections in Hc. congruence. }
  destruct (generate_course_shape data w) as (t & _ & Hshape).
  inversion Hshape as [e w1 Hc|w1 Hc|e w1 tD HD Hc|e w1 tD tM d HD HM Hn Hc
                      |e w1 tD tM tL d m HD HM HL Hn Hm Hc
                      |w1 tD tM tL d m l HD HM HL Hn Hm Hl Hc];
    unfold collections in Hc;
    first [ left; congruence
          | right; split; [reflexivity|]; exists d; split; [exact Hn|congruence] ].
Qed.

(** X14. [generate_course] keeps the names of the stored courses
    pairwise distinct, whatever the services answer and however the run
    ends, and never touches a course document that was there. When the
    run returns, a course of the requested name is stored; so a second
    run for the same name whose look-up is served answers that the
    course already exists and writes nothing. *)
Theorem generate_course_keeps_names_distinct (data : AddNewCourse) (w : World) :
  let names docs :=
    flat_map (fun d => match d with
                       | CourseDocument c => [doc_course_name c]
                       | _ => []
                       end) docs in
  let w1 := snd (generate_course data w) in
  let w2 := snd (generate_course data w1) in
  NoDup (names (courses_collection w)) ->
  NoDup (names (courses_collection w1))
  /\ (exists added, courses_collection w1 = courses_collection w ++ added)
  /\ (forall response,
         fst (generate_course data w) = Return response ->
         In (course_name data) (names (courses_collection w1))
         /\ collections w2 = collections w1
         /\ (mongo_available (db_requests w1) = true ->
             fst (generate_course data w1)
             = Return (Message (already_exists (course_name data))))).
Proof.
  cbv zeta. fold names. intros Hnd.
  pose proof (courses_after_run data w) as Hrun. cbv zeta in Hrun.
  split; [|split].
  - destruct Hrun as [->|(Hfree & d & Hn & ->)]; [exact Hnd|].
    rewrite names_app. change (names [CourseDocument d]) with [doc_course_name d].
    rewrite Hn.
    assert (Hnot : ~ In (course_name data) (names (courses_collection w))).
    { rewrite <- names_taken. congruence. }
    clear -Hnd Hnot. induction (names (courses_collection w)) as [|x xs IH]; cbn.
    + constructor; [tauto|constructor].
    + inversion Hnd; subst. constructor.
      * rewrite in_app_iff. cbn in *. intuition.
      * apply IH; cbn in *; intuition.
  - destruct Hrun as [->|(_ & d & _ & ->)]; [exists []; now rewrite app_nil_r|].
    now exists [CourseDocument d].
  - intros response Hret.
    assert (Htaken : existsb (names_course (course_name data))
                             (courses_collection (snd (generate_course data w)))
                     = true).
    { destruct (existsb (names_course (course_name data))
                        (courses_collection w)) eqn:E.
      - destruct (taken_name_run data w E) as [Hc _].
        unfold collections in Hc.
        assert (Hsame : courses_collection (snd (generate_course data w))
                        = courses_collection w) by congruence.
        now rewrite Hsame.
      - pose proof (free_name_result data w response E Hret) as ->.
        destruct (generate_course_shape data w) as (t & _ & Hshape).
        rewrite Hret in Hshape.
        inversion Hshape as [| | | | |w1 tD tM tL d m l HD HM HL Hn Hm Hl Hc];
          subst; unfold collections in Hc.
        assert (Hnew : courses_collection (snd (generate_course data w))
                       = courses_collection w ++ [CourseDocument d])
          by congruence.
        rewrite Hnew, existsb_app. cbn. rewrite Hn, String.eqb_refl.
        now rewrite orb_true_r. }
    destruct (taken_name_run data _ Htaken) as [Hc Hm].
    split; [now apply names_taken|]. split; [exact Hc|exact Hm].
Qed.

End Stage.

End CourseStage.

Module CourseStageExamples.
Import PyStr Effects Pipeline CourseStage Samples.

Lemma generate_course_keeps_names_distinct_witness :
  let w1 := snd (@generate_course answering python_request empty_world) in
  fst (@generate_course answering python_request empty_world) = Return Updated
  /\ fst (@generate_course answering python_request w1)
     = Return (Message "Course 'Python' already exists.")
  /\ collections (snd (@generate_course answering python_request w1))
     = collections w1.
Proof.
  cbv zeta.
  assert (Hr : fst (@generate_course answering python_request empty_world)
               = Return Updated) by (vm_compute; reflexivity).
  destruct (@generate_course_keeps_names_distinct answering python_request
              empty_world (NoDup_nil _)) as (_ & _ & H).
  destruct (H Updated Hr) as (_ & Hc & Hm).
  split; [exact Hr|]. split; [exact (Hm eq_refl)|exact Hc].
Defined.

End CourseStageExamples.

(* ===================================================================== *)
(** * More on authentication *)
(* ===================================================================== *)

Module AccountFacts.
Import Effects Users Tokens Accounts AuthClaims Steps Samples MoreSamples.
Local Open Scope effect_scope.

Section Facts.
Context {services : Services} {decoder : Decoder}.

(** ** The current user *)

(** X16. The two versions of [get_current_user], as long as the table
    answers. For a token that does not decode, or that has no subject,
    the function of src/utils/auth.py raises the HTTP 401 error
    [Could not validate credentials], and so it does for a subject
    that is no user; both make no difference to the caller. The
    dependency of the endpoints never raises an HTTP error: it raises
    [CustomException] built from the 401 error in the first case, and
    built from the [CustomException] of [get_user_by_id], which holds
    the HTTP 404 error [User not found], in the second. For the
    subject of a user both return the data of the first row with that
    identifier. A token that is rejected makes no request to the
    table. *)
Theorem current_user_by_token (token : string) (t : Table) :
  supabase_available (requests t) = true ->
  let by_function := AuthFunctions.get_current_user token t in
  let by_endpoint := AuthEndpoints.get_current_user token t in
  let unauthorized := HTTPException 401 "Could not validate credentials" in
  match jwt_decode token with
  | Some (Some user_id) =>
      match filter (fun u => String.eqb (id u) user_id) (rows t) with
      | found :: _ =>
          fst by_function = Return (response_of found)
          /\ fst by_endpoint = Return (response_of found)
      | [] =>
          fst by_function = Raise unauthorized
          /\ fst by_endpoint
             = Raise (CustomException
                        (CustomException (HTTPException 404 "User not found")))
      end
  | _ =>
      by_function = (Raise unauthorized, t)
      /\ by_endpoint = (Raise (CustomException unauthorized), t)
  end.
Proof.
  intros Hup. cbv zeta.
  unfold AuthFunctions.get_current_user, AuthEndpoints.get_current_user,
    AuthFunctions.subject, get_user_by_id, select_by_id, try_except, bind.
  destruct (jwt_decode token) as [[user_id|]|]; [|split; reflexivity..].
  cbn [ret fst snd]. rewrite Hup.
  destruct (filter _ (rows t)); split; reflexivity.
Qed.

(** ** Registration and login *)

Lemma filter_absent e (l : list UserRow) :
  filter (fun u => String.eqb (email u) e) l = [] -> ~ In e (map email l).
Proof.
  induction l as [|u l IH]; cbn; [tauto|].
  destruct (String.eqb (email u) e) eqn:E; [discriminate|].
  apply String.eqb_neq in E. intros H [H'|H']; [contradiction|now apply IH].
Qed.

Lemma NoDup_snoc (x : string) (xs : list string) :
  NoDup xs -> ~ In x xs -> NoDup (xs ++ [x]).
Proof.
  induction 1 as [|y ys Hy _ IH]; intros Hx; cbn.
  - constructor; [tauto|constructor].
  - constructor.
    + rewrite in_app_iff. cbn in *. intuition.
    + apply IH. cbn in Hx. tauto.
Qed.

Lemma new_user_email e hashed r name organization :
  email (new_user e hashed r name organization) = e.
Proof.
  unfold new_user.
  destruct (String.eqb r "administrator" || String.eqb r "course_creator");
    [|destruct (String.eqb r "organization")]; reflexivity.
Qed.

(** What a registration can do to the rows. *)
Lemma rows_after_registration
      (e plain r : string) (name organization : option string) (t : Table) :
  let t1 := snd (AuthComponent.register_user e plain r name organization t) in
  snd (AuthUtils.register_user e plain r name organization t) = t1
  /\ (rows t1 = rows t
      \/ exists created,
           rows t1 = rows t ++ [created] /\ email created = e
           /\ filter (fun u => String.eqb (email u) e) (rows t) = []).
Proof.
  cbv zeta.
  unfold AuthComponent.register_user, AuthComponent.register_user_body,
    AuthUtils.register_user,
    AuthComponent.get_user_by_email, AuthComponent.get_password_hash,
    try_except, bind, select_by_email, insert_user, call.
  destruct (supabase_available (requests t)); cbn [fst snd ret];
    [|split; [reflexivity|now left]].
  destruct (filter _ (rows t)) as [|u l] eqn:F; cbn [hd_error];
    [|split; [reflexivity|now left]].
  destruct (pwd_hash plain) as [hashed|]; cbn;
    [|split; [reflexivity|now left]].
  destruct (supabase_available (S (requests t))); cbn;
    [|split; [reflexivity|now left]].
  split; [reflexivity|]. right. eexists. split; [reflexivity|].
  split; [|reflexivity]. apply new_user_email.
Qed.

(** X17. Registration keeps the e-mail addresses of the user table
    pairwise distinct, whatever the services do and however the call
    ends, for [AuthComponent.register_user] and for the function of
    src/utils/auth.py alike: the rows that were there stay as they
    are, in their order, and at most one row is added. Logging in
    writes nothing. *)
Theorem registration_keeps_addresses_distinct
        (e plain r : string) (name organization : option string) (t : Table) :
  NoDup (map email (rows t)) ->
  let by_component :=
    snd (AuthComponent.register_user e plain r name organization t) in
  let by_function :=
    snd (AuthUtils.register_user e plain r name organization t) in
  NoDup (map email (rows by_component))
  /\ by_function = by_component
  /\ (exists added, rows by_component = rows t ++ added /\ length added <= 1)
  /\ rows (snd (AuthComponent.login e plain t)) = rows t.
Proof.
  intros Hnd. cbv zeta.
  destruct (rows_after_registration e plain r name organization t)
    as [Hsame Hrows]. cbv zeta in Hrows.
  split; [|split; [exact Hsame|split]].
  - destruct Hrows as [->|(created & -> & He & Hf)]; [exact Hnd|].
    rewrite map_app. cbn. rewrite He. apply NoDup_snoc; [exact Hnd|].
    now apply filter_absent.
  - destruct Hrows as [->|(created & -> & _)].
    + exists []. rewrite app_nil_r. split; [reflexivity|cbn; lia].
    + exists [created]. split; [reflexivity|cbn; lia].
  - unfold AuthComponent.login, AuthComponent.login_body,
      AuthComponent.authenticate_user, AuthComponent.authenticate_user_body,
      AuthComponent.get_user_by_email, AuthComponent.verify_password,
      AuthComponent.create_access_token, try_except, bind, select_by_email,
      call.
    destruct (supabase_available (requests t)); cbn [fst snd ret];
      [|reflexivity].
    destruct (hd_error _) as [u|]; [|reflexivity].
    destruct (pwd_verify plain (password u)) as [[|]|]; cbn; try reflexivity.
    destruct (jwt_encode (id u)); reflexivity.
Qed.

(** X18. Registration followed by login. When the address is free,
    the password hashes to a hash it verifies against, the table
    answers the two requests of the registration and the one of the
    login, and the token can be encoded, the login of the new user
    returns a bearer token for the identifier the table gave the row,
    together with the very user data the registration returned. *)
Theorem login_after_registration
        (e plain r : string) (name organization : option string)
        (hashed token : string) (t : Table) :
  registered e t = false ->
  pwd_hash plain = Some hashed ->
  pwd_verify plain hashed = Some true ->
  supabase_available (requests t) = true ->
  supabase_available (S (requests t)) = true ->
  supabase_available (S (S (requests t))) = true ->
  jwt_encode (generated_id (length (rows t))) = Some token ->
  let registration := AuthComponent.register_user e plain r name organization t in
  exists created,
    fst registration = Return created
    /\ response_id created = generated_id (length (rows t))
    /\ response_email created = e /\ response_role created = r
    /\ fst (AuthComponent.login e plain (snd registration))
       = Return (mkToken token "bearer" created).
Proof.
  intros Hfree Hhash Hverify Hup1 Hup2 Hup3 Htoken. cbv zeta.
  apply first_match in Hfree.
  assert (Hreg : AuthComponent.register_user e plain r name organization t
                 = (Return (response_of
                              (with_id (generated_id (length (rows t)))
                                       (new_user e hashed r name organization))),
                    mkTable (rows t
                               ++ [with_id (generated_id (length (rows t)))
                                           (new_user e hashed r name organization)])
                            (S (S (requests t))))).
  { unfold AuthComponent.register_user, AuthComponent.register_user_body,
      AuthComponent.get_user_by_email,
      AuthComponent.get_password_hash, try_except, bind, select_by_email,
      insert_user, call.
    rewrite Hup1. cbn [fst snd ret]. rewrite Hfree, Hhash. cbn.
    rewrite Hup2. reflexivity. }
  rewrite Hreg. cbn [fst snd]. eexists. split; [reflexivity|].
  assert (He : email (with_id (generated_id (length (rows t)))
                              (new_user e hashed r name organization)) = e)
    by (cbn; apply new_user_email).
  assert (Hp : password (with_id (generated_id (length (rows t)))
                                 (new_user e hashed r name organization))
               = hashed).
  { cbn. unfold new_user.
    destruct (String.eqb r "administrator" || String.eqb r "course_creator");
      [|destruct (String.eqb r "organization")]; reflexivity. }
  assert (Hr : role (with_id (generated_id (length (rows t)))
                             (new_user e hashed r name organization)) = r).
  { cbn. unfold new_user.
    destruct (String.eqb r "administrator" || String.eqb r "course_creator");
      [|destruct (String.eqb r "organization")]; reflexivity. }
  set (created := with_id (generated_id (length (rows t)))
                          (new_user e hashed r name organization)) in *.
  split; [reflexivity|]. split; [exact He|]. split; [exact Hr|].
  assert (Hi : id created = generated_id (length (rows t))) by reflexivity.
  clearbody created.
  apply login_bearer with (u := created); cbn [requests rows];
    [exact Hup3| |now rewrite Hp|now rewrite Hi].
  rewrite filter_app, Hfree. cbn [app filter].
  rewrite He, String.eqb_refl. reflexivity.
Qed.

(** ** The wrappers *)

Lemma wrap_returns {A} (m : ST Table A) (t : Table) (a : A) :
  fst (m t) = Return a -> fst (try_except m AuthComponent.wrap t) = Return a.
Proof.
  unfold try_except. destruct (m t) as [[b|x] t1]; cbn [fst];
    [auto|discriminate].
Qed.

Lemma wrap_raises {A} (m : ST Table A) (t : Table) (x : Exn) :
  fst (m t) = Raise x ->
  fst (try_except m AuthComponent.wrap t) = Raise (CustomException x).
Proof.
  unfold try_except, AuthComponent.wrap, raise.
  destruct (m t) as [[b|y] t1]; cbn [fst]; [discriminate|].
  now intros H; injection H as ->.
Qed.

Lemma wrap_raised {A} (m : ST Table A) (t : Table) (x : Exn) :
  fst (try_except m AuthComponent.wrap t) = Raise x ->
  exists cause, fst (m t) = Raise cause /\ x = CustomException cause.
Proof.
  unfold try_except, AuthComponent.wrap, raise.
  destruct (m t) as [[b|y] t1]; cbn [fst]; [discriminate|].
  intros H; injection H as <-. eauto.
Qed.

(** X19. The three registrations by role and their endpoints catch
    every exception, the HTTP errors of [register_user] included. For
    an address that is taken, with the look-up served,
    [register_user] raises the HTTP 400 error, the methods
    [register_administrator], [register_course_creator] and
    [register_organization] raise [CustomException] built from it,
    and the endpoints [CustomException] built from that one. For each
    of the three roles, what [register_user] returns is returned by
    the method and by its endpoint, and an error that [register_user]
    raises leaves the method as [CustomException] holding it and the
    endpoint as [CustomException] holding that one; the login endpoint
    returns what [AuthComponent.login] returns and raises
    [CustomException] holding what it raises. So none of them raises
    an HTTP error: the three methods and [AuthComponent.login] raise
    nothing but [CustomException], and the four endpoints nothing but
    [CustomException] holding a [CustomException]. *)
Theorem role_registrations_wrap_every_error
        (e plain name : string) (t : Table) :
  let taken := HTTPException 400 "User with this email already exists" in
  let administrator :=
    AuthComponent.register_user e plain "administrator" (Some name) None t in
  let course_creator :=
    AuthComponent.register_user e plain "course_creator" (Some name) None t in
  let organization :=
    AuthComponent.register_user e plain "organization" None (Some name) t in
  (registered e t = true -> supabase_available (requests t) = true ->
   fst (AuthComponent.register_administrator e plain name t)
   = Raise (CustomException taken)
   /\ fst (AuthComponent.register_course_creator e plain name t)
      = Raise (CustomException taken)
   /\ fst (AuthComponent.register_organization e plain name t)
      = Raise (CustomException taken)
   /\ fst (AuthEndpoints.register_administrator e plain name t)
      = Raise (CustomException (CustomException taken))
   /\ fst (AuthEndpoints.register_course_creator e plain name t)
      = Raise (CustomException (CustomException taken))
   /\ fst (AuthEndpoints.register_organization e plain name t)
      = Raise (CustomException (CustomException taken)))
  /\ (forall x,
         (fst (AuthEndpoints.register_administrator e plain name t) = Raise x
          \/ fst (AuthEndpoints.register_course_creator e plain name t) = Raise x
          \/ fst (AuthEndpoints.register_organization e plain name t) = Raise x
          \/ fst (AuthEndpoints.login e plain t) = Raise x) ->
         exists cause, x = CustomException (CustomException cause))
  /\ (forall x,
         (fst (AuthComponent.register_administrator e plain name t) = Raise x
          \/ fst (AuthComponent.register_course_creator e plain name t) = Raise x
          \/ fst (AuthComponent.register_organization e plain name t) = Raise x
          \/ fst (AuthComponent.login e plain t) = Raise x) ->
         exists cause, x = CustomException cause)
  /\ (forall created,
         (fst administrator = Return created ->
          fst (AuthComponent.register_administrator e plain name t)
          = Return created
          /\ fst (AuthEndpoints.register_administrator e plain name t)
             = Return created)
         /\ (fst course_creator = Return created ->
             fst (AuthComponent.register_course_creator e plain name t)
             = Return created
             /\ fst (AuthEndpoints.register_course_creator e plain name t)
                = Return created)
         /\ (fst organization = Return created ->
             fst (AuthComponent.register_organization e plain name t)
             = Return created
             /\ fst (AuthEndpoints.register_organization e plain name t)
                = Return created))
  /\ (forall x,
         (fst administrator = Raise x ->
          fst (AuthComponent.register_administrator e plain name t)
          = Raise (CustomException x)
          /\ fst (AuthEndpoints.register_administrator e plain name t)
             = Raise (CustomException (CustomException x)))
         /\ (fst course_creator = Raise x ->
             fst (AuthComponent.register_course_creator e plain name t)
             = Raise (CustomException x)
             /\ fst (AuthEndpoints.register_course_creator e plain name t)
                = Raise (CustomException (CustomException x)))
         /\ (fst organization = Raise x ->
             fst (AuthComponent.register_organization e plain name t)
             = Raise (CustomException x)
             /\ fst (AuthEndpoints.register_organization e plain name t)
                = Raise (CustomException (CustomException x))))
  /\ (forall token,
         fst (AuthComponent.login e plain t) = Return token ->
         fst (AuthEndpoints.login e plain t) = Return token)
  /\ (forall x,
         fst (AuthComponent.login e plain t) = Raise x ->
         fst (AuthEndpoints.login e plain t) = Raise (CustomException x)).
Proof.
  cbv zeta.
  assert (Hreturns : forall created,
             (fst (AuthComponent.register_user e plain "administrator"
                     (Some name) None t) = Return created ->
              fst (AuthComponent.register_administrator e plain name t)
              = Return created
              /\ fst (AuthEndpoints.register_administrator e plain name t)
                 = Return created)
             /\ (fst (AuthComponent.register_user e plain "course_creator"
                        (Some name) None t) = Return created ->
                 fst (AuthComponent.register_course_creator e plain name t)
                 = Return created
                 /\ fst (AuthEndpoints.register_course_creator e plain name t)
                    = Return created)
             /\ (fst (AuthComponent.register_user e plain "organization"
                        None (Some name) t) = Return created ->
                 fst (AuthComponent.register_organization e plain name t)
                 = Return created
                 /\ fst (AuthEndpoints.register_organization e plain name t)
                    = Return created)).
  { intros created. split; [|split]; intros H; split;
      unfold AuthEndpoints.register_administrator,
        AuthEndpoints.register_course_creator,
        AuthEndpoints.register_organization,
        AuthComponent.register_administrator,
        AuthComponent.register_course_creator,
        AuthComponent.register_organization;
      repeat apply wrap_returns; exact H. }
  assert (Hraises : forall x,
             (fst (AuthComponent.register_user e plain "administrator"
                     (Some name) None t) = Raise x ->
              fst (AuthComponent.register_administrator e plain name t)
              = Raise (CustomException x)
              /\ fst (AuthEndpoints.register_administrator e plain name t)
                 = Raise (CustomException (CustomException x)))
             /\ (fst (AuthComponent.register_user e plain "course_creator"
                        (Some name) None t) = Raise x ->
                 fst (AuthComponent.register_course_creator e plain name t)
                 = Raise (CustomException x)
                 /\ fst (AuthEndpoints.register_course_creator e plain name t)
                    = Raise (CustomException (CustomException x)))
             /\ (fst (AuthComponent.register_user e plain "organization"
                        None (Some name) t) = Raise x ->
                 fst (AuthComponent.register_organization e plain name t)
                 = Raise (CustomException x)
                 /\ fst (AuthEndpoints.register_organization e plain name t)
                    = Raise (CustomException (CustomException x)))).
  { intros x. split; [|split]; intros H; split;
      unfold AuthEndpoints.register_administrator,
        AuthEndpoints.register_course_creator,
        AuthEndpoints.register_organization,
        AuthComponent.register_administrator,
        AuthComponent.register_course_creator,
        AuthComponent.register_organization;
      repeat apply wrap_raises; exact H. }
  split; [|split; [|split; [|split; [exact Hreturns|split;
                                      [exact Hraises|split]]]]].
  - intros Hreg Hup.
    assert (H : forall r n o,
               fst (AuthComponent.register_user e plain r n o t)
               = Raise (HTTPException 400 "User with this email already exists")).
    { intros r n o.
      unfold AuthComponent.register_user, AuthComponent.register_user_body,
        AuthComponent.get_user_by_email, try_except, bind, select_by_email.
      rewrite Hup. cbn [fst snd ret].
      destruct (filter _ (rows t)) as [|u l] eqn:F;
        [apply first_match in F; unfold registered in Hreg; congruence|].
      reflexivity. }
    destruct (Hraises (HTTPException 400 "User with this email already exists"))
      as (Ha & Hc & Ho).
    destruct (Ha (H _ _ _)), (Hc (H _ _ _)), (Ho (H _ _ _)). auto 7.
  - intros x Hx.
    assert (Hw : forall A (m : ST Table A) y,
               fst (try_except (try_except m AuthComponent.wrap)
                               AuthComponent.wrap t) = Raise y ->
               exists cause, y = CustomException (CustomException cause)).
    { intros A m y Hy. apply wrap_raised in Hy as (c1 & Hy & ->).
      apply wrap_raised in Hy as (c2 & _ & ->). eauto. }
    destruct Hx as [Hx|[Hx|[Hx|Hx]]]; try (now apply Hw in Hx).
    unfold AuthEndpoints.login in Hx.
    apply wrap_raised in Hx as (c1 & Hx & ->).
    unfold bind in Hx.
    destruct (AuthComponent.login e plain t) as [[a|z] t1] eqn:L;
      [discriminate|].
    cbn [fst] in Hx. injection Hx as <-.
    assert (Hl : fst (AuthComponent.login e plain t) = Raise z)
      by now rewrite L.
    unfold AuthComponent.login in Hl.
    apply wrap_raised in Hl as (c2 & _ & ->). eauto.
  - intros x Hx.
    destruct Hx as [Hx|[Hx|[Hx|Hx]]];
      apply wrap_raised in Hx as (cause & _ & ->); eauto.
  - intros token H. unfold AuthEndpoints.login, try_except at 1, bind.
    destruct (AuthComponent.login e plain t) as [[a|x] t1]; cbn [fst] in *;
      [|discriminate].
    injection H as ->. destruct token. reflexivity.
  - intros x H. unfold AuthEndpoints.login. apply wrap_raises.
    unfold bind.
    destruct (AuthComponent.login e plain t) as [[a|y] t1]; cbn [fst] in *;
      [discriminate|exact H].
Qed.

End Facts.

Lemma current_user_by_token_witness :
  fst (@AuthFunctions.get_current_user working decoding "jwt:user-0" one_user)
  = Return (response_of ada)
  /\ fst (@AuthEndpoints.get_current_user working decoding "jwt:user-9" one_user)
     = Raise (CustomException
                (CustomException (HTTPException 404 "User not found")))
  /\ @AuthEndpoints.get_current_user working decoding "forged" one_user
     = (Raise (CustomException
                 (HTTPException 401 "Could not validate credentials")),
        one_user).
Proof.
  split; [|split].
  - exact (proj1 (@current_user_by_token working decoding "jwt:user-0" one_user
                    eq_refl)).
  - exact (proj2 (@current_user_by_token working decoding "jwt:user-9" one_user
                    eq_refl)).
  - exact (proj2 (@current_user_by_token working decoding "forged" one_user
                    eq_refl)).
Defined.

Lemma registration_keeps_addresses_distinct_witness :
  NoDup (map email
             (rows (snd (@AuthComponent.register_user working "bob@example.com"
                           "x" "organization" None (Some "ACME") one_user))))
  /\ rows (snd (@AuthComponent.login working "bob@example.com" "x" one_user))
     = [ada].
Proof.
  destruct (@registration_keeps_addresses_distinct working "bob@example.com" "x"
              "organization" None (Some "ACME") one_user) as (H1 & _ & _ & H2).
  - repeat constructor. cbn. tauto.
  - split; [exact H1|exact H2].
Defined.

Lemma login_after_registration_witness :
  exists created,
    fst (@AuthComponent.register_user working "bob@example.com" "x"
           "course_creator" (Some "Bob") None one_user) = Return created
    /\ fst (@AuthComponent.login working "bob@example.com" "x"
              (snd (@AuthComponent.register_user working "bob@example.com" "x"
                      "course_creator" (Some "Bob") None one_user)))
       = Return (mkToken "jwt:user-1" "bearer" created).
Proof.
  destruct (@login_after_registration working "bob@example.com" "x"
              "course_creator" (Some "Bob") None "hash:x" "jwt:user-1" one_user
              eq_refl eq_refl eq_refl eq_refl eq_refl eq_refl eq_refl)
    as (created & Hr & _ & _ & _ & Hl).
  exists created. split; [exact Hr|exact Hl].
Defined.

End AccountFacts.

(* ===================================================================== *)
(** * The other methods of [Courses] *)
(* ===================================================================== *)

Module CourseMethods.
Import PyStr Effects Mongo Courses Steps DictFacts MarkdownSections.
Local Open Scope effect_scope.

(** ** Lists of documents *)

Lemma find_split {A} (m : A -> bool) (ds : list A) (d : A) :
  find m ds = Some d ->
  exists pre post, ds = pre ++ d :: post /\ find m pre = None /\ m d = true.
Proof.
  induction ds as [|x ds IH]; cbn; [discriminate|].
  destruct (m x) eqn:E.
  - intros H; injection H as ->. now exists [], ds.
  - intros H. destruct (IH H) as (pre & post & -> & Hpre & Hd).
    exists (x :: pre), post. cbn. now rewrite E.
Qed.

Lemma find_first {A} (m : A -> bool) (pre post : list A) (d : A) :
  find m pre = None -> m d = true -> find m (pre ++ d :: post) = Some d.
Proof.
  induction pre as [|x pre IH]; cbn; [now intros _ ->|].
  destruct (m x); [discriminate|auto].
Qed.

Lemma update_first_none (m : Doc -> bool) (u : Update) (ds : list Doc) :
  find m ds = None -> update_first m u ds = Some ds.
Proof.
  induction ds as [|x ds IH]; cbn; [reflexivity|].
  destruct (m x); [discriminate|]. intros H. now rewrite (IH H).
Qed.

Lemma update_first_split (m : Doc -> bool) (u : Update) (pre post : list Doc)
      (d : Doc) :
  find m pre = None -> m d = true ->
  update_first m u (pre ++ d :: post)
  = option_map (fun d' => pre ++ d' :: post) (u d).
Proof.
  induction pre as [|x pre IH]; cbn.
  - intros _ ->. reflexivity.
  - destruct (m x); [discriminate|]. intros Hp Hd. rewrite (IH Hp Hd).
    now destruct (u d).
Qed.

Lemma delete_first_split (m : Doc -> bool) (pre post : list Doc) (d : Doc) :
  find m pre = None -> m d = true ->
  delete_first m (pre ++ d :: post) = pre ++ post.
Proof.
  induction pre as [|x pre IH]; cbn.
  - now intros _ ->.
  - destruct (m x); [discriminate|]. intros Hp Hd. now rewrite (IH Hp Hd).
Qed.

Lemma delete_first_none (m : Doc -> bool) (ds : list Doc) :
  find m ds = None -> delete_first m ds = ds.
Proof.
  induction ds as [|x ds IH]; cbn; [reflexivity|].
  destruct (m x); [discriminate|]. intros H. now rewrite (IH H).
Qed.

(** ** Arrays used as sets *)

Lemma add_to_set_In (xs : list string) (x s : string) :
  In s (add_to_set xs x) <-> In s xs \/ s = x.
Proof.
  unfold add_to_set. destruct (mem x xs) eqn:E.
  - apply mem_In in E. split; [auto|]. intros [H| ->]; auto.
  - rewrite in_app_iff. cbn. intuition.
Qed.

Lemma add_each_In (values : list string) : forall xs s,
  In s (fold_left add_to_set values xs) <-> In s xs \/ In s values.
Proof.
  induction values as [|v values IH]; intros xs s; cbn; [tauto|].
  rewrite IH, add_to_set_In. intuition.
Qed.

Lemma add_each_prefix (values : list string) : forall xs,
  exists added, fold_left add_to_set values xs = xs ++ added
                /\ forall s, In s added -> In s values.
Proof.
  induction values as [|v values IH]; intros xs; cbn [fold_left].
  - exists []. now rewrite app_nil_r.
  - destruct (IH (add_to_set xs v)) as (added & -> & Hin). unfold add_to_set.
    destruct (mem v xs).
    + exists added. split; [reflexivity|]. intros; right; auto.
    + exists (v :: added). rewrite <- app_assoc. split; [reflexivity|].
      intros s [<-|H]; [now left|right; auto].
Qed.

Lemma add_each_NoDup (values : list string) : forall xs,
  NoDup xs -> NoDup (fold_left add_to_set values xs).
Proof.
  induction values as [|v values IH]; intros xs H; cbn; [exact H|].
  apply IH. unfold add_to_set. destruct (mem v xs) eqn:E; [exact H|].
  apply AccountFacts.NoDup_snoc; [exact H|]. rewrite <- mem_In. congruence.
Qed.

(** Adding what is not there yet is adding. *)
Lemma add_each_new (values olds : list string) : forall xs,
  (forall s, In s olds -> In s xs) ->
  fold_left add_to_set (filter (fun s => negb (mem s olds)) values) xs
  = fold_left add_to_set values xs.
Proof.
  induction values as [|v values IH]; intros xs H; cbn [fold_left filter];
    [reflexivity|].
  destruct (mem v olds) eqn:E; cbn [negb fold_left].
  - apply mem_In in E.
    assert (Hv : add_to_set xs v = xs).
    { unfold add_to_set.
      assert (Hm : mem v xs = true) by (apply mem_In; auto).
      now rewrite Hm. }
    rewrite Hv. now apply IH.
  - apply IH. intros s Hs. apply add_to_set_In. auto.
Qed.

Lemma not_in_strings (segment_ids olds : list string) :
  not_in segment_ids (Strings olds)
  = Some (filter (fun s => negb (mem s olds)) segment_ids).
Proof.
  induction segment_ids as [|s rest IH]; cbn; [reflexivity|].
  rewrite IH. now destruct (mem s olds).
Qed.

(** ** Fields *)

Lemma matches_set (field other value : string) (v : Value) (d : Doc) :
  other <> field ->
  matches field value (Dicts.set other v d) = matches field value d.
Proof. intros H. unfold matches. now rewrite get_set_other. Qed.

Lemma elements_set (field : string) (l : list string) (d : Doc) :
  elements field (Dicts.set field (Strings l) d) = Some l.
Proof. unfold elements. now rewrite get_set. Qed.

Lemma elements_matches (field s : string) (l : list string) (d : Doc) :
  elements field d = Some l -> matches field s d = mem s l.
Proof.
  unfold elements, matches.
  destruct (Dicts.get field d) as [[| |l']|]; try discriminate;
    now intros [= <-].
Qed.

Lemma mem_filter_out (s : string) (out : string -> bool) (l : list string) :
  out s = true -> mem s (filter (fun x => negb (out x)) l) = false.
Proof.
  intros Hs. destruct (mem s _) eqn:E; [|reflexivity].
  apply mem_In, filter_In in E. destruct E as [_ E]. now rewrite Hs in E.
Qed.

Lemma filter_not_held (id : string) (l : list string) :
  mem id l = false -> filter (fun c => negb (String.eqb id c)) l = l.
Proof.
  unfold mem. induction l as [|c l IH]; cbn; [reflexivity|].
  destruct (String.eqb id c); [discriminate|]. intros H. cbn. now rewrite IH.
Qed.

Lemma pull_course_id (id : string) (d : Doc) :
  elements "courses_ids" d <> None ->
  exists d',
    (if matches "courses_ids" id d
     then pull "courses_ids" (String.eqb id) d else Some d) = Some d'
    /\ pulled id d d' /\ matches "courses_ids" id d' = false.
Proof.
  intros Harray. unfold pull.
  destruct (elements "courses_ids" d) as [l|] eqn:E; [clear Harray|congruence].
  pose proof (elements_matches "courses_ids" id l d E) as Hm.
  destruct (matches "courses_ids" id d) eqn:M.
  - unfold elements in E.
    destruct (Dicts.get "courses_ids" d) as [[| |l']|] eqn:G; try discriminate.
    + injection E as ->. eexists. split; [reflexivity|]. split; [split|].
      * intros k Hk. now apply get_set_other.
      * unfold elements. rewrite G, get_set. now intros l0 [= <-].
      * rewrite (elements_matches _ _ _ _ (elements_set _ _ _)).
        apply (mem_filter_out id (String.eqb id)), String.eqb_refl.
    + unfold matches in M. now rewrite G in M.
  - exists d. split; [reflexivity|]. split; [split|]; auto.
    intros l0 Hl0. rewrite E in Hl0. injection Hl0 as <-.
    rewrite E. f_equal. symmetry. apply filter_not_held. congruence.
Qed.

Lemma pull_everywhere (id : string) (ds : list Doc) :
  (forall d, In d ds -> elements "courses_ids" d <> None) ->
  exists ds',
    update_all (matches "courses_ids" id) (pull "courses_ids" (String.eqb id)) ds
    = (ds', true)
    /\ Forall2 (pulled id) ds ds'
    /\ forall d, In d ds' -> matches "courses_ids" id d = false.
Proof.
  induction ds as [|d ds IH]; intros Harrays.
  - exists []. cbn. repeat split; [constructor|tauto].
  - destruct IH as (ds' & Hrun & Hall & Hnone);
      [intros; apply Harrays; now right|].
    destruct (pull_course_id id d) as (d' & Hd & Hp & Hm);
      [apply Harrays; now left|].
    exists (d' :: ds'). cbn [update_all]. rewrite Hrun.
    destruct (matches "courses_ids" id d).
    + rewrite Hd. repeat split; [now constructor|].
      intros x [<-|Hx]; auto.
    + injection Hd as <-. repeat split; [now constructor|].
      intros x [<-|Hx]; auto.
Qed.

Section Methods.
Context {ext : External}.
Hypothesis served : forall n, mongo_available n = true.

Lemma request_served {A} (serve : Database -> Result A * Database) db :
  request serve db = serve (counted db).
Proof. unfold request. now rewrite served. Qed.

Lemma courses_by_segment_served (segment_id : string) (db : Database) :
  get_courses_by_segment_id segment_id db
  = (Return (Result_ (map (project projected_fields)
                          (filter (matches "segment_ids" segment_id)
                                  (course_docs db)))),
     counted db).
Proof.
  unfold get_courses_by_segment_id, try_except, bind, aggregate.
  now rewrite request_served.
Qed.

(** What [add_segment_to_course] does to the first course of the
    identifier. *)
Lemma add_segment_found (course_id : string) (segment_ids : list string)
      (db : Database) (pre post : list Doc) (course : Doc)
      (olds : list string) :
  course_docs db = pre ++ course :: post ->
  find (matches "course_id" course_id) pre = None ->
  matches "course_id" course_id course = true ->
  elements "segment_ids" course = Some olds ->
  exists updated n,
    add_segment_to_course course_id segment_ids db
    = (Return (Result_ true),
       mkDatabase (domain_docs db) (pre ++ updated :: post)
                  (module_docs db) (lesson_docs db) n)
    /\ matches "course_id" course_id updated = true
    /\ (forall k, k <> "segment_ids" ->
                  Dicts.get k updated = Dicts.get k course)
    /\ elements "segment_ids" updated
       = Some (fold_left add_to_set segment_ids olds)
    /\ ((forall s, In s segment_ids -> In s olds) -> updated = course).
Proof.
  intros Hds Hpre Hm Hs.
  pose proof (find_first _ pre post course Hpre Hm) as F. rewrite <- Hds in F.
  unfold add_segment_to_course, try_except, bind, find_one.
  rewrite request_served. cbn [docs counted course_docs]. rewrite F.
  assert (Hex : match Dicts.get "segment_ids" course with
                | Some v => v
                | None => Strings []
                end = Strings olds).
  { unfold elements in Hs.
    destruct (Dicts.get "segment_ids" course) as [[| |l]|]; congruence. }
  rewrite Hex, not_in_strings. unfold ret at 1.
  pose proof (add_each_new segment_ids olds olds (fun s H => H)) as Hnew.
  destruct (filter _ segment_ids) as [|s0 new] eqn:Hfilter.
  - exists course, (S (requests db)). unfold ret, counted. rewrite <- Hds.
    repeat split; auto.
    rewrite Hs, <- Hnew. reflexivity.
  - set (added := s0 :: new) in *.
    exists (Dicts.set "segment_ids"
                      (Strings (fold_left add_to_set segment_ids olds)) course),
           (S (S (requests db))).
    unfold update_one. rewrite request_served.
    cbn [docs counted course_docs domain_docs module_docs lesson_docs requests].
    rewrite Hds, (update_first_split _ _ _ _ _ Hpre Hm).
    assert (Hu : add_to_set_each "segment_ids" added course
                 = Some (Dicts.set "segment_ids"
                           (Strings (fold_left add_to_set segment_ids olds))
                           course)).
    { unfold add_to_set_each. unfold elements in Hs.
      destruct (Dicts.get "segment_ids" course) as [[| |l]|];
        try discriminate; injection Hs as ->; now rewrite Hnew. }
    rewrite Hu. cbn [option_map with_docs counted domain_docs course_docs
                     module_docs lesson_docs requests]. unfold ret.
    repeat split; auto.
    + rewrite matches_set; [exact Hm|discriminate].
    + intros k Hk. now apply get_set_other.
    + apply elements_set.
    + intros Hall. exfalso.
      assert (Hin : In s0 (filter (fun s => negb (mem s olds)) segment_ids))
        by (rewrite Hfilter; now left).
      apply filter_In in Hin. destruct Hin as [Hin Hout].
      apply Hall, mem_In in Hin. rewrite Hin in Hout. discriminate.
Qed.

(** What [remove_segments_from_course] does to the first course of the
    identifier. *)
Lemma remove_segments_found (course_id : string) (segment_ids : list string)
      (db : Database) (pre post : list Doc) (course : Doc)
      (olds : list string) :
  course_docs db = pre ++ course :: post ->
  find (matches "course_id" course_id) pre = None ->
  matches "course_id" course_id course = true ->
  elements "segment_ids" course = Some olds ->
  exists updated n,
    remove_segments_from_course course_id segment_ids db
    = (Return (Result_ true),
       mkDatabase (domain_docs db) (pre ++ updated :: post)
                  (module_docs db) (lesson_docs db) n)
    /\ matches "course_id" course_id updated = true
    /\ (forall k, k <> "segment_ids" ->
                  Dicts.get k updated = Dicts.get k course)
    /\ elements "segment_ids" updated
       = Some (filter (fun s => negb (mem s segment_ids)) olds).
Proof.
  intros Hds Hpre Hm Hs.
  pose proof (find_first _ pre post course Hpre Hm) as F. rewrite <- Hds in F.
  unfold remove_segments_from_course, try_except, bind, find_one.
  rewrite request_served. cbn [docs counted course_docs]. rewrite F.
  unfold update_one. rewrite request_served.
  cbn [docs counted course_docs domain_docs module_docs lesson_docs requests].
  rewrite Hds, (update_first_split _ _ _ _ _ Hpre Hm).
  unfold pull, elements in *.
  destruct (Dicts.get "segment_ids" course) as [[| |l]|] eqn:G;
    try discriminate; injection Hs as <-;
    cbn [option_map with_docs counted domain_docs course_docs
         module_docs lesson_docs requests]; unfold ret.
  - eexists _, _. split; [reflexivity|]. repeat split.
    + rewrite matches_set; [exact Hm|discriminate].
    + intros k Hk. now apply get_set_other.
    + now rewrite get_set.
  - eexists _, _. split; [reflexivity|]. repeat split; auto.
    now rewrite G.
Qed.

(** X20. [add_segment_to_course], with the server in reach. Without a
    course of the identifier it returns [False] and changes nothing.
    Otherwise it returns [True]; the first course of the identifier is
    the only document that can differ afterwards, and only in
    [segment_ids], which holds what it held, in the same order,
    followed by the requested identifiers that were not there, each
    once. So every requested identifier is there, none is held twice
    that was not before, and the same call again changes nothing;
    [get_courses_by_segment_id] lists the course for each of the
    requested segments. *)
Theorem add_segment_to_course_adds_once
        (course_id : string) (segment_ids : list string) (db : Database) :
  let r := add_segment_to_course course_id segment_ids db in
  match find (matches "course_id" course_id) (course_docs db) with
  | None => fst r = Return (Result_ false) /\ contents (snd r) = contents db
  | Some course =>
      forall olds, elements "segment_ids" course = Some olds ->
        fst r = Return (Result_ true)
        /\ exists pre post updated,
             course_docs db = pre ++ course :: post
             /\ contents (snd r)
                = (domain_docs db, pre ++ updated :: post, module_docs db,
                   lesson_docs db)
             /\ find (matches "course_id" course_id) (course_docs (snd r))
                = Some updated
             /\ (forall k, k <> "segment_ids" ->
                           Dicts.get k updated = Dicts.get k course)
             /\ elements "segment_ids" updated
                = Some (fold_left add_to_set segment_ids olds)
             /\ (forall s, In s (fold_left add_to_set segment_ids olds)
                           <-> In s olds \/ In s segment_ids)
             /\ (exists added,
                    fold_left add_to_set segment_ids olds = olds ++ added
                    /\ forall s, In s added -> In s segment_ids)
             /\ (NoDup olds -> NoDup (fold_left add_to_set segment_ids olds))
             /\ contents (snd (add_segment_to_course course_id segment_ids
                                 (snd r)))
                = contents (snd r)
             /\ (forall s, In s segment_ids ->
                   exists listed,
                     fst (get_courses_by_segment_id s (snd r))
                     = Return (Result_ listed)
                     /\ In (project projected_fields updated) listed)
  end.
Proof.
  intros r. subst r.
  destruct (find _ (course_docs db)) as [course|] eqn:F.
  - intros olds Hs.
    destruct (find_split _ _ _ F) as (pre & post & Hds & Hpre & Hmc).
    destruct (add_segment_found course_id segment_ids db pre post course olds
                                Hds Hpre Hmc Hs)
      as (updated & n & Hrun & Hm & Hkeep & Hseg & _).
    rewrite Hrun. cbn [fst snd]. split; [reflexivity|].
    exists pre, post, updated. unfold contents.
    cbn [domain_docs course_docs module_docs lesson_docs].
    repeat split; auto.
    + now apply find_first.
    + apply add_each_In.
    + apply add_each_In.
    + apply add_each_prefix.
    + apply add_each_NoDup.
    + destruct (add_segment_found course_id segment_ids
                  (mkDatabase (domain_docs db) (pre ++ updated :: post)
                              (module_docs db) (lesson_docs db) n)
                  pre post updated _ eq_refl Hpre Hm Hseg)
        as (again & n2 & Hrun2 & _ & _ & _ & Hsame).
      rewrite Hrun2. cbn [snd domain_docs course_docs module_docs lesson_docs].
      rewrite Hsame; [reflexivity|].
      intros s Hs'. apply add_each_In. now right.
    + intros s Hin. rewrite courses_by_segment_served. cbn [fst course_docs].
      eexists. split; [reflexivity|]. apply in_map, filter_In. split.
      * apply in_elt.
      * rewrite (elements_matches _ _ _ _ Hseg). apply mem_In, add_each_In.
        now right.
  - unfold add_segment_to_course, try_except, bind, find_one.
    rewrite request_served. cbn [docs counted course_docs]. rewrite F.
    now unfold ret.
Qed.

(** X21. [remove_segments_from_course], with the server in reach.
    Without a course of the identifier it returns [False] and changes
    nothing. Otherwise it returns [True]; the first course of the
    identifier is the only document that can differ afterwards, and
    only in [segment_ids], which keeps, in their order, the
    identifiers that were not requested. None of the requested
    segments selects the course any more. *)
Theorem remove_segments_from_course_removes_each
        (course_id : string) (segment_ids : list string) (db : Database) :
  let r := remove_segments_from_course course_id segment_ids db in
  match find (matches "course_id" course_id) (course_docs db) with
  | None => fst r = Return (Result_ false) /\ contents (snd r) = contents db
  | Some course =>
      forall olds, elements "segment_ids" course = Some olds ->
        fst r = Return (Result_ true)
        /\ exists pre post updated,
             course_docs db = pre ++ course :: post
             /\ contents (snd r)
                = (domain_docs db, pre ++ updated :: post, module_docs db,
                   lesson_docs db)
             /\ find (matches "course_id" course_id) (course_docs (snd r))
                = Some updated
             /\ (forall k, k <> "segment_ids" ->
                           Dicts.get k updated = Dicts.get k course)
             /\ elements "segment_ids" updated
                = Some (filter (fun s => negb (mem s segment_ids)) olds)
             /\ (forall s, In s segment_ids ->
                           matches "segment_ids" s updated = false)
  end.
Proof.
  intros r. subst r.
  destruct (find _ (course_docs db)) as [course|] eqn:F.
  - intros olds Hs.
    destruct (find_split _ _ _ F) as (pre & post & Hds & Hpre & Hmc).
    destruct (remove_segments_found course_id segment_ids db pre post course
                                    olds Hds Hpre Hmc Hs)
      as (updated & n & Hrun & Hm & Hkeep & Hseg).
    rewrite Hrun. cbn [fst snd]. split; [reflexivity|].
    exists pre, post, updated. unfold contents.
    cbn [domain_docs course_docs module_docs lesson_docs].
    repeat split; auto.
    + now apply find_first.
    + intros s Hin. rewrite (elements_matches _ _ _ _ Hseg).
      apply (mem_filter_out s (fun x => mem x segment_ids)).
      now apply mem_In.
  - unfold remove_segments_from_course, try_except, bind, find_one.
    rewrite request_served. cbn [docs counted course_docs]. rewrite F.
    now unfold ret.
Qed.

(** X22. Adding segments to a course and removing the same segments,
    with the server in reach, leaves every document but the first
    course of the identifier as it was, and that course with its
    other fields as they were; of its segments those are left that
    were not in the request. So the course is as before when it held
    none of them, and has lost the ones it held. *)
Theorem add_then_remove_segments
        (course_id : string) (segment_ids : list string) (db : Database)
        (course : Doc) (olds : list string) :
  find (matches "course_id" course_id) (course_docs db) = Some course ->
  elements "segment_ids" course = Some olds ->
  let added := snd (add_segment_to_course course_id segment_ids db) in
  let r := remove_segments_from_course course_id segment_ids added in
  fst r = Return (Result_ true)
  /\ exists pre post restored,
       course_docs db = pre ++ course :: post
       /\ contents (snd r)
          = (domain_docs db, pre ++ restored :: post, module_docs db,
             lesson_docs db)
       /\ (forall k, k <> "segment_ids" ->
                     Dicts.get k restored = Dicts.get k course)
       /\ elements "segment_ids" restored
          = Some (filter (fun s => negb (mem s segment_ids)) olds)
       /\ ((forall s, In s segment_ids -> ~ In s olds) ->
           elements "segment_ids" restored = Some olds).
Proof.
  intros F Hs added r. subst r added.
  destruct (find_split _ _ _ F) as (pre & post & Hds & Hpre & Hmc).
  destruct (add_segment_found course_id segment_ids db pre post course olds
                              Hds Hpre Hmc Hs)
    as (updated & n & Hrun & Hm & Hkeep & Hseg & _).
  rewrite Hrun. cbn [snd].
  destruct (remove_segments_found course_id segment_ids
              (mkDatabase (domain_docs db) (pre ++ updated :: post)
                          (module_docs db) (lesson_docs db) n)
              pre post updated _ eq_refl Hpre Hm Hseg)
    as (restored & n2 & Hrun2 & _ & Hkeep2 & Hseg2).
  rewrite Hrun2. cbn [fst snd domain_docs course_docs module_docs lesson_docs].
  split; [reflexivity|]. exists pre, post, restored. unfold contents.
  cbn [domain_docs course_docs module_docs lesson_docs].
  assert (Hleft : filter (fun s => negb (mem s segment_ids))
                         (fold_left add_to_set segment_ids olds)
                  = filter (fun s => negb (mem s segment_ids)) olds).
  { destruct (add_each_prefix segment_ids olds) as (more & Hmore & Hin).
    rewrite Hmore, filter_app.
    rewrite <- (app_nil_r (filter _ olds)) at 2. f_equal.
    clear Hmore. induction more as [|x more IH]; [reflexivity|].
    cbn [filter].
    assert (Hx : mem x segment_ids = true) by (apply mem_In, Hin; now left).
    rewrite Hx. cbn [negb]. apply IH. intros; apply Hin; now right. }
  repeat split; auto.
  - intros k Hk. now rewrite Hkeep2, Hkeep.
  - now rewrite Hseg2, Hleft.
  - intros Hfresh. rewrite Hseg2, Hleft. f_equal.
    clear - Hfresh. induction olds as [|x olds IH]; [reflexivity|].
    cbn [filter].
    assert (Hx : mem x segment_ids = false).
    { destruct (mem x segment_ids) eqn:E; [|reflexivity].
      apply mem_In in E. exfalso. apply (Hfresh x E). now left. }
    rewrite Hx. cbn [negb]. f_equal. apply IH.
    intros s Hin Hold. apply (Hfresh s Hin). now right.
Qed.

(** X23. [delete_course], with the server in reach and [courses_ids]
    an array in every domain that has the field. It answers that the
    course and its data are deleted, whether or not there was a
    course of the identifier. Afterwards the first course document of
    the identifier is gone and every other course document is there,
    a second one of the same identifier too; the modules and the
    lessons are those of other courses, in their order; no domain
    lists the course, and every domain has its other courses and its
    other fields as before. *)
Theorem delete_course_cascades (course_id : string) (db : Database) :
  (forall d, In d (domain_docs db) -> elements "courses_ids" d <> None) ->
  let r := delete_course course_id db in
  fst r = Return (Pipeline.Message
                    "Course and associated data deleted successfully")
  /\ match find (matches "course_id" course_id) (course_docs db) with
     | None => course_docs (snd r) = course_docs db
     | Some course =>
         exists pre post,
           course_docs db = pre ++ course :: post
           /\ find (matches "course_id" course_id) pre = None
           /\ course_docs (snd r) = pre ++ post
     end
  /\ module_docs (snd r)
     = filter (fun d => negb (matches "course_id" course_id d))
              (module_docs db)
  /\ lesson_docs (snd r)
     = filter (fun d => negb (matches "course_id" course_id d))
              (lesson_docs db)
  /\ Forall2 (pulled course_id) (domain_docs db) (domain_docs (snd r))
  /\ forall d, In d (domain_docs (snd r)) ->
               matches "courses_ids" course_id d = false.
Proof.
  intros Harrays r. subst r.
  destruct (pull_everywhere course_id (domain_docs db) Harrays)
    as (domains & Hrun & Hall & Hnone).
  unfold delete_course, try_except, bind, delete_one, delete_many,
    update_many.
  rewrite !request_served.
  cbn [docs with_docs counted domain_docs course_docs module_docs
       lesson_docs requests].
  rewrite ?request_served.
  cbn [docs with_docs counted domain_docs course_docs module_docs
       lesson_docs requests].
  rewrite Hrun. unfold ret.
  cbn [fst snd docs with_docs counted domain_docs course_docs module_docs
       lesson_docs requests].
  repeat split; auto.
  destruct (find _ (course_docs db)) as [course|] eqn:F.
  - destruct (find_split _ _ _ F) as (pre & post & Hds & Hpre & Hm).
    exists pre, post. rewrite Hds. repeat split; auto.
    now apply delete_first_split.
  - now apply delete_first_none.
Qed.

(** X24. [edit_course] and [edit_trending_popular_course], with the
    server in reach. For an identifier no course has, [edit_course]
    answers that no course was found, and
    [edit_trending_popular_course] that the course was updated; both
    change nothing. For an identifier a course has, both answer that
    the course was updated; the first course of the identifier has
    the fields of the request, and its other fields, and every other
    document, are as before. *)
Theorem edit_course_needs_the_course
        (course_id course_name level image_uri description : string)
        (is_popular is_trending : bool) (db : Database) :
  let edited :=
    edit_course course_id course_name level image_uri description db in
  let flagged :=
    edit_trending_popular_course course_id is_popular is_trending db in
  fst flagged = Return (Pipeline.Message "Course Updated Successfully")
  /\ match find (matches "course_id" course_id) (course_docs db) with
     | None =>
         fst edited = Return (Pipeline.Message "No Course Found")
         /\ contents (snd edited) = contents db
         /\ contents (snd flagged) = contents db
     | Some course =>
         fst edited = Return (Pipeline.Message "Course Updated Successfully")
         /\ exists pre post,
              course_docs db = pre ++ course :: post
              /\ (exists updated,
                     contents (snd edited)
                     = (domain_docs db, pre ++ updated :: post,
                        module_docs db, lesson_docs db)
                     /\ Dicts.get "level" updated = Some (Text level)
                     /\ Dicts.get "image_uri" updated = Some (Text image_uri)
                     /\ Dicts.get "description" updated
                        = Some (Text description)
                     /\ Dicts.get "course_name" updated
                        = Some (Text course_name)
                     /\ forall k,
                          ~ In k ["level"; "image_uri"; "description";
                                  "course_name"] ->
                          Dicts.get k updated = Dicts.get k course)
              /\ (exists updated,
                     contents (snd flagged)
                     = (domain_docs db, pre ++ updated :: post,
                        module_docs db, lesson_docs db)
                     /\ Dicts.get "is_popular" updated
                        = Some (Flag is_popular)
                     /\ Dicts.get "is_trending" updated
                        = Some (Flag is_trending)
                     /\ forall k,
                          ~ In k ["is_popular"; "is_trending"] ->
                          Dicts.get k updated = Dicts.get k course)
     end.
Proof.
  intros edited flagged. subst edited flagged.
  unfold edit_course, edit_trending_popular_course, try_except, bind,
    find_one, update_one.
  rewrite !request_served.
  cbn [docs with_docs counted domain_docs course_docs module_docs
       lesson_docs requests].
  set (flags := [("is_popular", Flag is_popular);
                 ("is_trending", Flag is_trending)]).
  set (texts := [("level", Text level); ("image_uri", Text image_uri);
                 ("description", Text description);
                 ("course_name", Text course_name)]).
  assert (Hflags : NoDup (Dicts.keys flags)).
  { repeat constructor; cbn; intuition discriminate. }
  assert (Htexts : NoDup (Dicts.keys texts)).
  { repeat constructor; cbn; intuition discriminate. }
  destruct (find _ (course_docs db)) as [course|] eqn:F.
  - destruct (find_split _ _ _ F) as (pre & post & Hds & Hpre & Hm).
    rewrite !request_served.
    cbn [docs with_docs counted domain_docs course_docs module_docs
         lesson_docs requests].
    rewrite Hds, !(update_first_split _ _ _ _ _ Hpre Hm).
    unfold set_fields, ret, contents.
    cbn [option_map fst snd with_docs domain_docs course_docs module_docs
         lesson_docs].
    split; [reflexivity|]. split; [reflexivity|].
    exists pre, post. split; [reflexivity|]. split.
    + eexists. split; [reflexivity|].
      rewrite !(get_unpack _ _ _ Htexts). repeat split.
      intros k Hk. now rewrite (get_unpack _ _ _ Htexts), (get_absent k texts Hk).
    + eexists. split; [reflexivity|].
      rewrite !(get_unpack _ _ _ Hflags). repeat split.
      intros k Hk. now rewrite (get_unpack _ _ _ Hflags), (get_absent k flags Hk).
  - rewrite (update_first_none _ _ _ F). unfold ret, contents.
    cbn [fst snd with_docs domain_docs course_docs module_docs lesson_docs].
    repeat split.
Qed.

End Methods.

Section Failures.
Context {ext : External}.

(** X25. [delete_course] when the server is lost after the first
    request: the course document is deleted, the modules, the lessons
    and the domains are as they were, and the error is raised as a
    [CustomException]. *)
Theorem delete_course_interrupted (course_id : string) (db : Database) :
  mongo_available (requests db) = true ->
  mongo_available (S (requests db)) = false ->
  let r := delete_course course_id db in
  fst r = Raise (CustomException DriverError)
  /\ contents (snd r)
     = (domain_docs db,
        delete_first (matches "course_id" course_id) (course_docs db),
        module_docs db, lesson_docs db).
Proof.
  intros H1 H2 r. subst r.
  unfold delete_course, try_except, bind, delete_one, delete_many, request.
  rewrite H1.
  cbn [docs with_docs counted domain_docs course_docs module_docs
       lesson_docs requests].
  rewrite H2. split; reflexivity.
Qed.

(** X26. The routes over these methods with the server out of reach:
    none raises and none changes a document. The routes of the
    segments return the [CustomException] their method built around
    the error; the routes that edit and delete return a
    [CustomException] around the one their method raised. *)
Theorem course_routes_out_of_reach
        (course_id segment_id course_name level image_uri description : string)
        (segment_ids : list string) (is_popular is_trending : bool)
        (db : Database) :
  mongo_available (requests db) = false ->
  let once {A} : Result (Returned A) * Database :=
    (Return (ExceptionObject (CustomException DriverError)), counted db) in
  let twice {A} : Result (Returned A) * Database :=
    (Return (ExceptionObject (CustomException (CustomException DriverError))),
     counted db) in
  CourseEndpoints.get_courses_by_segment_id segment_id db = once
  /\ CourseEndpoints.add_segment_to_course course_id segment_ids db = once
  /\ CourseEndpoints.remove_segment_from_course course_id segment_ids db
     = once
  /\ CourseEndpoints.edit_trending_popular_course course_id is_popular
       is_trending db = twice
  /\ CourseEndpoints.update_course course_id course_name level image_uri
       description db = twice
  /\ CourseEndpoints.delete_course course_id db = twice.
Proof.
  intros H once twice. subst once twice.
  unfold CourseEndpoints.get_courses_by_segment_id,
    CourseEndpoints.add_segment_to_course,
    CourseEndpoints.remove_segment_from_course,
    CourseEndpoints.edit_trending_popular_course,
    CourseEndpoints.update_course, CourseEndpoints.delete_course,
    CourseEndpoints.route, CourseEndpoints.returned,
    get_courses_by_segment_id, add_segment_to_course,
    remove_segments_from_course, edit_trending_popular_course, edit_course,
    delete_course, try_except, bind, aggregate, find_one, update_one,
    delete_one, request.
  rewrite H. repeat split.
Qed.

End Failures.

End CourseMethods.

Module CourseMethodsExamples.
Import PyStr Effects Mongo Courses CourseMethods Samples SampleDocuments.

Lemma add_segment_to_course_adds_once_witness :
  fst (@add_segment_to_course answering "c1" ["s2"; "s3"] catalogue)
  = Return (Result_ true)
  /\ @add_segment_to_course answering "c9" ["s2"; "s3"] catalogue
     = (Return (Result_ false), counted catalogue).
Proof.
  split.
  - exact (proj1 (@add_segment_to_course_adds_once answering (fun _ => eq_refl)
                    "c1" ["s2"; "s3"] catalogue ["s1"; "s2"] eq_refl)).
  - reflexivity.
Defined.

Lemma remove_segments_from_course_removes_each_witness :
  fst (@remove_segments_from_course answering "c1" ["s2"; "s3"] catalogue)
  = Return (Result_ true)
  /\ @remove_segments_from_course answering "c9" ["s2"; "s3"] catalogue
     = (Return (Result_ false), counted catalogue).
Proof.
  split.
  - exact (proj1 (@remove_segments_from_course_removes_each answering
                    (fun _ => eq_refl) "c1" ["s2"; "s3"] catalogue ["s1"; "s2"]
                    eq_refl)).
  - reflexivity.
Defined.

Lemma add_then_remove_segments_witness :
  fst (@remove_segments_from_course answering "c1" ["s2"; "s3"]
         (snd (@add_segment_to_course answering "c1" ["s2"; "s3"] catalogue)))
  = Return (Result_ true)
  /\ course_docs
       (snd (@remove_segments_from_course answering "c1" ["s2"; "s3"]
               (snd (@add_segment_to_course answering "c1" ["s2"; "s3"]
                       catalogue))))
     = [Dicts.set "segment_ids" (Strings ["s1"]) python_doc; rust_doc].
Proof.
  split.
  - exact (proj1 (@add_then_remove_segments answering (fun _ => eq_refl) "c1"
                    ["s2"; "s3"] catalogue python_doc ["s1"; "s2"] eq_refl
                    eq_refl)).
  - reflexivity.
Defined.

Lemma delete_course_cascades_witness :
  fst (@delete_course answering "c1" catalogue)
  = Return (Pipeline.Message "Course and associated data deleted successfully")
  /\ contents (snd (@delete_course answering "c1" catalogue))
     = ([[("domain_id", Text "d1"); ("courses_ids", Strings ["c2"])]],
        [rust_doc], [rust_module], []).
Proof.
  split.
  - refine (proj1 (@delete_course_cascades answering (fun _ => eq_refl) "c1"
                     catalogue _)).
    intros d [<-|[]]. discriminate.
  - reflexivity.
Defined.

Lemma delete_course_interrupted_witness :
  fst (@delete_course database_lost "c1" (counted catalogue))
  = Raise (CustomException DriverError)
  /\ contents (snd (@delete_course database_lost "c1" (counted catalogue)))
     = ([programming_doc], [rust_doc], [python_module; rust_module],
        [python_lesson]).
Proof.
  exact (@delete_course_interrupted database_lost "c1" (counted catalogue)
           eq_refl eq_refl).
Defined.

Lemma edit_course_needs_the_course_witness :
  fst (@edit_trending_popular_course answering "c9" true true catalogue)
  = Return (Pipeline.Message "Course Updated Successfully")
  /\ fst (@edit_course answering "c9" "Go" "advanced" "go.png" "Learn Go"
            catalogue)
     = Return (Pipeline.Message "No Course Found").
Proof.
  destruct (@edit_course_needs_the_course answering (fun _ => eq_refl) "c9" "Go"
              "advanced" "go.png" "Learn Go" true true catalogue)
    as (Hflagged & Hedited & _).
  split; [exact Hflagged|exact Hedited].
Defined.

Lemma course_routes_out_of_reach_witness :
  @CourseEndpoints.add_segment_to_course database_down "c1" ["s3"] catalogue
  = (Return (ExceptionObject (CustomException DriverError)), counted catalogue)
  /\ @CourseEndpoints.delete_course database_down "c1" catalogue
     = (Return (ExceptionObject (CustomException (CustomException DriverError))),
        counted catalogue).
Proof.
  destruct (@course_routes_out_of_reach database_down "c1" "s1" "Go" "advanced"
              "go.png" "Learn Go" ["s3"] true true catalogue eq_refl)
    as (_ & Hadd & _ & _ & _ & Hdelete).
  split; [exact Hadd|exact Hdelete].
Defined.

End CourseMethodsExamples.
